(** * Virtual Reviewer front end: interview orchestration and avatar session

    A shallow embedding of the TypeScript sources that carry the behaviour
    of the client:

    - [src/api/interviewApi.ts], the session protocol client ([Module Api]);
    - the [InterviewRoom] component, the interview state machine
      ([Module InterviewRoom]);
    - the [AvatarVideo] component, the real-time media session controller
      ([Module AvatarVideo]);
    - the [MicControl] component, a stand-alone record button
      ([Module MicControl]).

    Asynchronous functions are run to completion: every [await] is answered
    by an explicit settlement (a value or a thrown error) that the caller of
    the model supplies, so each handler is a total function from the state
    before to the state after, together with the log of what it asked of
    its collaborators.  Wall-clock time is not modelled; a [setTimeout] is a
    pending task that records its delay. *)

From Stdlib Require Import ZArith Lia Bool Ascii String List DecimalString.
From stdpp Require Import base option list strings gmap.

Open Scope string_scope.
Open Scope list_scope.

Set Warnings "-register-all".

(* ================================================================== *)
(** * Part I. The embedding *)
(* ================================================================== *)

(** ** JavaScript values, errors and promises *)

Module Js.

(** What [res.json()] can produce.  Numbers are the integer-valued ones. *)
Inductive json : Type :=
| JNull
| JBool (b : bool)
| JNum (n : Z)
| JStr (s : string)
| JArr (items : list json)
| JObj (props : list (string * json)).

(** What can be thrown.  [Error m tag] is [new Error(m)], with [tag] the
    [isConcurrencyLimit] property set on it afterwards; [m] is the value
    handed to the constructor. *)
Inductive exn : Type :=
| Error (message : json) (isConcurrencyLimit : bool)
| TypeError
| SyntaxError
| NetworkError
| DOMException (name : string).

(** A settled promise, or the outcome of a block that may throw. *)
Inductive result (A : Type) : Type :=
| Resolve (a : A)
| Reject (e : exn).
Arguments Resolve {A} a.
Arguments Reject {A} e.

#[global] Instance result_ret : MRet result := @Resolve.
#[global] Instance result_bind : MBind result := fun A B k c =>
  match c with
  | Resolve a => k a
  | Reject e => Reject e
  end.

Definition Blob : Type := list Byte.byte.

(** ToBoolean. *)
Definition truthy (v : json) : bool :=
  match v with
  | JNull => false
  | JBool b => b
  | JNum n => negb (n =? 0)%Z
  | JStr s => negb (String.eqb s "")
  | JArr _ => true
  | JObj _ => true
  end.

(** A property read yields [None] for [undefined]. *)
Definition truthy_opt (v : option json) : bool :=
  match v with
  | Some x => truthy x
  | None => false
  end.

(** The value of [v] when it is truthy. *)
Definition whenTruthy (v : option json) : option json :=
  match v with
  | Some x => if truthy x then Some x else None
  | None => None
  end.

(** [a || b]. *)
Definition or_else (a : option json) (b : json) : json :=
  match whenTruthy a with
  | Some x => x
  | None => b
  end.

Fixpoint assoc (k : string) (ps : list (string * json)) : option json :=
  match ps with
  | [] => None
  | (k', v) :: rest => if String.eqb k k' then Some v else assoc k rest
  end.

(** [v.k] for a property name [k] that no primitive or array carries:
    reading from [null] throws, from an object it is a lookup, from
    anything else it is [undefined]. *)
Definition prop (v : json) (k : string) : result (option json) :=
  match v with
  | JNull => Reject TypeError
  | JObj ps => Resolve (assoc k ps)
  | _ => Resolve None
  end.

(** [String.prototype.toLowerCase] on the ASCII letters; the other code
    units are left as they are. *)
Definition lower (c : ascii) : ascii :=
  let n := nat_of_ascii c in
  if (65 <=? n)%nat && (n <=? 90)%nat then ascii_of_nat (n + 32) else c.

Fixpoint toLowerCase (s : string) : string :=
  match s with
  | EmptyString => EmptyString
  | String c rest => String (lower c) (toLowerCase rest)
  end.

(** [hay.includes(needle)]. *)
Fixpoint includes (needle hay : string) : bool :=
  if String.prefix needle hay then true
  else match hay with
       | EmptyString => false
       | String _ rest => includes needle rest
       end.

(** Truthiness of a string, and the value of a [string | null] when it is
    truthy. *)
Definition nonEmpty (s : string) : bool := negb (String.eqb s "").

Definition present (s : option string) : option string :=
  match s with
  | Some x => if nonEmpty x then Some x else None
  | None => None
  end.

(** [s.padStart(targetLength, padString)]: the pad is [padString] repeated
    and cut to the missing length; nothing is added when [s] is long enough
    or [padString] is empty. *)
Fixpoint cycle (n : nat) (padString rest : string) : string :=
  match n with
  | O => EmptyString
  | S k =>
      match rest with
      | String c r => String c (cycle k padString r)
      | EmptyString =>
          match padString with
          | String c r => String c (cycle k padString r)
          | EmptyString => EmptyString
          end
      end
  end.

Definition padStart (targetLength : nat) (padString s : string) : string :=
  if (String.length s <? targetLength)%nat
  then cycle (targetLength - String.length s) padString padString +:+ s
  else s.

(** Decimal rendering of an integer inside a template literal. *)
Definition showNumber (n : Z) : string :=
  NilZero.string_of_int (Z.to_int n).

End Js.

(** ** The session protocol client ([interviewApi.ts]) *)

Module Api.
Import Js.

Definition BASE_URL : string :=
  "https://virtual-reviewer-backend.onrender.com/api/v1".

Inductive Method : Type := GET | POST.

Inductive Payload : Type :=
| NoBody
| JsonBody (v : json)
| FormData (audio : Blob).

Record Request : Type := {
  url : string;
  method : Method;
  payload : Payload
}.

(** A response as the client reads it: [res.ok], [res.statusText], and
    the value [res.json()] resolves to ([None] when it rejects). *)
Record Response : Type := {
  ok : bool;
  statusText : string;
  parsed : option json
}.

Inductive FetchOutcome : Type :=
| Unreachable
| Responded (res : Response).

Inductive Mode : Type := FULL | BASIC.

Record CreateAvatarSessionRequest : Type := {
  avatar_id : option string;
  voice_id : option string;
  mode : option Mode;
  auto_greeting : option bool
}.

Record CreateInterviewSessionRequest : Type := {
  week_number : Z
}.

Record StopAvatarSessionRequest : Type := {
  stop_session_token : option string;
  stop_session_id : option string
}.

(** [JSON.stringify] leaves out the properties that are [undefined]; the
    body is kept as the value that is serialized. *)
Definition field {A} (k : string) (enc : A -> json) (v : option A)
  : list (string * json) :=
  match v with
  | Some x => [(k, enc x)]
  | None => []
  end.

Definition encodeMode (m : Mode) : json :=
  match m with
  | FULL => JStr "FULL"
  | BASIC => JStr "BASIC"
  end.

Definition encodeAvatarRequest (o : CreateAvatarSessionRequest) : json :=
  JObj (field "avatar_id" JStr (avatar_id o)
        ++ field "voice_id" JStr (voice_id o)
        ++ field "mode" encodeMode (mode o)
        ++ field "auto_greeting" JBool (auto_greeting o)).

Definition encodeStopRequest (o : StopAvatarSessionRequest) : json :=
  JObj (field "session_token" JStr (stop_session_token o)
        ++ field "session_id" JStr (stop_session_id o)).

(** [await res.json()]. *)
Definition json_of (res : Response) : result json :=
  match parsed res with
  | Some v => Resolve v
  | None => Reject SyntaxError
  end.

(** [await res.json().catch(() => ({ detail: res.statusText }))]. *)
Definition errorBody (res : Response) : json :=
  match parsed res with
  | Some v => v
  | None => JObj [("detail", JStr (statusText res))]
  end.

(** [error.detail || `<fallback>${res.statusText}`], for a response that
    is not [ok]. *)
Definition failureMessage (fallback : string) (res : Response)
  : result json :=
  detail ← prop (errorBody res) "detail";
  mret (or_else detail (JStr (fallback +:+ statusText res))).

Definition CONCURRENCY_LIMIT : string := "concurrency limit".

(** [errorMessage.toLowerCase().includes("concurrency limit")]: only a
    string has [toLowerCase]. *)
Definition mentionsConcurrencyLimit (errorMessage : json) : result bool :=
  match errorMessage with
  | JStr s => Resolve (includes CONCURRENCY_LIMIT (toLowerCase s))
  | _ => Reject TypeError
  end.

(** The two throws that follow the test, shared by both branches of
    [createAvatarSession]. *)
Definition throwAvatarError {A} (errorMessage : json) : result A :=
  limited ← mentionsConcurrencyLimit errorMessage;
  if limited : bool then Reject (Error errorMessage true)
  else Reject (Error errorMessage false).

Section Client.

(** The network: what [fetch] answers to each request. *)
Variable fetch : Request -> FetchOutcome.

Definition awaitFetch (req : Request) : result Response :=
  match fetch req with
  | Unreachable => Reject NetworkError
  | Responded res => Resolve res
  end.

Definition createInterviewSession (request : CreateInterviewSessionRequest)
  : result json :=
  res ← awaitFetch {|
    url := BASE_URL +:+ "/interview/session/create/";
    method := POST;
    payload := JsonBody (JObj [("week_number", JNum (week_number request))])
  |};
  if negb (ok res) then
    m ← failureMessage "Failed to create interview session: " res;
    Reject (Error m false)
  else
    data ← json_of res;
    detail ← prop data "detail";
    match whenTruthy detail with
    | Some d => Reject (Error d false)
    | None =>
        session_id ← prop data "session_id";
        if negb (truthy_opt session_id)
        then Reject (Error (JStr "Missing session_id in response") false)
        else Resolve data
    end.

Definition submitAnswer (sessionId : string) (audioBlob : Blob)
  : result json :=
  res ← awaitFetch {|
    url := BASE_URL +:+ "/interview/session/" +:+ sessionId +:+ "/audio/";
    method := POST;
    payload := FormData audioBlob
  |};
  if negb (ok res) then
    m ← failureMessage "Failed to submit answer: " res;
    Reject (Error m false)
  else json_of res.

Definition getSessionLogs (sessionId : string) : result json :=
  res ← awaitFetch {|
    url := BASE_URL +:+ "/interview/session/" +:+ sessionId +:+ "/logs/";
    method := GET;
    payload := NoBody
  |};
  json_of res.

Definition createAvatarSession (options : option CreateAvatarSessionRequest)
  : result json :=
  res ← awaitFetch {|
    url := BASE_URL +:+ "/interview/avatar/session/create/";
    method := POST;
    payload := JsonBody (match options with
                         | Some o => encodeAvatarRequest o
                         | None => JObj []
                         end)
  |};
  if negb (ok res) then
    errorMessage ← failureMessage "Failed to create avatar session: " res;
    throwAvatarError errorMessage
  else
    data ← json_of res;
    detail ← prop data "detail";
    match whenTruthy detail with
    | Some errorMessage => throwAvatarError errorMessage
    | None =>
        livekit_url ← prop data "livekit_url";
        livekit_token ← prop data "livekit_token";
        if negb (truthy_opt livekit_url) || negb (truthy_opt livekit_token)
        then Reject (Error (JStr "Missing LiveKit connection details in response") false)
        else Resolve data
    end.

Definition avatarSpeak (sessionToken text : string) : result json :=
  res ← awaitFetch {|
    url := BASE_URL +:+ "/interview/avatar/" +:+ sessionToken +:+ "/speak/";
    method := POST;
    payload := JsonBody (JObj [("text", JStr text)])
  |};
  json_of res.

Definition stopAvatarSession (request : StopAvatarSessionRequest)
  : result json :=
  res ← awaitFetch {|
    url := BASE_URL +:+ "/interview/avatar/session/stop/";
    method := POST;
    payload := JsonBody (encodeStopRequest request)
  |};
  if negb (ok res) then
    Reject (Error (JStr ("Failed to stop avatar session: " +:+ statusText res)) false)
  else json_of res.

Definition getQuestion (sessionId : string) (questionIndex : Z)
  : result json :=
  res ← awaitFetch {|
    url := BASE_URL +:+ "/interview/session/" +:+ sessionId
           +:+ "/question/" +:+ showNumber questionIndex +:+ "/";
    method := GET;
    payload := NoBody
  |};
  if negb (ok res) then
    m ← failureMessage "Failed to get question: " res;
    Reject (Error m false)
  else json_of res.

Definition speakTTS (text : string) : result json :=
  res ← awaitFetch {|
    url := BASE_URL +:+ "/interview/tts/speak/";
    method := POST;
    payload := JsonBody (JObj [("text", JStr text)])
  |};
  if negb (ok res) then
    m ← failureMessage "Failed to generate TTS: " res;
    Reject (Error m false)
  else json_of res.

Definition completeSession (sessionId : string) : result json :=
  res ← awaitFetch {|
    url := BASE_URL +:+ "/interview/session/" +:+ sessionId +:+ "/complete/";
    method := POST;
    payload := NoBody
  |};
  if negb (ok res) then
    m ← failureMessage "Failed to complete session: " res;
    Reject (Error m false)
  else json_of res.

Definition getSessionResults (sessionId : string) : result json :=
  res ← awaitFetch {|
    url := BASE_URL +:+ "/interview/session/" +:+ sessionId +:+ "/results/";
    method := GET;
    payload := NoBody
  |};
  if negb (ok res) then
    m ← failureMessage "Failed to get session results: " res;
    Reject (Error m false)
  else json_of res.

End Client.

End Api.

(** ** Handlers as state transformers that may throw *)

Module Eff.
Import Js.

(** A computation over a world [W]: it ends with a value or a thrown error,
    and the world keeps every write made before the throw. *)
Definition M (W A : Type) : Type := W -> result A * W.

Definition ret {W A} (a : A) : M W A := fun w => (Resolve a, w).

Definition bind {W A B} (c : M W A) (k : A -> M W B) : M W B :=
  fun w =>
    match c w with
    | (Resolve a, w') => k a w'
    | (Reject e, w') => (Reject e, w')
    end.

#[global] Instance M_ret W : MRet (M W) := @ret W.
#[global] Instance M_bind W : MBind (M W) := fun A B k c => bind c k.

Definition gets {W A} (f : W -> A) : M W A := fun w => (Resolve (f w), w).

Definition modify {W} (f : W -> W) : M W unit := fun w => (Resolve tt, f w).

Definition throw {W A} (e : exn) : M W A := fun w => (Reject e, w).

(** [await p] for a promise whose settlement is known. *)
Definition await {W A} (p : result A) : M W A := fun w => (p, w).

(** [try { body } catch (error) { handler }]. *)
Definition tryCatch {W A} (body : M W A) (handler : exn -> M W A) : M W A :=
  fun w =>
    match body w with
    | (Resolve a, w') => (Resolve a, w')
    | (Reject e, w') => handler e w'
    end.

(** [try { body } finally { final }], for a [final] that does not return. *)
Definition tryFinally {W A} (body : M W A) (final : M W unit) : M W A :=
  fun w =>
    match body w with
    | (r, w') =>
        match final w' with
        | (Resolve _, w'') => (r, w'')
        | (Reject e, w'') => (Reject e, w'')
        end
    end.

(** [xs.forEach(f)]. *)
Fixpoint forEach {W A} (f : A -> M W unit) (xs : list A) : M W unit :=
  match xs with
  | [] => ret tt
  | x :: rest => bind (f x) (fun _ => forEach f rest)
  end.

End Eff.

(** ** The interview state machine ([InterviewRoom])

    The component receives the client's results at the types it declares
    for them, so the settlements below are typed records.  A handler reads
    and writes the cells of the component directly: the renders between
    two handlers, and the values a closure captured from an earlier
    render, are not kept apart. *)

Module InterviewRoom.
Import Js Eff.

Definition WEEK_NUMBER : Z := 4.

Inductive Phase : Type := idle | asking | listening | processing | completing.

(** The client's results at the types the component declares for them. *)
Record Week : Type := {
  week : Z;
  title : string;
  description : string;
  concepts : list json
}.

Record InterviewSessionResponse : Type := {
  session_id : string;
  session_week : Week;
  total_questions : Z
}.

Module Question.
Record t : Type := {
  question_text : string;
  question_index : Z
}.
End Question.

Record TTSResponse : Type := {
  audio_url : string;
  audio_base64 : option string
}.

Module Feedback.
Record t : Type := {
  score : Z;
  missed_points : list string;
  red_flags : list string;
  summary : string
}.
End Feedback.

Record SubmitAnswerResponse : Type := {
  transcript : string;
  score : Z;
  feedback : Feedback.t;
  current_question : string;
  next_question : option string;
  question_index : Z;
  is_complete : bool
}.

Record SessionResultsResponse : Type := {
  performance_score : Z;
  mentor_feedback : string;
  time_elapsed_sec : Z;
  time_elapsed_formatted : string;
  skill_breakdown : option (list (string * Z));
  questions_answered : Z;
  average_score : Z
}.

(** The [useState] cells. *)
Record State : Type := {
  hasStarted : bool;
  hasFinished : bool;
  isListening : bool;
  currentQuestionIndex : Z;
  timer : Z;
  interviewState : Phase;
  sessionId : option string;
  weekData : option Week;
  currentQuestion : string;
  sessionResults : option SessionResultsResponse;
  apiConnectionError : bool;
  isInitializing : bool
}.

(** The pure part of each [useState] setter. *)
Definition with_hasStarted (v : bool) (s : State) : State :=
  {| hasStarted := v;
     hasFinished := hasFinished s;
     isListening := isListening s;
     currentQuestionIndex := currentQuestionIndex s;
     timer := timer s;
     interviewState := interviewState s;
     sessionId := sessionId s;
     weekData := weekData s;
     currentQuestion := currentQuestion s;
     sessionResults := sessionResults s;
     apiConnectionError := apiConnectionError s;
     isInitializing := isInitializing s |}.

Definition with_hasFinished (v : bool) (s : State) : State :=
  {| hasStarted := hasStarted s;
     hasFinished := v;
     isListening := isListening s;
     currentQuestionIndex := currentQuestionIndex s;
     timer := timer s;
     interviewState := interviewState s;
     sessionId := sessionId s;
     weekData := weekData s;
     currentQuestion := currentQuestion s;
     sessionResults := sessionResults s;
     apiConnectionError := apiConnectionError s;
     isInitializing := isInitializing s |}.

Definition with_isListening (v : bool) (s : State) : State :=
  {| hasStarted := hasStarted s;
     hasFinished := hasFinished s;
     isListening := v;
     currentQuestionIndex := currentQuestionIndex s;
     timer := timer s;
     interviewState := interviewState s;
     sessionId := sessionId s;
     weekData := weekData s;
     currentQuestion := currentQuestion s;
     sessionResults := sessionResults s;
     apiConnectionError := apiConnectionError s;
     isInitializing := isInitializing s |}.

Definition with_currentQuestionIndex (v : Z) (s : State) : State :=
  {| hasStarted := hasStarted s;
     hasFinished := hasFinished s;
     isListening := isListening s;
     currentQuestionIndex := v;
     timer := timer s;
     interviewState := interviewState s;
     sessionId := sessionId s;
     weekData := weekData s;
     currentQuestion := currentQuestion s;
     sessionResults := sessionResults s;
     apiConnectionError := apiConnectionError s;
     isInitializing := isInitializing s |}.

Definition with_timer (v : Z) (s : State) : State :=
  {| hasStarted := hasStarted s;
     hasFinished := hasFinished s;
     isListening := isListening s;
     currentQuestionIndex := currentQuestionIndex s;
     timer := v;
     interviewState := interviewState s;
     sessionId := sessionId s;
     weekData := weekData s;
     currentQuestion := currentQuestion s;
     sessionResults := sessionResults s;
     apiConnectionError := apiConnectionError s;
     isInitializing := isInitializing s |}.

Definition with_interviewState (v : Phase) (s : State) : State :=
  {| hasStarted := hasStarted s;
     hasFinished := hasFinished s;
     isListening := isListening s;
     currentQuestionIndex := currentQuestionIndex s;
     timer := timer s;
     interviewState := v;
     sessionId := sessionId s;
     weekData := weekData s;
     currentQuestion := currentQuestion s;
     sessionResults := sessionResults s;
     apiConnectionError := apiConnectionError s;
     isInitializing := isInitializing s |}.

Definition with_sessionId (v : option string) (s : State) : State :=
  {| hasStarted := hasStarted s;
     hasFinished := hasFinished s;
     isListening := isListening s;
     currentQuestionIndex := currentQuestionIndex s;
     timer := timer s;
     interviewState := interviewState s;
     sessionId := v;
     weekData := weekData s;
     currentQuestion := currentQuestion s;
     sessionResults := sessionResults s;
     apiConnectionError := apiConnectionError s;
     isInitializing := isInitializing s |}.

Definition with_weekData (v : option Week) (s : State) : State :=
  {| hasStarted := hasStarted s;
     hasFinished := hasFinished s;
     isListening := isListening s;
     currentQuestionIndex := currentQuestionIndex s;
     timer := timer s;
     interviewState := interviewState s;
     sessionId := sessionId s;
     weekData := v;
     currentQuestion := currentQuestion s;
     sessionResults := sessionResults s;
     apiConnectionError := apiConnectionError s;
     isInitializing := isInitializing s |}.

Definition with_currentQuestion (v : string) (s : State) : State :=
  {| hasStarted := hasStarted s;
     hasFinished := hasFinished s;
     isListening := isListening s;
     currentQuestionIndex := currentQuestionIndex s;
     timer := timer s;
     interviewState := interviewState s;
     sessionId := sessionId s;
     weekData := weekData s;
     currentQuestion := v;
     sessionResults := sessionResults s;
     apiConnectionError := apiConnectionError s;
     isInitializing := isInitializing s |}.

Definition with_sessionResults (v : option SessionResultsResponse) (s : State) : State :=
  {| hasStarted := hasStarted s;
     hasFinished := hasFinished s;
     isListening := isListening s;
     currentQuestionIndex := currentQuestionIndex s;
     timer := timer s;
     interviewState := interviewState s;
     sessionId := sessionId s;
     weekData := weekData s;
     currentQuestion := currentQuestion s;
     sessionResults := v;
     apiConnectionError := apiConnectionError s;
     isInitializing := isInitializing s |}.

Definition with_apiConnectionError (v : bool) (s : State) : State :=
  {| hasStarted := hasStarted s;
     hasFinished := hasFinished s;
     isListening := isListening s;
     currentQuestionIndex := currentQuestionIndex s;
     timer := timer s;
     interviewState := interviewState s;
     sessionId := sessionId s;
     weekData := weekData s;
     currentQuestion := currentQuestion s;
     sessionResults := sessionResults s;
     apiConnectionError := v;
     isInitializing := isInitializing s |}.

Definition with_isInitializing (v : bool) (s : State) : State :=
  {| hasStarted := hasStarted s;
     hasFinished := hasFinished s;
     isListening := isListening s;
     currentQuestionIndex := currentQuestionIndex s;
     timer := timer s;
     interviewState := interviewState s;
     sessionId := sessionId s;
     weekData := weekData s;
     currentQuestion := currentQuestion s;
     sessionResults := sessionResults s;
     apiConnectionError := apiConnectionError s;
     isInitializing := v |}.

Definition initialState : State :=
  {| hasStarted := false; hasFinished := false; isListening := false;
     currentQuestionIndex := 0; timer := 0; interviewState := idle;
     sessionId := None; weekData := None; currentQuestion := "";
     sessionResults := None; apiConnectionError := false;
     isInitializing := false |}.

(** The [useRef] cells.  A [MediaRecorder] is known by its [state], an
    [Audio] element by its [src]. *)
Inductive RecordingState : Type := inactive | recording | paused.

Record Audio : Type := { src : string }.

Record Refs : Type := {
  mediaRecorderRef : option RecordingState;
  audioChunksRef : list Blob;
  audioRef : option Audio
}.

Definition initialRefs : Refs :=
  {| mediaRecorderRef := None; audioChunksRef := []; audioRef := None |}.

(** What the component asks of its collaborators, in order. *)
Inductive Event : Type :=
| CreateInterviewSession (week_number : Z)
| GetQuestion (sessionId : string) (questionIndex : Z)
| SpeakTTS (text : string)
| SubmitAnswer (sessionId : string) (audioBlob : Blob)
| CompleteSession (sessionId : string)
| GetSessionResults (sessionId : string)
| Play (source : string)
| Pause
| GetUserMedia
| RecorderStart
| RecorderStop
| StopTracks
| ConsoleError (label : string) (error : exn).

(** The callbacks handed to [setTimeout]. *)
Inductive Task : Type :=
| FinishSession (sessionId : string)
| ReturnToIdle.

Record World : Type := {
  state : State;
  refs : Refs;
  log : list Event;
  timers : list (Z * Task)
}.

Definition initialWorld : World :=
  {| state := initialState; refs := initialRefs; log := []; timers := [] |}.

(** How the collaborators settle each call. *)
Record Env : Type := {
  onCreateInterviewSession : Z -> result InterviewSessionResponse;
  onGetQuestion : string -> Z -> result Question.t;
  onSpeakTTS : string -> result TTSResponse;
  onPlay : string -> result unit;
  onSubmitAnswer : string -> Blob -> result SubmitAnswerResponse;
  onCompleteSession : string -> result bool;
  onGetSessionResults : string -> result SessionResultsResponse;
  onGetUserMedia : result unit;
  onDataAvailable : list Blob
}.

Definition onState (f : State -> State) : M World unit :=
  modify (fun w =>
    {| state := f (state w); refs := refs w; log := log w; timers := timers w |}).

Definition onRefs (f : Refs -> Refs) : M World unit :=
  modify (fun w =>
    {| state := state w; refs := f (refs w); log := log w; timers := timers w |}).

Definition emit (e : Event) : M World unit :=
  modify (fun w =>
    {| state := state w; refs := refs w; log := log w ++ [e]; timers := timers w |}).

Definition setTimeout (task : Task) (delay : Z) : M World unit :=
  modify (fun w =>
    {| state := state w; refs := refs w; log := log w;
       timers := timers w ++ [(delay, task)] |}).

(** A call to a collaborator: logged, then settled. *)
Definition call {A} (e : Event) (settlement : result A) : M World A :=
  emit e ;; await settlement.

Definition setHasStarted v := onState (with_hasStarted v).
Definition setHasFinished v := onState (with_hasFinished v).
Definition setIsListening v := onState (with_isListening v).
Definition setCurrentQuestionIndex v := onState (with_currentQuestionIndex v).
Definition setTimer v := onState (with_timer v).
Definition setInterviewState v := onState (with_interviewState v).
Definition setSessionId v := onState (with_sessionId v).
Definition setWeekData v := onState (with_weekData v).
Definition setCurrentQuestion v := onState (with_currentQuestion v).
Definition setSessionResults v := onState (with_sessionResults v).
Definition setApiConnectionError v := onState (with_apiConnectionError v).
Definition setIsInitializing v := onState (with_isInitializing v).

Definition setAudioRef (a : option Audio) : M World unit :=
  onRefs (fun r =>
    {| mediaRecorderRef := mediaRecorderRef r;
       audioChunksRef := audioChunksRef r;
       audioRef := a |}).

Definition setMediaRecorderRef (m : option RecordingState) : M World unit :=
  onRefs (fun r =>
    {| mediaRecorderRef := m;
       audioChunksRef := audioChunksRef r;
       audioRef := audioRef r |}).

Definition setAudioChunksRef (chunks : list Blob) : M World unit :=
  onRefs (fun r =>
    {| mediaRecorderRef := mediaRecorderRef r;
       audioChunksRef := chunks;
       audioRef := audioRef r |}).

Section Handlers.

Variable env : Env.

(** [await audio.play()] on an element whose [src] is [source]. *)
Definition play (source : string) : M World unit :=
  call (Play source) (onPlay env source).

Definition playTTSAudio (text : string) : M World unit :=
  tryCatch
    (ttsResponse ← call (SpeakTTS text) (onSpeakTTS env text);
     if nonEmpty (audio_url ttsResponse) then
       current ← gets (fun w => audioRef (refs w));
       match current with
       | Some _ =>
           setAudioRef (Some {| src := audio_url ttsResponse |}) ;;
           play (audio_url ttsResponse)
       | None =>
           setAudioRef (Some {| src := audio_url ttsResponse |}) ;;
           play (audio_url ttsResponse)
       end
     else
       match present (audio_base64 ttsResponse) with
       | Some b64 =>
           setAudioRef (Some {| src := "data:audio/mpeg;base64," +:+ b64 |}) ;;
           play ("data:audio/mpeg;base64," +:+ b64)
       | None => mret tt
       end)
    (fun error => emit (ConsoleError "Failed to play TTS audio:" error)).

Definition initializeSession : M World bool :=
  setIsInitializing true ;;
  setApiConnectionError false ;;
  tryFinally
    (tryCatch
       (response ← call (CreateInterviewSession WEEK_NUMBER)
                        (onCreateInterviewSession env WEEK_NUMBER);
        setSessionId (Some (session_id response)) ;;
        setWeekData (Some (session_week response)) ;;
        questionResponse ← call (GetQuestion (session_id response) 0)
                                (onGetQuestion env (session_id response) 0);
        setCurrentQuestion (Question.question_text questionResponse) ;;
        setCurrentQuestionIndex 0 ;;
        playTTSAudio (Question.question_text questionResponse) ;;
        setInterviewState idle ;;
        setApiConnectionError false ;;
        mret true)
       (fun error =>
          emit (ConsoleError "Failed to initialize session:" error) ;;
          setApiConnectionError true ;;
          mret false))
    (setIsInitializing false).

(** The [Start] button: [hasStarted] is set only when the session came up. *)
Definition startInterview : M World unit :=
  success ← initializeSession;
  if success : bool then setHasStarted true else mret tt.

(** The [Retry] button of the connection-error screen. *)
Definition retryConnection : M World unit :=
  setApiConnectionError false ;;
  _ ← initializeSession;
  mret tt.

Definition handleUserResponse (audioBlob : Blob) : M World unit :=
  captured ← gets (fun w => sessionId (state w));
  match present captured with
  | None => mret tt
  | Some sessionId =>
      tryCatch
        (data ← call (SubmitAnswer sessionId audioBlob)
                     (onSubmitAnswer env sessionId audioBlob);
         if is_complete data then
           setInterviewState completing ;;
           setTimeout (FinishSession sessionId) 2500
         else
           match present (next_question data) with
           | Some next =>
               setCurrentQuestion next ;;
               setCurrentQuestionIndex (question_index data) ;;
               setInterviewState asking ;;
               playTTSAudio next ;;
               setTimeout ReturnToIdle 1000
           | None => mret tt
           end)
        (fun error =>
           emit (ConsoleError "Failed to submit answer:" error) ;;
           setInterviewState idle)
  end.

(** The recorder's [ondataavailable] and [onstop] handlers. *)
Definition ondataavailable (data : Blob) : M World unit :=
  if (0 <? length data)%nat then
    chunks ← gets (fun w => audioChunksRef (refs w));
    setAudioChunksRef (chunks ++ [data])
  else mret tt.

Definition onstop : M World unit :=
  emit StopTracks ;;
  chunks ← gets (fun w => audioChunksRef (refs w));
  if (0 <? length chunks)%nat then handleUserResponse (concat chunks)
  else mret tt.

(** [recorder.stop()]: the recorder becomes inactive, hands over what it
    holds and then fires [stop]. *)
Definition stopRecorder : M World unit :=
  emit RecorderStop ;;
  setMediaRecorderRef (Some inactive) ;;
  forEach ondataavailable (onDataAvailable env) ;;
  onstop.

Definition toggleMic : M World unit :=
  phase ← gets (fun w => interviewState (state w));
  match phase with
  | asking | completing => mret tt
  | _ =>
      isListening ← gets (fun w => isListening (state w));
      if negb isListening then
        setIsListening true ;;
        setInterviewState listening ;;
        tryCatch
          (call GetUserMedia (onGetUserMedia env) ;;
           setMediaRecorderRef (Some inactive) ;;
           setAudioChunksRef [] ;;
           emit RecorderStart ;;
           setMediaRecorderRef (Some recording))
          (fun error =>
             emit (ConsoleError "Failed to start recording:" error) ;;
             setIsListening false ;;
             setInterviewState idle)
      else
        setIsListening false ;;
        setInterviewState processing ;;
        recorder ← gets (fun w => mediaRecorderRef (refs w));
        match recorder with
        | Some inactive | None => mret tt
        | Some _ => stopRecorder
        end
  end.

(** The body of a timer callback. *)
Definition runTask (task : Task) : M World unit :=
  match task with
  | FinishSession sessionId =>
      _ ← call (CompleteSession sessionId) (onCompleteSession env sessionId);
      results ← call (GetSessionResults sessionId)
                     (onGetSessionResults env sessionId);
      setSessionResults (Some results) ;;
      setHasFinished true
  | ReturnToIdle => setInterviewState idle
  end.

(** The [n]-th pending timer fires: it leaves the queue and its callback
    runs. *)
Definition fire (n : nat) : M World unit :=
  pending ← gets timers;
  match pending !! n with
  | None => mret tt
  | Some (_, task) =>
      modify (fun w =>
        {| state := state w; refs := refs w; log := log w;
           timers := take n (timers w) ++ drop (S n) (timers w) |}) ;;
      runTask task
  end.

(** One tick of the seconds counter, which runs while the interview has
    started and has not finished. *)
Definition tick : M World unit :=
  started ← gets (fun w => hasStarted (state w));
  finished ← gets (fun w => hasFinished (state w));
  if started && negb finished then
    t ← gets (fun w => timer (state w));
    setTimer (t + 1)%Z
  else mret tt.

Definition resetInterview : M World unit :=
  setHasStarted false ;;
  setHasFinished false ;;
  setCurrentQuestionIndex 0 ;;
  setTimer 0 ;;
  setInterviewState idle ;;
  setSessionId None ;;
  setWeekData None ;;
  setCurrentQuestion "" ;;
  setSessionResults None ;;
  setApiConnectionError false ;;
  setIsInitializing false ;;
  current ← gets (fun w => audioRef (refs w));
  match current with
  | Some _ => emit Pause ;; setAudioRef None
  | None => mret tt
  end.

End Handlers.

(** [formatTime], the label of the seconds counter. *)
Definition formatTime (seconds : Z) : string :=
  let mins := (seconds / 60)%Z in
  let secs := Z.rem seconds 60 in
  padStart 2 "0" (showNumber mins) +:+ ":" +:+ padStart 2 "0" (showNumber secs).

(** Which of its three screens the component returns. *)
Inductive Screen : Type :=
| StartScreen
| ResultsScreen (results : SessionResultsResponse)
| RoomScreen.

Definition screen (s : State) : Screen :=
  if negb (hasStarted s) then StartScreen
  else if hasFinished s then
    match sessionResults s with
    | Some results => ResultsScreen results
    | None => RoomScreen
    end
  else RoomScreen.

(** The [disabled] property of the microphone button. *)
Definition micDisabled (s : State) : bool :=
  match interviewState s with
  | completing => true
  | _ => false
  end.

(** A tap on the microphone button. *)
Definition tapMic (env : Env) : M World unit :=
  disabled ← gets (fun w => micDisabled (state w));
  if disabled : bool then mret tt else toggleMic env.

End InterviewRoom.

(** ** The real-time media session controller ([AvatarVideo])

    The LiveKit [Room] is a collaborator known by its connection state: a
    [connect] or [disconnect] that resolves moves the room to [connected]
    or [disconnected] and fires the matching event; one that rejects leaves
    the room as it was.  Diagnostic [console.log] lines are left out. *)

Module AvatarVideo.
Import Js Eff.

(** [room.state], the connection state of a LiveKit [Room]. *)
Inductive ConnectionState : Type :=
| disconnected
| connecting
| connected
| reconnecting
| signalReconnecting.

(** The one [<audio>] element that [track.attach] hands back. *)
Inductive AudioElement : Type := AudioTag.

Inductive TrackKind : Type := video | audio.

(** The refs and [useState] cells of one mounted instance. *)
Record Controller : Type := {
  roomRef : option nat;
  isCreatingRef : bool;
  hasSessionRef : bool;
  audioElementsRef : list AudioElement;
  isConnected : bool;
  showAudioEnableButton : bool
}.

Definition initialController : Controller :=
  {| roomRef := None; isCreatingRef := false; hasSessionRef := false;
     audioElementsRef := []; isConnected := false;
     showAudioEnableButton := false |}.

(** What the controller does that can be seen from outside: its calls, its
    callbacks, its warnings and errors on the console (the labels without
    the pictograph that opens some of them in the source) and its alerts. *)
Inductive Event : Type :=
| CreateAvatarSession
| SessionCreated (data : json)
| RoomConnect (room : nat) (livekit_url livekit_token : option json)
| RoomDisconnect (room : nat)
| PublishData (room : nat) (payload : json) (topic : string)
| NotifyConnected
| PlayAudio
| ResumeAudioContext
| ConsoleWarn (message : string)
| ConsoleError (label : string) (error : option exn)
| Alert (message : string).

Inductive Task : Type := CallOnConnected.

(** The instance together with what it shares with the rest of the page:
    the [Room] objects it created (by handle, each with its state), the
    tab's [sessionStorage], and the variables [isMounted] and [room] that
    the effect's closures share. *)
Record World : Type := {
  ctl : Controller;
  rooms : gmap nat ConnectionState;
  sessionStorage : gmap string string;
  isMounted : bool;
  room : option nat;
  log : list Event;
  timers : list (Z * Task)
}.

Definition mounting (storage : gmap string string) : World :=
  {| ctl := initialController; rooms := ∅; sessionStorage := storage;
     isMounted := false; room := None; log := []; timers := [] |}.

(** What the controller meets outside itself: the backend behind [fetch],
    how [room.connect], [room.disconnect], [publishData], [audio.play] and
    [audioContext.resume] settle, whether the page's audio context is there
    and suspended, and what [audioRef.current] holds (the [<audio>] element
    while it is in the page). *)
Record Env : Type := {
  fetch : Api.Request -> Api.FetchOutcome;
  onConnect : result unit;
  onRoomDisconnect : result unit;
  onPublishData : result unit;
  onPlay : result unit;
  audioContextSuspended : bool;
  onResume : result unit;
  audioRefCurrent : option AudioElement
}.

Definition onCtl (f : Controller -> Controller) : M World unit :=
  modify (fun w =>
    {| ctl := f (ctl w); rooms := rooms w; sessionStorage := sessionStorage w;
       isMounted := isMounted w; room := room w; log := log w;
       timers := timers w |}).

Definition emit (e : Event) : M World unit :=
  modify (fun w =>
    {| ctl := ctl w; rooms := rooms w; sessionStorage := sessionStorage w;
       isMounted := isMounted w; room := room w; log := log w ++ [e];
       timers := timers w |}).

Definition setTimeout (task : Task) (delay : Z) : M World unit :=
  modify (fun w =>
    {| ctl := ctl w; rooms := rooms w; sessionStorage := sessionStorage w;
       isMounted := isMounted w; room := room w; log := log w;
       timers := timers w ++ [(delay, task)] |}).

Definition setRoomState (r : nat) (s : ConnectionState) : M World unit :=
  modify (fun w =>
    {| ctl := ctl w; rooms := <[r := s]> (rooms w);
       sessionStorage := sessionStorage w; isMounted := isMounted w;
       room := room w; log := log w; timers := timers w |}).

Definition setClosure (mounted : bool) (r : option nat) : M World unit :=
  modify (fun w =>
    {| ctl := ctl w; rooms := rooms w; sessionStorage := sessionStorage w;
       isMounted := mounted; room := r; log := log w; timers := timers w |}).

Definition call {A} (e : Event) (settlement : result A) : M World A :=
  emit e ;; await settlement.

Definition setRoomRef (v : option nat) : M World unit :=
  onCtl (fun c =>
    {| roomRef := v; isCreatingRef := isCreatingRef c;
       hasSessionRef := hasSessionRef c;
       audioElementsRef := audioElementsRef c; isConnected := isConnected c;
       showAudioEnableButton := showAudioEnableButton c |}).

Definition setIsCreatingRef (v : bool) : M World unit :=
  onCtl (fun c =>
    {| roomRef := roomRef c; isCreatingRef := v;
       hasSessionRef := hasSessionRef c;
       audioElementsRef := audioElementsRef c; isConnected := isConnected c;
       showAudioEnableButton := showAudioEnableButton c |}).

Definition setHasSessionRef (v : bool) : M World unit :=
  onCtl (fun c =>
    {| roomRef := roomRef c; isCreatingRef := isCreatingRef c;
       hasSessionRef := v;
       audioElementsRef := audioElementsRef c; isConnected := isConnected c;
       showAudioEnableButton := showAudioEnableButton c |}).

Definition setAudioElementsRef (v : list AudioElement) : M World unit :=
  onCtl (fun c =>
    {| roomRef := roomRef c; isCreatingRef := isCreatingRef c;
       hasSessionRef := hasSessionRef c;
       audioElementsRef := v; isConnected := isConnected c;
       showAudioEnableButton := showAudioEnableButton c |}).

Definition setIsConnected (v : bool) : M World unit :=
  onCtl (fun c =>
    {| roomRef := roomRef c; isCreatingRef := isCreatingRef c;
       hasSessionRef := hasSessionRef c;
       audioElementsRef := audioElementsRef c; isConnected := v;
       showAudioEnableButton := showAudioEnableButton c |}).

Definition setShowAudioEnableButton (v : bool) : M World unit :=
  onCtl (fun c =>
    {| roomRef := roomRef c; isCreatingRef := isCreatingRef c;
       hasSessionRef := hasSessionRef c;
       audioElementsRef := audioElementsRef c; isConnected := isConnected c;
       showAudioEnableButton := v |}).

(** [room.state] for the room behind a handle.  A handle held by the
    controller always names a room it created. *)
Definition roomState (w : World) (r : nat) : ConnectionState :=
  match rooms w !! r with
  | Some s => s
  | None => disconnected
  end.

(** [roomRef.current.state === "connected"]. *)
Definition isRoomConnected (w : World) (r : nat) : bool :=
  match roomState w r with
  | connected => true
  | _ => false
  end.

Definition showState (s : ConnectionState) : string :=
  match s with
  | disconnected => "disconnected"
  | connecting => "connecting"
  | connected => "connected"
  | reconnecting => "reconnecting"
  | signalReconnecting => "signalReconnecting"
  end.

(** The [AvatarSpeakEvent] that [speak] serializes and publishes. *)
Definition speakEvent (text : string) : json :=
  JObj [("event_type", JStr "avatar.speak_text");
        ("data", JObj [("text", JStr text)])].

(** The key under which the page caches the real-time session token. *)
Definition TOKEN_KEY : string := "avatarSessionToken".

Section Handlers.

Variable env : Env.

Definition speak (text : string) : M World unit :=
  current ← gets (fun w => roomRef (ctl w));
  match current with
  | None => emit (ConsoleWarn "Room not initialized. Cannot send speak event.")
  | Some r =>
      live ← gets (fun w => isRoomConnected w r);
      if negb live then
        current_state ← gets (fun w => roomState w r);
        emit (ConsoleWarn ("Room not connected. Current state: "
                           +:+ showState current_state
                           +:+ ". Cannot send speak event."))
      else
        tryCatch
          (call (PublishData r (speakEvent text) "agent-control")
                (onPublishData env))
          (fun error =>
             emit (ConsoleError "Failed to send speak event:" (Some error)) ;;
             throw error)
  end.

(** The body of a callback of [enableAudio]'s [forEach] after its
    [await audio.play()]: a rejection is logged and goes no further. *)
Definition audioPlayed : M World unit :=
  tryCatch
    (await (onPlay env))
    (fun error =>
       emit (ConsoleError "Failed to play audio element:" (Some error))).

(** [enableAudio].  The callbacks of the [forEach] are [async] and not
    awaited: each calls [play()] and yields, so every [play()] is called
    and the button is hidden before any of them settles. *)
Definition enableAudio : M World unit :=
  (if audioContextSuspended env then
     tryCatch
       (call ResumeAudioContext (onResume env))
       (fun error =>
          emit (ConsoleError "Failed to resume AudioContext:" (Some error)))
   else mret tt) ;;
  elements ← gets (fun w => audioElementsRef (ctl w));
  forEach (fun _ => emit PlayAudio) elements ;;
  setShowAudioEnableButton false ;;
  forEach (fun _ => audioPlayed) elements.

(** The room's handlers for [RoomEvent.Connected] and
    [RoomEvent.Disconnected]. *)
Definition onRoomConnected : M World unit :=
  setIsConnected true ;;
  setTimeout CallOnConnected 500.

Definition onRoomDisconnected : M World unit :=
  setIsConnected false.

(** The handler for [RoomEvent.TrackSubscribed]: a video track is attached
    to the [<video>] element if there is one, and that is all; an audio
    track does nothing unless [audioRef.current] is set, and is then
    attached, its element remembered and played, and a [play()] rejected
    for want of a user gesture brings up the button that enables audio.
    ([play()] returns a promise, as its declared type [Promise<void>] has
    it, so that the test [playPromise !== undefined] passes.) *)
Definition onTrackSubscribed (kind : TrackKind) : M World unit :=
  match kind with
  | video => mret tt
  | audio =>
      match audioRefCurrent env with
      | None => mret tt
      | Some audioElement =>
          elements ← gets (fun w => audioElementsRef (ctl w));
          setAudioElementsRef (elements ++ [audioElement]) ;;
          emit PlayAudio ;;
          match onPlay env with
          | Resolve _ => setShowAudioEnableButton false
          | Reject (DOMException "NotAllowedError") =>
              emit (ConsoleWarn "Audio autoplay blocked. User interaction required.") ;;
              setShowAudioEnableButton true
          | Reject e => emit (ConsoleError "Audio playback error:" (Some e))
          end
      end
  end.

(** [await room.disconnect()] that went through: the room is disconnected
    and says so. *)
Definition roomDisconnect (r : nat) : M World unit :=
  call (RoomDisconnect r) (onRoomDisconnect env) ;;
  setRoomState r disconnected ;;
  onRoomDisconnected.

Definition disconnect : M World unit :=
  current ← gets (fun w => roomRef (ctl w));
  match current with
  | None => mret tt
  | Some r =>
      live ← gets (fun w => isRoomConnected w r);
      if live : bool then
        tryCatch
          (roomDisconnect r)
          (fun error =>
             emit (ConsoleError "Failed to disconnect from LiveKit:" (Some error)) ;;
             throw error)
      else mret tt
  end ;;
  setRoomRef None ;;
  setIsConnected false ;;
  setHasSessionRef false ;;
  setIsCreatingRef false ;;
  setAudioElementsRef [].

(** [error instanceof Error]: whatever the model throws is an [Error]
    object, [TypeError], [SyntaxError] and [DOMException] inheriting from
    it. *)
Definition instanceofError (error : exn) : bool := true.

(** The [catch] block of [connectAvatar].  Where the source logs
    [error.message], the event holds the error whose message it is. *)
Definition connectFailed (error : exn) : M World unit :=
  setIsCreatingRef false ;;
  mounted ← gets isMounted;
  if negb mounted then mret tt
  else
    match error with
    | Error _ true =>
        emit (ConsoleError "Concurrency limit reached:" (Some error)) ;;
        emit (Alert "Too many active sessions. Please wait a moment and try again.")
    | _ =>
        emit (ConsoleError "Failed to connect avatar:" (Some error)) ;;
        if instanceofError error
        then emit (ConsoleError "Error details:" (Some error))
        else mret tt
    end.

(** [connectAvatar] up to its first [await]: tells whether the session
    request went out. *)
Definition connectAvatar_request : M World bool :=
  creating ← gets (fun w => isCreatingRef (ctl w));
  mounted ← gets isMounted;
  if creating || negb mounted then mret false
  else
    setIsCreatingRef true ;;
    emit CreateAvatarSession ;;
    mret true.

(** From the settlement of [createAvatarSession] to the second [await]:
    yields the room whose [connect] is pending, if it got that far. *)
Definition connectAvatar_created (settlement : result json)
  : M World (option nat) :=
  tryCatch
    (data ← await settlement;
     mounted ← gets isMounted;
     if negb mounted then mret None
     else
       livekit_url ← await (prop data "livekit_url");
       livekit_token ← await (prop data "livekit_token");
       if negb (truthy_opt livekit_url) || negb (truthy_opt livekit_token) then
         emit (ConsoleError "Missing LiveKit connection details:" None) ;;
         setIsCreatingRef false ;;
         mret None
       else
         emit (SessionCreated data) ;;
         setHasSessionRef true ;;
         r ← gets (fun w => fresh (dom (rooms w)));
         setRoomState r disconnected ;;
         setClosure true (Some r) ;;
         setRoomRef (Some r) ;;
         emit (RoomConnect r livekit_url livekit_token) ;;
         setRoomState r connecting ;;
         mret (Some r))
    (fun error => connectFailed error ;; mret None).

(** From the settlement of [room.connect] to the end. *)
Definition connectAvatar_connected (r : nat) (settlement : result unit)
  : M World unit :=
  tryCatch
    (await settlement ;;
     setRoomState r connected ;;
     onRoomConnected ;;
     setIsCreatingRef false)
    connectFailed.

(** [connectAvatar] when nothing else runs between its awaits. *)
Definition connectAvatar : M World unit :=
  requested ← connectAvatar_request;
  if requested : bool then
    pending ← connectAvatar_created (Api.createAvatarSession (fetch env) None);
    match pending with
    | Some r => connectAvatar_connected r (onConnect env)
    | None => mret tt
    end
  else mret tt.

(** The callback of the timer that the [Connected] handler sets. *)
Definition runTask (task : Task) : M World unit :=
  match task with
  | CallOnConnected => emit NotifyConnected
  end.

(** The mount effect. *)
Definition mount : M World unit :=
  creating ← gets (fun w => isCreatingRef (ctl w));
  hasSession ← gets (fun w => hasSessionRef (ctl w));
  if creating || hasSession then mret tt
  else
    existingToken ← gets (fun w => sessionStorage w !! TOKEN_KEY);
    match present existingToken with
    | Some _ => setHasSessionRef true
    | None =>
        setClosure true None ;;
        connectAvatar
    end.

(** The mount effect up to the first [await] of [connectAvatar]: tells
    whether the session request went out. *)
Definition mount_request : M World bool :=
  creating ← gets (fun w => isCreatingRef (ctl w));
  hasSession ← gets (fun w => hasSessionRef (ctl w));
  if creating || hasSession then mret false
  else
    existingToken ← gets (fun w => sessionStorage w !! TOKEN_KEY);
    match present existingToken with
    | Some _ => setHasSessionRef true ;; mret false
    | None =>
        setClosure true None ;;
        connectAvatar_request
    end.

(** The cleanup that the effect returns.  The [room.disconnect()] it
    starts is not awaited: the handle is cleared at once, and the room, if
    its [disconnect] goes through, is disconnected and says so afterwards;
    a rejection is handled by no one. *)
Definition unmount : M World unit :=
  r ← gets room;
  setClosure false r ;;
  match r with
  | Some h =>
      emit (RoomDisconnect h) ;;
      setRoomRef None ;;
      match onRoomDisconnect env with
      | Resolve _ =>
          setRoomState h disconnected ;;
          onRoomDisconnected
      | Reject _ => mret tt
      end
  | None => mret tt
  end.

End Handlers.

End AvatarVideo.

(** ** The stand-alone record button ([MicControl])

    What [recorder.stop()] does on a recorder that is not recording is left
    to the browser; it is a parameter of the model. *)

Module MicControl.
Import Js Eff.

Inductive Event : Type :=
| GetUserMedia
| RecorderStart
| RecorderStop
| OnSubmit (audio : Blob).

Record World : Type := {
  recording : bool;
  mediaRecorderRef : option InterviewRoom.RecordingState;
  chunksRef : list Blob;
  log : list Event
}.

Definition initialWorld : World :=
  {| recording := false; mediaRecorderRef := None; chunksRef := []; log := [] |}.

Record Env : Type := {
  disabled : bool;
  onGetUserMedia : result unit;
  onDataAvailable : list Blob;
  onStopInactive : result unit
}.

Definition emit (e : Event) : M World unit :=
  modify (fun w =>
    {| recording := recording w; mediaRecorderRef := mediaRecorderRef w;
       chunksRef := chunksRef w; log := log w ++ [e] |}).

Definition setRecording (v : bool) : M World unit :=
  modify (fun w =>
    {| recording := v; mediaRecorderRef := mediaRecorderRef w;
       chunksRef := chunksRef w; log := log w |}).

Definition setMediaRecorderRef (v : option InterviewRoom.RecordingState)
  : M World unit :=
  modify (fun w =>
    {| recording := recording w; mediaRecorderRef := v;
       chunksRef := chunksRef w; log := log w |}).

Definition setChunksRef (v : list Blob) : M World unit :=
  modify (fun w =>
    {| recording := recording w; mediaRecorderRef := mediaRecorderRef w;
       chunksRef := v; log := log w |}).

Section Handlers.

Variable env : Env.

Definition startRecording : M World unit :=
  emit GetUserMedia ;;
  await (onGetUserMedia env) ;;
  setMediaRecorderRef (Some InterviewRoom.inactive) ;;
  emit RecorderStart ;;
  setMediaRecorderRef (Some InterviewRoom.recording) ;;
  setRecording true.

Definition ondataavailable (data : Blob) : M World unit :=
  chunks ← gets chunksRef;
  setChunksRef (chunks ++ [data]).

Definition onstop : M World unit :=
  chunks ← gets chunksRef;
  setChunksRef [] ;;
  emit (OnSubmit (concat chunks)).

Definition stopRecording : M World unit :=
  recorder ← gets mediaRecorderRef;
  match recorder with
  | None => mret tt
  | Some InterviewRoom.inactive =>
      emit RecorderStop ;;
      await (onStopInactive env) ;;
      setRecording false
  | Some _ =>
      emit RecorderStop ;;
      setMediaRecorderRef (Some InterviewRoom.inactive) ;;
      setRecording false ;;
      forEach ondataavailable (onDataAvailable env) ;;
      onstop
  end.

(** A click on the button. *)
Definition click : M World unit :=
  if disabled env then mret tt
  else
    isRecording ← gets recording;
    if isRecording : bool then stopRecording else startRecording.

End Handlers.

(** A series of clicks, each under its own circumstances; a click that
    throws does not keep the next one from running. *)
Fixpoint clicks (envs : list Env) (w : World) : World :=
  match envs with
  | [] => w
  | env :: rest => clicks rest (snd (click env w))
  end.

End MicControl.

(** ** Vocabulary of the statements *)

Module Vocabulary.
Import Js.


(** The error carries the concurrency-limit tag. *)
Definition tagged (e : exn) : bool :=
  match e with
  | Error _ flag => flag
  | _ => false
  end.

(** [env] with the settlements of speech synthesis and of playback
    replaced. *)
Definition withPlayback (env : InterviewRoom.Env)
    (synth : string -> result InterviewRoom.TTSResponse)
    (played : string -> result unit) : InterviewRoom.Env :=
  {| InterviewRoom.onCreateInterviewSession := InterviewRoom.onCreateInterviewSession env;
     InterviewRoom.onGetQuestion := InterviewRoom.onGetQuestion env;
     InterviewRoom.onSpeakTTS := synth;
     InterviewRoom.onPlay := played;
     InterviewRoom.onSubmitAnswer := InterviewRoom.onSubmitAnswer env;
     InterviewRoom.onCompleteSession := InterviewRoom.onCompleteSession env;
     InterviewRoom.onGetSessionResults := InterviewRoom.onGetSessionResults env;
     InterviewRoom.onGetUserMedia := InterviewRoom.onGetUserMedia env;
     InterviewRoom.onDataAvailable := InterviewRoom.onDataAvailable env |}.

(** Two runs of the interview that end with the same value, the same state
    and the same pending timers. *)
Definition alike {A} (a b : result A * InterviewRoom.World) : Prop :=
  fst a = fst b
  /\ InterviewRoom.state (snd a) = InterviewRoom.state (snd b)
  /\ InterviewRoom.timers (snd a) = InterviewRoom.timers (snd b).

(** The controller once [disconnect] has gone through its five resets: the
    room handle cleared, the flags lowered, the audio elements forgotten. *)
Definition afterReset (c : AvatarVideo.Controller) : AvatarVideo.Controller :=
  {| AvatarVideo.roomRef := None;
     AvatarVideo.isCreatingRef := false;
     AvatarVideo.hasSessionRef := false;
     AvatarVideo.audioElementsRef := [];
     AvatarVideo.isConnected := false;
     AvatarVideo.showAudioEnableButton := AvatarVideo.showAudioEnableButton c |}.

(** No room is connected behind the controller's handle. *)
Definition notConnected (w : AvatarVideo.World) : Prop :=
  match AvatarVideo.roomRef (AvatarVideo.ctl w) with
  | Some r => AvatarVideo.isRoomConnected w r = false
  | None => True
  end.

(** The event is a publication on the data channel. *)
Definition isPublish (e : AvatarVideo.Event) : bool :=
  match e with
  | AvatarVideo.PublishData _ _ _ => true
  | _ => false
  end.

(** The promise is rejected. *)
Definition rejects {A} (r : result A) : Prop := exists e, r = Reject e.

(** A backend that answers every request with the same response. *)
Definition always (res : Api.Response) : Api.Request -> Api.FetchOutcome :=
  fun _ => Api.Responded res.

(** A network that is down. *)
Definition offline : Api.Request -> Api.FetchOutcome :=
  fun _ => Api.Unreachable.

(** The interview with its audio element set to [a] and [events] added to
    its log, all else as it was. *)
Definition spoken (w : InterviewRoom.World) (a : option InterviewRoom.Audio)
    (events : list InterviewRoom.Event) : InterviewRoom.World :=
  {| InterviewRoom.state := InterviewRoom.state w;
     InterviewRoom.refs :=
       {| InterviewRoom.mediaRecorderRef :=
            InterviewRoom.mediaRecorderRef (InterviewRoom.refs w);
          InterviewRoom.audioChunksRef :=
            InterviewRoom.audioChunksRef (InterviewRoom.refs w);
          InterviewRoom.audioRef := a |};
     InterviewRoom.log := InterviewRoom.log w ++ events;
     InterviewRoom.timers := InterviewRoom.timers w |}.

(** What a rejected [play()] adds to the log. *)
Definition playFailure (played : result unit) : list InterviewRoom.Event :=
  match played with
  | Resolve _ => []
  | Reject e => [InterviewRoom.ConsoleError "Failed to play TTS audio:" e]
  end.

(** The answers submitted according to a log of the interview. *)
Definition submissions (l : list InterviewRoom.Event) : list (string * Blob) :=
  flat_map (fun e =>
    match e with
    | InterviewRoom.SubmitAnswer sid audioBlob => [(sid, audioBlob)]
    | _ => []
    end) l.

(** The event is one of the four session calls other than the submission
    of an answer. *)
Definition isSessionCall (e : InterviewRoom.Event) : bool :=
  match e with
  | InterviewRoom.CreateInterviewSession _
  | InterviewRoom.GetQuestion _ _
  | InterviewRoom.CompleteSession _
  | InterviewRoom.GetSessionResults _ => true
  | _ => false
  end.

(** The chunks of a recording that hold data. *)
Definition withData (chunks : list Blob) : list Blob :=
  List.filter (fun data => (0 <? length data)%nat) chunks.

(** [n] ticks of the seconds counter. *)
Fixpoint ticks (n : nat) (w : InterviewRoom.World) : InterviewRoom.World :=
  match n with
  | O => w
  | S k => ticks k (snd (InterviewRoom.tick w))
  end.

(** A series of taps on the microphone button. *)
Fixpoint taps (envs : list InterviewRoom.Env) (w : InterviewRoom.World)
  : InterviewRoom.World :=
  match envs with
  | [] => w
  | env :: rest => taps rest (snd (InterviewRoom.tapMic env w))
  end.

(** The character is a decimal digit. *)
Definition isDigit (c : ascii) : bool :=
  let n := nat_of_ascii c in (48 <=? n)%nat && (n <=? 57)%nat.

Definition digitValue (c : ascii) : option Z :=
  if isDigit c then Some (Z.of_nat (nat_of_ascii c) - 48)%Z else None.

(** The seconds that a label of the form [MM:SS] stands for. *)
Definition readClock (label : string) : option Z :=
  match label with
  | String m1 (String m2 (String colon (String s1 (String s2 EmptyString)))) =>
      if Ascii.eqb colon ":" then
        match digitValue m1, digitValue m2, digitValue s1, digitValue s2 with
        | Some a, Some b, Some c, Some d =>
            Some (60 * (10 * a + b) + (10 * c + d))%Z
        | _, _, _, _ => None
        end
      else None
  | _ => None
  end.

(** The interview with the [n]-th pending timer taken off the queue. *)
Definition withoutTimer (n : nat) (w : InterviewRoom.World) : InterviewRoom.World :=
  {| InterviewRoom.state := InterviewRoom.state w;
     InterviewRoom.refs := InterviewRoom.refs w;
     InterviewRoom.log := InterviewRoom.log w;
     InterviewRoom.timers :=
       take n (InterviewRoom.timers w) ++ drop (S n) (InterviewRoom.timers w) |}.

(** The record button between two clicks: no chunk is held, and the button
    shows "recording" only while the recorder records. *)
Definition settled (w : MicControl.World) : Prop :=
  MicControl.chunksRef w = []
  /\ (MicControl.recording w = true ->
      MicControl.mediaRecorderRef w = Some InterviewRoom.recording).

(** The controller's world with another controller state, other rooms and
    more in its log, the rest as it was. *)
Definition staged (w : AvatarVideo.World) (c : AvatarVideo.Controller)
    (rs : gmap nat AvatarVideo.ConnectionState)
    (events : list AvatarVideo.Event) : AvatarVideo.World :=
  {| AvatarVideo.ctl := c;
     AvatarVideo.rooms := rs;
     AvatarVideo.sessionStorage := AvatarVideo.sessionStorage w;
     AvatarVideo.isMounted := AvatarVideo.isMounted w;
     AvatarVideo.room := AvatarVideo.room w;
     AvatarVideo.log := AvatarVideo.log w ++ events;
     AvatarVideo.timers := AvatarVideo.timers w |}.

(** The event is an alert shown to the user. *)
Definition isAlert (e : AvatarVideo.Event) : bool :=
  match e with
  | AvatarVideo.Alert _ => true
  | _ => false
  end.

(** A series of subscribed tracks, each met by the browser in its own way. *)
Fixpoint subscribed (tracks : list (AvatarVideo.Env * AvatarVideo.TrackKind))
    (w : AvatarVideo.World) : AvatarVideo.World :=
  match tracks with
  | [] => w
  | (env, kind) :: rest =>
      subscribed rest (snd (AvatarVideo.onTrackSubscribed env kind w))
  end.

(** The audio tracks among the tracks subscribed that found the [<audio>]
    element in the page. *)
Definition audioTracks (tracks : list (AvatarVideo.Env * AvatarVideo.TrackKind))
  : nat :=
  length (List.filter (fun t =>
            match snd t, AvatarVideo.audioRefCurrent (fst t) with
            | AvatarVideo.audio, Some _ => true
            | _, _ => false
            end) tracks).

(** What a rejected promise adds to the controller's log where the code
    catches it and logs it under [label]. *)
Definition complaint (label : string) (settlement : result unit)
  : list AvatarVideo.Event :=
  match settlement with
  | Resolve _ => []
  | Reject e => [AvatarVideo.ConsoleError label (Some e)]
  end.

(** The event is a call of [room.disconnect()]. *)
Definition isRoomDisconnect (e : AvatarVideo.Event) : bool :=
  match e with
  | AvatarVideo.RoomDisconnect _ => true
  | _ => false
  end.

(** A list of numbers in which no element is smaller than the one before. *)
Fixpoint nondecreasing (l : list Z) : Prop :=
  match l with
  | a :: rest =>
      match rest with
      | b :: _ => (a <= b)%Z /\ nondecreasing rest
      | [] => True
      end
  | [] => True
  end.

(** The values [currentQuestionIndex] takes as the answers of a session are
    settled one after the other, each by its own backend. *)
Fixpoint indexTrace (turns : list (InterviewRoom.Env * Blob))
    (w : InterviewRoom.World) : list Z :=
  match turns with
  | [] => []
  | (env, audioBlob) :: rest =>
      let w' := snd (InterviewRoom.handleUserResponse env audioBlob w) in
      InterviewRoom.currentQuestionIndex (InterviewRoom.state w')
        :: indexTrace rest w'
  end.

(** The [question_index] values the backend reports in the submissions of
    session [sid] that resolve. *)
Fixpoint reported (sid : string) (turns : list (InterviewRoom.Env * Blob))
  : list Z :=
  match turns with
  | [] => []
  | (env, audioBlob) :: rest =>
      match InterviewRoom.onSubmitAnswer env sid audioBlob with
      | Resolve data => InterviewRoom.question_index data :: reported sid rest
      | Reject _ => reported sid rest
      end
  end.

End Vocabulary.

(** ** Concrete inputs *)

Module Fixtures.
Import Js.

(** A backend that answers every request with HTTP 200 and a body that
    reports a logical error. *)
Definition logicalError : Api.Request -> Api.FetchOutcome :=
  fun _ =>
    Api.Responded
      {| Api.ok := true; Api.statusText := "OK";
         Api.parsed := Some (JObj [("detail", JStr "Session not found")]) |}.

(** A backend that refuses a real-time session for lack of capacity. *)
Definition throttled : Api.Request -> Api.FetchOutcome :=
  fun _ =>
    Api.Responded
      {| Api.ok := false; Api.statusText := "Too Many Requests";
         Api.parsed := Some (JObj [("detail", JStr "Concurrency limit reached")]) |}.

(** An interview of session ["s1"]: every collaborator answers, the
    recorder hands over one chunk, and the submission is answered by
    [verdict]. *)
Definition noFeedback : InterviewRoom.Feedback.t :=
  {| InterviewRoom.Feedback.score := 0;
     InterviewRoom.Feedback.missed_points := [];
     InterviewRoom.Feedback.red_flags := [];
     InterviewRoom.Feedback.summary := "" |}.

Definition verdict (next : option string) (index : Z) (complete : bool)
  : InterviewRoom.SubmitAnswerResponse :=
  {| InterviewRoom.transcript := "answer";
     InterviewRoom.score := 7;
     InterviewRoom.feedback := noFeedback;
     InterviewRoom.current_question := "Q";
     InterviewRoom.next_question := next;
     InterviewRoom.question_index := index;
     InterviewRoom.is_complete := complete |}.

Definition finalResults : InterviewRoom.SessionResultsResponse :=
  {| InterviewRoom.performance_score := 70;
     InterviewRoom.mentor_feedback := "Good";
     InterviewRoom.time_elapsed_sec := 65;
     InterviewRoom.time_elapsed_formatted := "01:05";
     InterviewRoom.skill_breakdown := None;
     InterviewRoom.questions_answered := 2;
     InterviewRoom.average_score := 7 |}.

Definition interview (answer : result InterviewRoom.SubmitAnswerResponse)
  : InterviewRoom.Env :=
  {| InterviewRoom.onCreateInterviewSession := fun n =>
       Resolve {| InterviewRoom.session_id := "s1";
                  InterviewRoom.session_week :=
                    {| InterviewRoom.week := n; InterviewRoom.title := "X";
                       InterviewRoom.description := "";
                       InterviewRoom.concepts := [JStr "A"; JStr "B"] |};
                  InterviewRoom.total_questions := 2 |};
     InterviewRoom.onGetQuestion := fun _ i =>
       Resolve {| InterviewRoom.Question.question_text := "Q1";
                  InterviewRoom.Question.question_index := i |};
     InterviewRoom.onSpeakTTS := fun _ =>
       Resolve {| InterviewRoom.audio_url := "https://tts/q.mp3";
                  InterviewRoom.audio_base64 := None |};
     InterviewRoom.onPlay := fun _ => Resolve tt;
     InterviewRoom.onSubmitAnswer := fun _ _ => answer;
     InterviewRoom.onCompleteSession := fun _ => Resolve true;
     InterviewRoom.onGetSessionResults := fun _ => Resolve finalResults;
     InterviewRoom.onGetUserMedia := Resolve tt;
     InterviewRoom.onDataAvailable := [[Byte.x01; Byte.x02]] |}.

(** The same interview on a device that refuses the microphone. *)
Definition micDenied : InterviewRoom.Env :=
  let env := interview (Reject NetworkError) in
  {| InterviewRoom.onCreateInterviewSession := InterviewRoom.onCreateInterviewSession env;
     InterviewRoom.onGetQuestion := InterviewRoom.onGetQuestion env;
     InterviewRoom.onSpeakTTS := InterviewRoom.onSpeakTTS env;
     InterviewRoom.onPlay := InterviewRoom.onPlay env;
     InterviewRoom.onSubmitAnswer := InterviewRoom.onSubmitAnswer env;
     InterviewRoom.onCompleteSession := InterviewRoom.onCompleteSession env;
     InterviewRoom.onGetSessionResults := InterviewRoom.onGetSessionResults env;
     InterviewRoom.onGetUserMedia := Reject (DOMException "NotAllowedError");
     InterviewRoom.onDataAvailable := [] |}.

(** The same interview with a backend that cannot complete a session. *)
Definition cannotComplete : InterviewRoom.Env :=
  let env := interview (Resolve (verdict None 2 true)) in
  {| InterviewRoom.onCreateInterviewSession := InterviewRoom.onCreateInterviewSession env;
     InterviewRoom.onGetQuestion := InterviewRoom.onGetQuestion env;
     InterviewRoom.onSpeakTTS := InterviewRoom.onSpeakTTS env;
     InterviewRoom.onPlay := InterviewRoom.onPlay env;
     InterviewRoom.onSubmitAnswer := InterviewRoom.onSubmitAnswer env;
     InterviewRoom.onCompleteSession := fun _ => Reject NetworkError;
     InterviewRoom.onGetSessionResults := InterviewRoom.onGetSessionResults env;
     InterviewRoom.onGetUserMedia := InterviewRoom.onGetUserMedia env;
     InterviewRoom.onDataAvailable := InterviewRoom.onDataAvailable env |}.

(** The interview is started and the microphone is tapped twice: once to
    record, once to stop and submit. *)
Definition answeredOnce (answer : result InterviewRoom.SubmitAnswerResponse)
  : Eff.M InterviewRoom.World unit :=
  InterviewRoom.startInterview (interview answer) ;;
  InterviewRoom.toggleMic (interview answer) ;;
  InterviewRoom.toggleMic (interview answer).

(** A backend that grants a real-time session, and a room that connects,
    disconnects and publishes without error. *)
Definition avatarBackend : Api.Request -> Api.FetchOutcome :=
  fun _ =>
    Api.Responded
      {| Api.ok := true; Api.statusText := "OK";
         Api.parsed := Some (JObj [("session_token", JStr "tok-1");
                                   ("session_id", JStr "av-1");
                                   ("livekit_url", JStr "wss://rooms");
                                   ("livekit_token", JStr "jwt");
                                   ("room_name", JStr "room-1")]) |}.

Definition studio : AvatarVideo.Env :=
  {| AvatarVideo.fetch := avatarBackend;
     AvatarVideo.onConnect := Resolve tt;
     AvatarVideo.onRoomDisconnect := Resolve tt;
     AvatarVideo.onPublishData := Resolve tt;
     AvatarVideo.onPlay := Resolve tt;
     AvatarVideo.audioContextSuspended := false;
     AvatarVideo.onResume := Resolve tt;
     AvatarVideo.audioRefCurrent := Some AvatarVideo.AudioTag |}.

(** Modelled from the spec: the caching of the session token "for this
    browser tab", done by the page that hosts the controller and absent
    from the sources.  It writes the token under the key that the mount
    effect reads; the controller itself never writes it. *)
Definition cacheToken (token : string) : Eff.M AvatarVideo.World unit :=
  Eff.modify (fun w =>
    {| AvatarVideo.ctl := AvatarVideo.ctl w;
       AvatarVideo.rooms := AvatarVideo.rooms w;
       AvatarVideo.sessionStorage :=
         <[AvatarVideo.TOKEN_KEY := token]> (AvatarVideo.sessionStorage w);
       AvatarVideo.isMounted := AvatarVideo.isMounted w;
       AvatarVideo.room := AvatarVideo.room w;
       AvatarVideo.log := AvatarVideo.log w;
       AvatarVideo.timers := AvatarVideo.timers w |}).

(** The controller mounted in a tab without a token, connected, its token
    then cached by the page. *)
Definition connectedAndCached : AvatarVideo.World :=
  snd ((AvatarVideo.mount studio ;; cacheToken "tok-1")
         (AvatarVideo.mounting ∅)).

(** A record button in working order whose recorder hands over
    [delivered] when it is stopped, and one whose microphone is refused. *)
Definition recorderWith (delivered : list Blob) : MicControl.Env :=
  {| MicControl.disabled := false;
     MicControl.onGetUserMedia := Resolve tt;
     MicControl.onDataAvailable := delivered;
     MicControl.onStopInactive := Resolve tt |}.

Definition recorderRefused : MicControl.Env :=
  {| MicControl.disabled := false;
     MicControl.onGetUserMedia := Reject (DOMException "NotAllowedError");
     MicControl.onDataAvailable := [];
     MicControl.onStopInactive := Resolve tt |}.

(** The controller about to mount in a tab that caches nothing. *)
Definition freshTab : AvatarVideo.World := AvatarVideo.mounting ∅.

(** A room that refuses to disconnect, and a studio whose audio is held back
    by the browser until the user allows it. *)
Definition stubborn : AvatarVideo.Env :=
  {| AvatarVideo.fetch := avatarBackend;
     AvatarVideo.onConnect := Resolve tt;
     AvatarVideo.onRoomDisconnect := Reject NetworkError;
     AvatarVideo.onPublishData := Resolve tt;
     AvatarVideo.onPlay := Resolve tt;
     AvatarVideo.audioContextSuspended := false;
     AvatarVideo.onResume := Resolve tt;
     AvatarVideo.audioRefCurrent := Some AvatarVideo.AudioTag |}.

Definition muted : AvatarVideo.Env :=
  {| AvatarVideo.fetch := avatarBackend;
     AvatarVideo.onConnect := Resolve tt;
     AvatarVideo.onRoomDisconnect := Resolve tt;
     AvatarVideo.onPublishData := Resolve tt;
     AvatarVideo.onPlay := Reject (DOMException "NotAllowedError");
     AvatarVideo.audioContextSuspended := true;
     AvatarVideo.onResume := Resolve tt;
     AvatarVideo.audioRefCurrent := Some AvatarVideo.AudioTag |}.

(** A studio that the network does not reach. *)
Definition unreachable : AvatarVideo.Env :=
  {| AvatarVideo.fetch := Vocabulary.offline;
     AvatarVideo.onConnect := Resolve tt;
     AvatarVideo.onRoomDisconnect := Resolve tt;
     AvatarVideo.onPublishData := Resolve tt;
     AvatarVideo.onPlay := Resolve tt;
     AvatarVideo.audioContextSuspended := false;
     AvatarVideo.onResume := Resolve tt;
     AvatarVideo.audioRefCurrent := Some AvatarVideo.AudioTag |}.

(** A studio whose backend is at its limit of sessions. *)
Definition crowded : AvatarVideo.Env :=
  {| AvatarVideo.fetch := throttled;
     AvatarVideo.onConnect := Resolve tt;
     AvatarVideo.onRoomDisconnect := Resolve tt;
     AvatarVideo.onPublishData := Resolve tt;
     AvatarVideo.onPlay := Resolve tt;
     AvatarVideo.audioContextSuspended := false;
     AvatarVideo.onResume := Resolve tt;
     AvatarVideo.audioRefCurrent := Some AvatarVideo.AudioTag |}.

End Fixtures.

(* ================================================================== *)
(** * Part II. Properties *)
(* ================================================================== *)

(** ** Strings *)

Module StringFacts.
Import Js.










Lemma toLowerCase_nil (m : string) : toLowerCase m = "" -> m = "".
Proof. destruct m; simpl; [auto | discriminate]. Qed.

End StringFacts.

(** ** The session protocol client *)

Module ApiFacts.
Import Js Api Vocabulary StringFacts.





Section Client.

Variable fetch : Request -> FetchOutcome.

(** The operations that read the body of a 2xx response do reject one that
    carries an error detail. *)
Lemma createInterviewSession_rejects_detail request res data d :
  fetch {| url := BASE_URL +:+ "/interview/session/create/"; method := POST;
           payload := JsonBody (JObj [("week_number", JNum (week_number request))]) |}
    = Responded res ->
  ok res = true -> parsed res = Some data ->
  prop data "detail" = Resolve (Some d) -> truthy d = true ->
  createInterviewSession fetch request = Reject (Error d false).
Proof.
  intros Hf Hok Hp Hd Ht.
  unfold createInterviewSession, awaitFetch. rewrite Hf. simpl.
  rewrite Hok. simpl. unfold json_of. rewrite Hp. simpl.
  rewrite Hd. simpl. now rewrite Ht.
Qed.

(** The five that hand the body back as it is do not. *)
Lemma unguarded_operations res data sessionId audioBlob questionIndex text :
  (forall req, fetch req = Responded res) ->
  ok res = true -> parsed res = Some data ->
  submitAnswer fetch sessionId audioBlob = Resolve data
  /\ getQuestion fetch sessionId questionIndex = Resolve data
  /\ speakTTS fetch text = Resolve data
  /\ completeSession fetch sessionId = Resolve data
  /\ getSessionResults fetch sessionId = Resolve data.
Proof.
  intros Hf Hok Hp.
  unfold submitAnswer, getQuestion, speakTTS, completeSession,
    getSessionResults, awaitFetch.
  rewrite !Hf. simpl. rewrite Hok. simpl. unfold json_of. rewrite Hp.
  repeat split.
Qed.

End Client.

(** C3 (code defect).  The client is to treat every 2xx response that
    carries an error detail as a failure.  [createInterviewSession] and
    [createAvatarSession] do; on the same response [submitAnswer],
    [getQuestion], [speakTTS], [completeSession] and [getSessionResults]
    resolve with the error body as if it were their result. *)
Theorem error_detail_passes_as_success :
  let body := JObj [("detail", JStr "Session not found")] in
  submitAnswer Fixtures.logicalError "s1" [] = Resolve body
  /\ getQuestion Fixtures.logicalError "s1" 1 = Resolve body
  /\ speakTTS Fixtures.logicalError "Q1" = Resolve body
  /\ completeSession Fixtures.logicalError "s1" = Resolve body
  /\ getSessionResults Fixtures.logicalError "s1" = Resolve body
  /\ createInterviewSession Fixtures.logicalError {| week_number := 4 |}
     = Reject (Error (JStr "Session not found") false)
  /\ createAvatarSession Fixtures.logicalError None
     = Reject (Error (JStr "Session not found") false).
Proof. repeat split. Qed.



End ApiFacts.

(** ** The interview state machine *)

Module InterviewRoomFacts.
Import Js Eff InterviewRoom Vocabulary.

(** Unfolds a handler down to the state it returns. *)
Ltac exec :=
  cbv [handleUserResponse playTTSAudio play initializeSession runTask fire
       toggleMic stopRecorder onstop ondataavailable startInterview
       mbind mret M_bind M_ret bind ret gets modify await throw tryCatch
       tryFinally call emit onState onRefs setTimeout
       setHasStarted setHasFinished setIsListening setCurrentQuestionIndex
       setTimer setInterviewState setSessionId setWeekData setCurrentQuestion
       setSessionResults setApiConnectionError setIsInitializing
       setAudioRef setMediaRecorderRef setAudioChunksRef];
  cbn.

(** *** The scenarios of the specification *)

Example scenario_start :
  let w := snd (startInterview (Fixtures.interview (Reject NetworkError))
                  initialWorld) in
  interviewState (state w) = idle
  /\ currentQuestionIndex (state w) = 0%Z
  /\ currentQuestion (state w) = "Q1"
  /\ hasStarted (state w) = true.
Proof. vm_compute. repeat split. Qed.

Example scenario_next_question :
  let env := Fixtures.interview (Resolve (Fixtures.verdict (Some "Q2") 1 false)) in
  let w0 := snd (startInterview env initialWorld) in
  let w1 := snd (toggleMic env w0) in
  let w2 := snd (toggleMic env w1) in
  let w3 := snd (fire env 0 w2) in
  map (fun w => interviewState (state w)) [w0; w1; w2; w3]
  = [idle; listening; asking; idle]
  /\ currentQuestionIndex (state w3) = 1%Z
  /\ currentQuestion (state w3) = "Q2".
Proof. vm_compute. repeat split. Qed.

Example scenario_microphone_denied :
  let w := snd ((startInterview Fixtures.micDenied ;;
                 toggleMic Fixtures.micDenied) initialWorld) in
  interviewState (state w) = idle
  /\ isListening (state w) = false
  /\ forallb (fun e => match e with SubmitAnswer _ _ => false | _ => true end)
       (log w) = true.
Proof. vm_compute. repeat split. Qed.

(** *** What [playTTSAudio] can and cannot touch *)

Lemma playTTSAudio_contained env text w :
  exists refs' events,
    playTTSAudio env text w
    = (Resolve tt,
       {| state := state w; refs := refs'; log := log w ++ events;
          timers := timers w |}).
Proof.
  exec.
  destruct (onSpeakTTS env text) as [tts|e]; cbn.
  2:{ rewrite <- app_assoc. eauto. }
  destruct (nonEmpty (audio_url tts)); cbn.
  - destruct (audioRef (refs w)); cbn;
      destruct (onPlay env (audio_url tts)) as [[]|e]; cbn;
      rewrite <- ?app_assoc; eauto.
  - destruct (present (audio_base64 tts)) as [b64|]; cbn; [|eauto].
    destruct (onPlay env _) as [[]|e]; cbn; rewrite <- ?app_assoc; eauto.
Qed.

(** *** The four ways [handleUserResponse] ends *)

Lemma handleUserResponse_no_session env audioBlob w :
  present (sessionId (state w)) = None ->
  handleUserResponse env audioBlob w = (Resolve tt, w).
Proof. intros H. exec. now rewrite H. Qed.

Lemma handleUserResponse_rejected env audioBlob w sid e :
  present (sessionId (state w)) = Some sid ->
  onSubmitAnswer env sid audioBlob = Reject e ->
  handleUserResponse env audioBlob w
  = (Resolve tt,
     {| state := with_interviewState idle (state w);
        refs := refs w;
        log := log w ++ [SubmitAnswer sid audioBlob;
                         ConsoleError "Failed to submit answer:" e];
        timers := timers w |}).
Proof.
  intros Hs He. exec. rewrite Hs, He. cbn. now rewrite <- app_assoc.
Qed.

Lemma handleUserResponse_complete env audioBlob w sid data :
  present (sessionId (state w)) = Some sid ->
  onSubmitAnswer env sid audioBlob = Resolve data ->
  is_complete data = true ->
  handleUserResponse env audioBlob w
  = (Resolve tt,
     {| state := with_interviewState completing (state w);
        refs := refs w;
        log := log w ++ [SubmitAnswer sid audioBlob];
        timers := timers w ++ [(2500%Z, FinishSession sid)] |}).
Proof. intros Hs Hd Hc. exec. now rewrite Hs, Hd, Hc. Qed.

Lemma handleUserResponse_stalled env audioBlob w sid data :
  present (sessionId (state w)) = Some sid ->
  onSubmitAnswer env sid audioBlob = Resolve data ->
  is_complete data = false ->
  present (next_question data) = None ->
  handleUserResponse env audioBlob w
  = (Resolve tt,
     {| state := state w;
        refs := refs w;
        log := log w ++ [SubmitAnswer sid audioBlob];
        timers := timers w |}).
Proof. intros Hs Hd Hc Hn. exec. now rewrite Hs, Hd, Hc, Hn. Qed.

Lemma handleUserResponse_next env audioBlob w sid data next :
  present (sessionId (state w)) = Some sid ->
  onSubmitAnswer env sid audioBlob = Resolve data ->
  is_complete data = false ->
  present (next_question data) = Some next ->
  exists refs' events,
    handleUserResponse env audioBlob w
    = (Resolve tt,
       {| state := with_interviewState asking
                     (with_currentQuestionIndex (question_index data)
                        (with_currentQuestion next (state w)));
          refs := refs';
          log := log w ++ SubmitAnswer sid audioBlob :: events;
          timers := timers w ++ [(1000%Z, ReturnToIdle)] |}).
Proof.
  intros Hs Hd Hc Hn.
  cbv [handleUserResponse mbind mret M_bind M_ret bind ret gets tryCatch call
       await emit modify].
  rewrite Hs, Hd, Hc, Hn.
  cbv [setCurrentQuestion setCurrentQuestionIndex setInterviewState onState
       modify setTimeout].
  cbn [state refs log timers].
  match goal with
  | |- context [playTTSAudio env next ?w0] =>
      destruct (playTTSAudio_contained env next w0) as (refs' & events & ->)
  end.
  cbn. exists refs', events. now rewrite <- app_assoc.
Qed.

(** Every settlement but one moves the phase on. *)
Lemma settlement_moves_on env audioBlob w sid :
  present (sessionId (state w)) = Some sid ->
  match onSubmitAnswer env sid audioBlob with
  | Reject _ => True
  | Resolve data =>
      is_complete data = true \/ present (next_question data) <> None
  end ->
  let w' := snd (handleUserResponse env audioBlob w) in
  interviewState (state w') = idle
  \/ interviewState (state w') = completing
  \/ interviewState (state w') = asking
     /\ timers w' = timers w ++ [(1000%Z, ReturnToIdle)].
Proof.
  intros Hs Hcase.
  destruct (onSubmitAnswer env sid audioBlob) as [data|e] eqn:Hd.
  - destruct (is_complete data) eqn:Hc.
    + rewrite (handleUserResponse_complete _ _ _ _ _ Hs Hd Hc). cbn. auto.
    + destruct Hcase as [Hcase|Hnext]; [discriminate|].
      destruct (present (next_question data)) as [next|] eqn:Hn; [|congruence].
      destruct (handleUserResponse_next _ _ _ _ _ _ Hs Hd Hc Hn)
        as (refs' & events & ->).
      cbn. auto.
  - rewrite (handleUserResponse_rejected _ _ _ _ _ Hs Hd). cbn. auto.
Qed.

(** *** Timers *)

Lemma lookup_last_added {A} (l : list A) (x : A) :
  (l ++ [x]) !! length l = Some x.
Proof. induction l; simpl; auto. Qed.

Lemma take_drop_last_added {A} (l : list A) (x : A) :
  take (length l) (l ++ [x]) ++ drop (S (length l)) (l ++ [x]) = l.
Proof.
  induction l as [|a l IH]; simpl; [reflexivity|].
  simpl in IH. now rewrite IH.
Qed.




(** C2 (code defect).  A submission that resolves with [is_complete] false
    and no next question falls through both branches of
    [handleUserResponse]: after the microphone is stopped and the answer is
    submitted, the phase is still [processing] and no timer is pending that
    would change it. *)
Theorem settlement_can_leave_processing :
  let out := Fixtures.answeredOnce (Resolve (Fixtures.verdict None 1 false))
               initialWorld in
  fst out = Resolve tt
  /\ interviewState (state (snd out)) = processing
  /\ isListening (state (snd out)) = false
  /\ timers (snd out) = []
  /\ In (SubmitAnswer "s1" [Byte.x01; Byte.x02]) (log (snd out)).
Proof.
  vm_compute. repeat split. tauto.
Qed.

(** C4.  When the submission is rejected the handler ends normally with the
    phase set to [idle]; the question text, the question index and every
    other cell of the state are as before, and no timer is added. *)
Theorem submit_failure_returns_to_idle env w audioBlob sid e :
  present (sessionId (state w)) = Some sid ->
  onSubmitAnswer env sid audioBlob = Reject e ->
  let out := handleUserResponse env audioBlob w in
  fst out = Resolve tt
  /\ interviewState (state (snd out)) = idle
  /\ currentQuestion (state (snd out)) = currentQuestion (state w)
  /\ currentQuestionIndex (state (snd out)) = currentQuestionIndex (state w)
  /\ state (snd out) = with_interviewState idle (state w)
  /\ refs (snd out) = refs w
  /\ timers (snd out) = timers w.
Proof.
  intros Hs He out. subst out.
  rewrite (handleUserResponse_rejected _ _ _ _ _ Hs He).
  cbn. repeat split.
Qed.

Lemma submit_failure_returns_to_idle_witness :
  let env := Fixtures.interview (Reject NetworkError) in
  let w := snd ((InterviewRoom.startInterview env ;;
                 InterviewRoom.toggleMic env) initialWorld) in
  let out := handleUserResponse env [Byte.x01] w in
  interviewState (state (snd out)) = idle
  /\ currentQuestion (state (snd out)) = "Q1"
  /\ currentQuestionIndex (state (snd out)) = 0%Z.
Proof.
  intros env w out.
  pose proof (submit_failure_returns_to_idle env w [Byte.x01] "s1"
                NetworkError eq_refl eq_refl) as H.
  cbv zeta in H. destruct H as (_ & H1 & H2 & H3 & _).
  subst out. split; [exact H1|].
  split; [rewrite H2 | rewrite H3]; reflexivity.
Defined.

(** *** Playback *)

Lemma handleUserResponse_playback env synth played audioBlob w :
  alike (handleUserResponse (withPlayback env synth played) audioBlob w)
        (handleUserResponse env audioBlob w).
Proof.
  set (env' := withPlayback env synth played).
  destruct (present (sessionId (state w))) as [sid|] eqn:Hs.
  2:{ rewrite !handleUserResponse_no_session by assumption. now split. }
  assert (Hsame : onSubmitAnswer env' sid audioBlob
                  = onSubmitAnswer env sid audioBlob) by reflexivity.
  destruct (onSubmitAnswer env sid audioBlob) as [data|e] eqn:Hd.
  - destruct (is_complete data) eqn:Hc.
    + rewrite (handleUserResponse_complete env' _ _ _ _ Hs Hsame Hc),
        (handleUserResponse_complete env _ _ _ _ Hs Hd Hc).
      now split.
    + destruct (present (next_question data)) as [next|] eqn:Hn.
      * destruct (handleUserResponse_next env' _ _ _ _ _ Hs Hsame Hc Hn)
          as (r1 & ev1 & ->).
        destruct (handleUserResponse_next env _ _ _ _ _ Hs Hd Hc Hn)
          as (r2 & ev2 & ->).
        now split.
      * rewrite (handleUserResponse_stalled env' _ _ _ _ Hs Hsame Hc Hn),
          (handleUserResponse_stalled env _ _ _ _ Hs Hd Hc Hn).
        now split.
  - rewrite (handleUserResponse_rejected env' _ _ _ _ Hs Hsame),
      (handleUserResponse_rejected env _ _ _ _ Hs Hd).
    now split.
Qed.

Lemma initializeSession_playback env synth played w :
  alike (initializeSession (withPlayback env synth played) w)
        (initializeSession env w).
Proof.
  set (env' := withPlayback env synth played).
  cbv [initializeSession mbind mret M_bind M_ret bind ret gets modify await
       tryCatch tryFinally call emit onState
       setIsInitializing setApiConnectionError setSessionId setWeekData
       setCurrentQuestion setCurrentQuestionIndex setInterviewState].
  cbn [state refs log timers].
  change (onCreateInterviewSession env' WEEK_NUMBER)
    with (onCreateInterviewSession env WEEK_NUMBER).
  destruct (onCreateInterviewSession env WEEK_NUMBER) as [response|e];
    [|now split].
  cbn [state refs log timers].
  change (onGetQuestion env' (session_id response) 0)
    with (onGetQuestion env (session_id response) 0).
  destruct (onGetQuestion env (session_id response) 0) as [q|e];
    [|now split].
  cbn [state refs log timers].
  match goal with
  | |- context [playTTSAudio env' ?t ?w0] =>
      destruct (playTTSAudio_contained env' t w0) as (r1 & ev1 & ->);
      destruct (playTTSAudio_contained env t w0) as (r2 & ev2 & ->)
  end.
  now split.
Qed.

(** C8.  However speech synthesis and playback settle, [playTTSAudio] ends
    normally and leaves the state and the pending timers as they were; and
    [handleUserResponse] and [initializeSession] end with the same value,
    the same state and the same timers as under any other playback, the one
    that completes included. *)
Theorem playback_failure_not_fatal env synth played text audioBlob w :
  fst (playTTSAudio (withPlayback env synth played) text w) = Resolve tt
  /\ state (snd (playTTSAudio (withPlayback env synth played) text w))
     = state w
  /\ timers (snd (playTTSAudio (withPlayback env synth played) text w))
     = timers w
  /\ fst (handleUserResponse (withPlayback env synth played) audioBlob w)
     = fst (handleUserResponse env audioBlob w)
  /\ state (snd (handleUserResponse (withPlayback env synth played) audioBlob w))
     = state (snd (handleUserResponse env audioBlob w))
  /\ timers (snd (handleUserResponse (withPlayback env synth played) audioBlob w))
     = timers (snd (handleUserResponse env audioBlob w))
  /\ fst (initializeSession (withPlayback env synth played) w)
     = fst (initializeSession env w)
  /\ state (snd (initializeSession (withPlayback env synth played) w))
     = state (snd (initializeSession env w))
  /\ timers (snd (initializeSession (withPlayback env synth played) w))
     = timers (snd (initializeSession env w)).
Proof.
  destruct (playTTSAudio_contained (withPlayback env synth played) text w)
    as (r & ev & ->).
  destruct (handleUserResponse_playback env synth played audioBlob w)
    as (H1 & H2 & H3).
  destruct (initializeSession_playback env synth played w) as (H4 & H5 & H6).
  cbn [fst snd state timers]. auto 10.
Qed.

(** *** The question index *)

Lemma nondecreasing_cons a b l :
  (a <= b)%Z -> nondecreasing (b :: l) -> nondecreasing (a :: b :: l).
Proof. intros Hab H. split; assumption. Qed.

Lemma nondecreasing_inv a b l :
  nondecreasing (a :: b :: l) -> (a <= b)%Z /\ nondecreasing (b :: l).
Proof. intros H. exact H. Qed.

Lemma nondecreasing_skip a b l :
  nondecreasing (a :: b :: l) -> nondecreasing (a :: l).
Proof.
  destruct l as [|c l]; [intros _; exact I|].
  intros H. apply nondecreasing_inv in H as [Hab H].
  apply nondecreasing_inv in H as [Hbc H].
  apply nondecreasing_cons; [lia | exact H].
Qed.

(** The step of the induction below: the index after a settlement is [c']
    and what follows is covered by the induction hypothesis. *)
Lemma nondecreasing_step (c c' : Z) (tail reports : list Z) :
  (c <= c')%Z ->
  (nondecreasing (c' :: reports) -> nondecreasing (c' :: tail)) ->
  nondecreasing (c' :: reports) ->
  nondecreasing (c :: c' :: tail).
Proof. intros Hle Hih Hrep. apply nondecreasing_cons; auto. Qed.

(** What a settlement does to the index: it assigns the [question_index]
    reported, whatever it is, when the submission resolves with a next
    question and the interview is not complete, and leaves the index alone
    otherwise. *)
Lemma handleUserResponse_index env audioBlob w sid :
  present (sessionId (state w)) = Some sid ->
  currentQuestionIndex (state (snd (handleUserResponse env audioBlob w)))
  = match onSubmitAnswer env sid audioBlob with
    | Resolve data =>
        match is_complete data, present (next_question data) with
        | false, Some _ => question_index data
        | _, _ => currentQuestionIndex (state w)
        end
    | Reject _ => currentQuestionIndex (state w)
    end.
Proof.
  intros Hs.
  destruct (onSubmitAnswer env sid audioBlob) as [data|e] eqn:Hd.
  - destruct (is_complete data) eqn:Hc.
    + now rewrite (handleUserResponse_complete _ _ _ _ _ Hs Hd Hc).
    + destruct (present (next_question data)) as [next|] eqn:Hn.
      * destruct (handleUserResponse_next _ _ _ _ _ _ Hs Hd Hc Hn)
          as (r & ev & ->).
        reflexivity.
      * now rewrite (handleUserResponse_stalled _ _ _ _ _ Hs Hd Hc Hn).
  - now rewrite (handleUserResponse_rejected _ _ _ _ _ Hs Hd).
Qed.

Lemma indexTrace_nondecreasing turns :
  forall w sid,
    present (sessionId (state w)) = Some sid ->
    nondecreasing (currentQuestionIndex (state w) :: reported sid turns) ->
    nondecreasing (currentQuestionIndex (state w) :: indexTrace turns w).
Proof.
  induction turns as [|[env audioBlob] rest IH]; intros w sid Hs Hmono.
  - exact I.
  - cbn [indexTrace reported] in *.
    destruct (onSubmitAnswer env sid audioBlob) as [data|e] eqn:Hd.
    + destruct (is_complete data) eqn:Hc.
      * rewrite (handleUserResponse_complete _ _ _ _ _ Hs Hd Hc).
        cbn [snd].
        eapply nondecreasing_step;
          [reflexivity | apply (IH _ sid); exact Hs |].
        apply nondecreasing_skip in Hmono. exact Hmono.
      * destruct (present (next_question data)) as [next|] eqn:Hn.
        -- destruct (handleUserResponse_next _ _ _ _ _ _ Hs Hd Hc Hn)
             as (r & ev & ->).
           cbn [snd].
           apply nondecreasing_inv in Hmono as [Hle Hrest].
           eapply nondecreasing_step;
             [exact Hle | apply (IH _ sid); exact Hs | exact Hrest].
        -- rewrite (handleUserResponse_stalled _ _ _ _ _ Hs Hd Hc Hn).
           cbn [snd].
           eapply nondecreasing_step;
             [reflexivity | apply (IH _ sid); exact Hs |].
           apply nondecreasing_skip in Hmono. exact Hmono.
    + rewrite (handleUserResponse_rejected _ _ _ _ _ Hs Hd).
      cbn [snd].
      eapply nondecreasing_step;
        [reflexivity | apply (IH _ sid); exact Hs | exact Hmono].
Qed.

(** C9, as amended.  Settling an answer leaves [currentQuestionIndex] as it
    is or assigns the [question_index] the backend reported, with no look
    at the index it replaces: it assigns it when the submission resolves
    with a next question and the interview is not complete, and leaves the
    index alone in every other case.  So along any sequence of settlements
    of a session the index never decreases, provided the indices the
    backend reports do not decrease from the current one. *)
Theorem index_nondecreasing_for_monotone_backend turns :
  forall w sid,
    present (sessionId (state w)) = Some sid ->
    (forall env audioBlob,
        currentQuestionIndex (state (snd (handleUserResponse env audioBlob w)))
        = match onSubmitAnswer env sid audioBlob with
          | Resolve data =>
              match is_complete data, present (next_question data) with
              | false, Some _ => question_index data
              | _, _ => currentQuestionIndex (state w)
              end
          | Reject _ => currentQuestionIndex (state w)
          end)
    /\ (nondecreasing (currentQuestionIndex (state w) :: reported sid turns) ->
        nondecreasing (currentQuestionIndex (state w) :: indexTrace turns w)).
Proof.
  intros w sid Hs. split.
  - intros env audioBlob. apply handleUserResponse_index. exact Hs.
  - apply indexTrace_nondecreasing. exact Hs.
Qed.

Lemma index_nondecreasing_for_monotone_backend_witness :
  let w := snd (InterviewRoom.startInterview
                  (Fixtures.interview (Reject NetworkError)) initialWorld) in
  let turns :=
    [(Fixtures.interview (Resolve (Fixtures.verdict (Some "Q2") 1 false)),
      [Byte.x01]);
     (Fixtures.interview (Reject NetworkError), [Byte.x02]);
     (Fixtures.interview (Resolve (Fixtures.verdict None 2 true)),
      [Byte.x03])] in
  indexTrace turns w = [1; 1; 1]%Z
  /\ nondecreasing (0%Z :: indexTrace turns w)
  /\ currentQuestionIndex
       (state (snd (handleUserResponse
                      (Fixtures.interview
                         (Resolve (Fixtures.verdict (Some "Q6") 5 false)))
                      [Byte.x01] w)))
     = 5%Z.
Proof.
  intros w turns. split; [reflexivity|].
  destruct (index_nondecreasing_for_monotone_backend turns w "s1" eq_refl)
    as [Hset Hmono].
  split.
  - apply Hmono. simpl. lia.
  - exact (Hset (Fixtures.interview
                   (Resolve (Fixtures.verdict (Some "Q6") 5 false)))
             [Byte.x01]).
Defined.

(** C9, as stated, fails: the index is whatever the backend reports.  After
    a first answer the backend names question 1; after the second it names
    question 0, and the index goes from 1 back to 0. *)
Lemma index_can_decrease :
  let w := snd (InterviewRoom.startInterview
                  (Fixtures.interview (Reject NetworkError)) initialWorld) in
  let turns :=
    [(Fixtures.interview (Resolve (Fixtures.verdict (Some "Q2") 1 false)),
      [Byte.x01]);
     (Fixtures.interview (Resolve (Fixtures.verdict (Some "Q1") 0 false)),
      [Byte.x02])] in
  currentQuestionIndex (state w) = 0%Z
  /\ indexTrace turns w = [1; 0]%Z
  /\ ~ nondecreasing (currentQuestionIndex (state w) :: indexTrace turns w).
Proof.
  intros w turns. split; [reflexivity|]. split; [reflexivity|].
  intros H. vm_compute in H. destruct H as (_ & H & _). apply H. reflexivity.
Qed.

End InterviewRoomFacts.

(** ** The real-time media session controller *)

Module AvatarVideoFacts.
Import Js Eff AvatarVideo Vocabulary.

(** Unfolds a handler of the controller down to the world it returns. *)
Ltac exec :=
  cbv [speak disconnect roomDisconnect mount connectAvatar
       connectAvatar_request connectAvatar_created connectAvatar_connected
       connectFailed onRoomConnected onRoomDisconnected unmount
       mbind mret M_bind M_ret bind ret gets modify await throw tryCatch
       call emit onCtl setTimeout setRoomState setClosure
       setRoomRef setIsCreatingRef setHasSessionRef setAudioElementsRef
       setIsConnected setShowAudioEnableButton];
  cbn.

(** *** The three ways [disconnect] ends *)

Lemma disconnect_idle env w :
  notConnected w ->
  disconnect env w
  = (Resolve tt,
     {| ctl := afterReset (ctl w); rooms := rooms w;
        sessionStorage := sessionStorage w; isMounted := isMounted w;
        room := room w; log := log w; timers := timers w |}).
Proof.
  unfold notConnected. intros H. exec.
  destruct (roomRef (ctl w)) as [r|]; cbn; [|reflexivity].
  rewrite H. reflexivity.
Qed.

Lemma disconnect_live env w r :
  roomRef (ctl w) = Some r ->
  isRoomConnected w r = true ->
  onRoomDisconnect env = Resolve tt ->
  disconnect env w
  = (Resolve tt,
     {| ctl := afterReset (ctl w); rooms := <[r := disconnected]> (rooms w);
        sessionStorage := sessionStorage w; isMounted := isMounted w;
        room := room w; log := log w ++ [RoomDisconnect r];
        timers := timers w |}).
Proof.
  intros Hr Hlive Hok. exec. rewrite Hr. cbn. rewrite Hlive, Hok. reflexivity.
Qed.

Lemma disconnect_failed env w r e :
  roomRef (ctl w) = Some r ->
  isRoomConnected w r = true ->
  onRoomDisconnect env = Reject e ->
  disconnect env w
  = (Reject e,
     {| ctl := ctl w; rooms := rooms w;
        sessionStorage := sessionStorage w; isMounted := isMounted w;
        room := room w;
        log := log w ++ [RoomDisconnect r;
                         ConsoleError "Failed to disconnect from LiveKit:" (Some e)];
        timers := timers w |}).
Proof.
  intros Hr Hlive Hko. exec. rewrite Hr. cbn. rewrite Hlive, Hko. cbn.
  rewrite <- app_assoc. now destruct w as [[] ? ? ? ? ? ?].
Qed.

(** Whenever [disconnect] returns, the controller is reset, the storage is
    untouched and nothing is connected behind the handle any more. *)
Lemma disconnect_returns env w w1 :
  disconnect env w = (Resolve tt, w1) ->
  ctl w1 = afterReset (ctl w)
  /\ sessionStorage w1 = sessionStorage w
  /\ (notConnected w -> log w1 = log w /\ rooms w1 = rooms w)
  /\ (forall r, roomRef (ctl w) = Some r -> isRoomConnected w1 r = false).
Proof.
  intros H.
  destruct (roomRef (ctl w)) as [r|] eqn:Hr.
  - destruct (isRoomConnected w r) eqn:Hlive.
    + destruct (onRoomDisconnect env) as [[]|e] eqn:Hd.
      * rewrite (disconnect_live _ _ _ Hr Hlive Hd) in H.
        injection H as <-. cbn. repeat split.
        -- unfold notConnected in H. rewrite Hr in H. congruence.
        -- unfold notConnected in H. rewrite Hr in H. congruence.
        -- intros r' [= <-]. unfold isRoomConnected, roomState. cbn.
           now rewrite lookup_insert_eq.
      * rewrite (disconnect_failed _ _ _ _ Hr Hlive Hd) in H. discriminate.
    + rewrite disconnect_idle in H by (unfold notConnected; now rewrite Hr).
      injection H as <-. cbn. repeat split. now intros r' [= <-].
  - rewrite disconnect_idle in H by (unfold notConnected; now rewrite Hr).
    injection H as <-. cbn. repeat split. intros r' [=].
Qed.

(** C6, as amended.  [disconnect] ends without error unless the room
    behind the handle is connected and refuses to disconnect; the error is
    then thrown again and nothing is reset.  With no connected room behind
    the handle it calls nothing and touches no room, only clearing the
    handle and lowering the flags, so that it changes nothing exactly when
    they are cleared and lowered already.  With a connected room that
    disconnects, the room is disconnected and the controller reset.  And
    whenever a call has returned, the room it found connected is
    disconnected, the handle is cleared, the flags are down, and a second
    call in a row, whatever the room would answer, returns without error
    and changes nothing. *)
Theorem disconnect_idempotent env env' w :
  (notConnected w ->
   disconnect env w
   = (Resolve tt,
      {| ctl := afterReset (ctl w); rooms := rooms w;
         sessionStorage := sessionStorage w; isMounted := isMounted w;
         room := room w; log := log w; timers := timers w |})
   /\ (disconnect env w = (Resolve tt, w) <-> ctl w = afterReset (ctl w)))
  /\ (forall r,
      roomRef (ctl w) = Some r ->
      isRoomConnected w r = true ->
      disconnect env w
      = match onRoomDisconnect env with
        | Resolve _ =>
            (Resolve tt,
             {| ctl := afterReset (ctl w);
                rooms := <[r := disconnected]> (rooms w);
                sessionStorage := sessionStorage w; isMounted := isMounted w;
                room := room w; log := log w ++ [RoomDisconnect r];
                timers := timers w |})
        | Reject e =>
            (Reject e,
             {| ctl := ctl w; rooms := rooms w;
                sessionStorage := sessionStorage w; isMounted := isMounted w;
                room := room w;
                log := log w
                       ++ [RoomDisconnect r;
                           ConsoleError "Failed to disconnect from LiveKit:"
                             (Some e)];
                timers := timers w |})
        end)
  /\ (forall w1,
      disconnect env w = (Resolve tt, w1) ->
      roomRef (ctl w1) = None
      /\ isConnected (ctl w1) = false
      /\ hasSessionRef (ctl w1) = false
      /\ isCreatingRef (ctl w1) = false
      /\ audioElementsRef (ctl w1) = []
      /\ (forall r,
          roomRef (ctl w) = Some r ->
          isRoomConnected w r = true ->
          rooms w1 !! r = Some disconnected
          /\ log w1 = log w ++ [RoomDisconnect r])
      /\ disconnect env' w1 = (Resolve tt, w1)).
Proof.
  split; [|split].
  - intros H. rewrite (disconnect_idle env w H). split; [reflexivity|].
    split.
    + intros [= Heq]. rewrite <- Heq at 1. reflexivity.
    + intros Heq. f_equal. destruct w as [c ? ? ? ? ? ?]. cbn in *.
      now rewrite <- Heq.
  - intros r Hr Hlive.
    destruct (onRoomDisconnect env) as [[]|e] eqn:Hd.
    + exact (disconnect_live env w r Hr Hlive Hd).
    + exact (disconnect_failed env w r e Hr Hlive Hd).
  - intros w1 H.
    destruct (disconnect_returns env w w1 H) as (Hctl & _ & _ & _).
    rewrite Hctl. cbn.
    split; [reflexivity|]. split; [reflexivity|]. split; [reflexivity|].
    split; [reflexivity|]. split; [reflexivity|]. split.
    + intros r Hr Hlive.
      destruct (onRoomDisconnect env) as [[]|e] eqn:Hd.
      * rewrite (disconnect_live env w r Hr Hlive Hd) in H.
        injection H as <-. cbn. split; [apply lookup_insert_eq | reflexivity].
      * rewrite (disconnect_failed env w r e Hr Hlive Hd) in H. discriminate.
    + rewrite disconnect_idle by (unfold notConnected; now rewrite Hctl).
      rewrite Hctl. cbn. destruct w1 as [c ? ? ? ? ? ?]. cbn in *.
      now rewrite Hctl.
Qed.

Lemma disconnect_idempotent_witness :
  let w := snd (mount Fixtures.studio (mounting ∅)) in
  let w1 := snd (disconnect Fixtures.studio w) in
  isRoomConnected w 0 = true
  /\ rooms w1 !! 0 = Some disconnected
  /\ roomRef (ctl w1) = None
  /\ isConnected (ctl w1) = false
  /\ disconnect Fixtures.stubborn w1 = (Resolve tt, w1).
Proof.
  intros w w1.
  assert (Hrun : disconnect Fixtures.studio w = (Resolve tt, w1))
    by (vm_compute; reflexivity).
  assert (Hr : roomRef (ctl w) = Some 0) by (vm_compute; reflexivity).
  assert (Hlive : isRoomConnected w 0 = true) by (vm_compute; reflexivity).
  destruct (disconnect_idempotent Fixtures.studio Fixtures.stubborn w)
    as (_ & _ & H).
  destruct (H w1 Hrun) as (H1 & H2 & _ & _ & _ & H3 & H4).
  split; [exact Hlive|]. split; [exact (proj1 (H3 0 Hr Hlive))|].
  split; [exact H1|]. split; [exact H2 | exact H4].
Defined.

(** C6, as stated, fails.  A connected room that refuses to disconnect
    makes [disconnect] throw, twice in a row, and leaves the room connected,
    the handle set and the flags up both times.  And with no room at all
    behind the handle [disconnect] is not always without effect: called
    while the session request is pending it lowers [isCreatingRef]; called
    while the room is connecting it drops the handle of a room that goes on
    connecting. *)
Lemma disconnect_can_fail :
  let w := snd (mount Fixtures.stubborn (mounting ∅)) in
  let w1 := snd (disconnect Fixtures.stubborn w) in
  let w2 := snd (disconnect Fixtures.stubborn w1) in
  let v := snd (mount_request (mounting ∅)) in
  let u := snd (connectAvatar_created
                  (Api.createAvatarSession Fixtures.avatarBackend None) v) in
  (isRoomConnected w 0 = true
   /\ fst (disconnect Fixtures.stubborn w) = Reject NetworkError
   /\ fst (disconnect Fixtures.stubborn w1) = Reject NetworkError
   /\ ctl w2 = ctl w
   /\ roomRef (ctl w2) = Some 0
   /\ isConnected (ctl w2) = true
   /\ hasSessionRef (ctl w2) = true
   /\ isRoomConnected w2 0 = true)
  /\ (roomRef (ctl v) = None
      /\ rooms v = ∅
      /\ fst (disconnect Fixtures.studio v) = Resolve tt
      /\ isCreatingRef (ctl v) = true
      /\ isCreatingRef (ctl (snd (disconnect Fixtures.studio v))) = false
      /\ snd (disconnect Fixtures.studio v) <> v)
  /\ (roomRef (ctl u) = Some 0
      /\ rooms u !! 0 = Some connecting
      /\ fst (disconnect Fixtures.studio u) = Resolve tt
      /\ roomRef (ctl (snd (disconnect Fixtures.studio u))) = None
      /\ rooms (snd (disconnect Fixtures.studio u)) !! 0 = Some connecting
      /\ snd (disconnect Fixtures.studio u) <> u).
Proof.
  intros w w1 w2 v u. split; [|split].
  - vm_compute. repeat split.
  - split; [reflexivity|]. split; [reflexivity|]. split; [reflexivity|].
    split; [reflexivity|]. split; [reflexivity|].
    intros H. apply (f_equal (fun x => isCreatingRef (ctl x))) in H.
    vm_compute in H. discriminate.
  - split; [vm_compute; reflexivity|]. split; [vm_compute; reflexivity|].
    split; [vm_compute; reflexivity|]. split; [vm_compute; reflexivity|].
    split; [vm_compute; reflexivity|].
    intros H. apply (f_equal (fun x => roomRef (ctl x))) in H.
    vm_compute in H. discriminate.
Qed.

(** *** Mounting *)

Lemma mount_with_token env w tok :
  isCreatingRef (ctl w) = false ->
  hasSessionRef (ctl w) = false ->
  present (sessionStorage w !! TOKEN_KEY) = Some tok ->
  mount env w
  = (Resolve tt,
     {| ctl := {| roomRef := roomRef (ctl w); isCreatingRef := false;
                  hasSessionRef := true;
                  audioElementsRef := audioElementsRef (ctl w);
                  isConnected := isConnected (ctl w);
                  showAudioEnableButton := showAudioEnableButton (ctl w) |};
        rooms := rooms w; sessionStorage := sessionStorage w;
        isMounted := isMounted w; room := room w; log := log w;
        timers := timers w |}).
Proof.
  intros Hc Hs Ht. exec. rewrite Hc, Hs. cbn. rewrite Ht. cbn.
  now rewrite Hc.
Qed.

(** Closes a goal [exists events, l = log w ++ e :: events] once the run
    has been reduced to a world. *)
Ltac grown := cbn; rewrite <- ?app_assoc; cbn; eexists; reflexivity.

Lemma mount_without_token env w :
  isCreatingRef (ctl w) = false ->
  hasSessionRef (ctl w) = false ->
  present (sessionStorage w !! TOKEN_KEY) = None ->
  exists events,
    log (snd (mount env w)) = log w ++ CreateAvatarSession :: events.
Proof.
  intros Hc Hs Ht. exec. rewrite Hc, Hs. cbn. rewrite Ht. cbn.
  rewrite Hc. cbn.
  destruct (Api.createAvatarSession (fetch env) None) as [data|e]; cbn.
  - destruct (prop data "livekit_url") as [u|e]; cbn.
    + destruct (prop data "livekit_token") as [t|e]; cbn.
      * destruct (negb (truthy_opt u) || negb (truthy_opt t)); cbn.
        -- grown.
        -- destruct (onConnect env) as [[]|e]; cbn.
           ++ grown.
           ++ destruct e as [m [|]| | | |]; grown.
      * destruct e as [m [|]| | | |]; grown.
    + destruct e as [m [|]| | | |]; grown.
  - destruct e as [m [|]| | | |]; grown.
Qed.

(** C7, as amended.  When [disconnect] has returned, the room handle is
    cleared, the flags are down and the audio elements are forgotten, but
    the tab's [sessionStorage] is as it was: [disconnect] does not clear
    the cached token.  A mount that follows, of this instance or of a new
    one in the same tab, requests a fresh real-time session when no token
    is cached, and requests nothing when one still is. *)
Theorem disconnect_resets_flags_not_token env env' w w1 :
  disconnect env w = (Resolve tt, w1) ->
  ctl w1 = afterReset (ctl w)
  /\ sessionStorage w1 = sessionStorage w
  /\ (present (sessionStorage w !! TOKEN_KEY) = None ->
      (exists events,
          log (snd (mount env' w1)) = log w1 ++ CreateAvatarSession :: events)
      /\ (exists events,
          log (snd (mount env' (mounting (sessionStorage w1))))
          = CreateAvatarSession :: events))
  /\ (forall tok,
      present (sessionStorage w !! TOKEN_KEY) = Some tok ->
      log (snd (mount env' w1)) = log w1
      /\ roomRef (ctl (snd (mount env' w1))) = None
      /\ log (snd (mount env' (mounting (sessionStorage w1)))) = []).
Proof.
  intros H.
  destruct (disconnect_returns env w w1 H) as (Hctl & Hst & _ & _).
  assert (Hc : isCreatingRef (ctl w1) = false) by now rewrite Hctl.
  assert (Hs : hasSessionRef (ctl w1) = false) by now rewrite Hctl.
  split; [exact Hctl|]. split; [exact Hst|]. split.
  - intros Ht. split.
    + apply mount_without_token; [exact Hc | exact Hs | now rewrite Hst].
    + apply (mount_without_token env' (mounting (sessionStorage w1)));
        [reflexivity | reflexivity | cbn; now rewrite Hst].
  - intros tok Ht.
    rewrite (mount_with_token env' w1 tok Hc Hs) by now rewrite Hst.
    rewrite (mount_with_token env' (mounting (sessionStorage w1)) tok)
      by (try reflexivity; cbn; now rewrite Hst).
    cbn. rewrite Hctl. repeat split.
Qed.

Lemma disconnect_resets_flags_not_token_witness :
  let w := snd (mount Fixtures.studio (mounting ∅)) in
  let w1 := snd (disconnect Fixtures.studio w) in
  hasSessionRef (ctl w) = true
  /\ ctl w1 = afterReset (ctl w)
  /\ exists events,
       log (snd (mount Fixtures.studio w1))
       = log w1 ++ CreateAvatarSession :: events.
Proof.
  intros w w1.
  pose proof (disconnect_resets_flags_not_token Fixtures.studio
                Fixtures.studio w w1 eq_refl) as (H1 & _ & H2 & _).
  split; [reflexivity|]. split; [exact H1|].
  exact (proj1 (H2 eq_refl)).
Defined.

(** C7, as stated, fails: [disconnect] leaves the cached token where it is,
    and the mount that follows, finding it, creates no session.  That is so
    for a controller that connected and whose token the page then cached,
    and equally for one mounted in a tab where a token was cached already. *)
Lemma disconnect_keeps_cached_token :
  let w := Fixtures.connectedAndCached in
  let w1 := snd (disconnect Fixtures.studio w) in
  let v := snd (mount Fixtures.studio (mounting {[TOKEN_KEY := "tok-0"]})) in
  let v1 := snd (disconnect Fixtures.studio v) in
  isConnected (ctl w) = true
  /\ fst (disconnect Fixtures.studio w) = Resolve tt
  /\ sessionStorage w1 !! TOKEN_KEY = Some "tok-1"
  /\ log (snd (mount Fixtures.studio w1)) = log w1
  /\ log (snd (mount Fixtures.studio (mounting (sessionStorage w1)))) = []
  /\ ~ In CreateAvatarSession
         (log (snd (mount Fixtures.studio (mounting (sessionStorage w1)))))
  /\ fst (disconnect Fixtures.studio v) = Resolve tt
  /\ sessionStorage v1 !! TOKEN_KEY = Some "tok-0"
  /\ log (snd (mount Fixtures.studio v1)) = []
  /\ log (snd (mount Fixtures.studio (mounting (sessionStorage v1)))) = [].
Proof.
  vm_compute. repeat split. intros [].
Qed.

(** *** Speaking without a room *)

Lemma speak_without_room env text w :
  roomRef (ctl w) = None ->
  speak env text w
  = (Resolve tt,
     {| ctl := ctl w; rooms := rooms w; sessionStorage := sessionStorage w;
        isMounted := isMounted w; room := room w;
        log := log w ++ [ConsoleWarn "Room not initialized. Cannot send speak event."];
        timers := timers w |}).
Proof. intros H. exec. now rewrite H. Qed.

Lemma speaking_without_room env texts :
  forall w,
    roomRef (ctl w) = None ->
    forEach (speak env) texts w
    = (Resolve tt,
       {| ctl := ctl w; rooms := rooms w; sessionStorage := sessionStorage w;
          isMounted := isMounted w; room := room w;
          log := log w ++ map (fun _ => ConsoleWarn "Room not initialized. Cannot send speak event.") texts;
          timers := timers w |}).
Proof.
  induction texts as [|text rest IH]; intros w H.
  - cbn. rewrite app_nil_r. now destruct w.
  - cbn [forEach]. unfold Eff.bind.
    rewrite (speak_without_room env text w H).
    rewrite IH by exact H. cbn. now rewrite <- app_assoc.
Qed.

Lemma warnings_publish_nothing (texts : list string) :
  forallb (fun e => negb (isPublish e))
    (map (fun _ => ConsoleWarn "Room not initialized. Cannot send speak event.") texts)
  = true.
Proof. induction texts; [reflexivity | exact IHtexts]. Qed.

(** C10.  Mounted in a tab that already caches a session token, the
    controller requests no session and opens no room: nothing is logged,
    no room exists, the handle stays null and the connected flag stays
    down; and any number of [speak] calls on that instance end normally
    with one warning each, publish nothing and change nothing else. *)
Theorem cached_token_mount_is_inert env storage tok texts :
  present (storage !! TOKEN_KEY) = Some tok ->
  let w := snd (mount env (mounting storage)) in
  let out := forEach (speak env) texts w in
  fst (mount env (mounting storage)) = Resolve tt
  /\ log w = []
  /\ rooms w = ∅
  /\ roomRef (ctl w) = None
  /\ isConnected (ctl w) = false
  /\ fst out = Resolve tt
  /\ log (snd out)
     = map (fun _ => ConsoleWarn "Room not initialized. Cannot send speak event.") texts
  /\ forallb (fun e => negb (isPublish e)) (log (snd out)) = true
  /\ ctl (snd out) = ctl w
  /\ rooms (snd out) = ∅.
Proof.
  intros Ht w out. subst out w.
  rewrite (mount_with_token env (mounting storage) tok eq_refl eq_refl Ht).
  cbn [fst snd].
  rewrite speaking_without_room by reflexivity.
  cbn. repeat split. apply warnings_publish_nothing.
Qed.

Lemma cached_token_mount_is_inert_witness :
  let w := snd (mount Fixtures.studio (mounting {[TOKEN_KEY := "tok-0"]})) in
  log w = []
  /\ roomRef (ctl w) = None
  /\ log (snd (forEach (speak Fixtures.studio) ["Q1"; "Q2"] w))
     = [ConsoleWarn "Room not initialized. Cannot send speak event.";
        ConsoleWarn "Room not initialized. Cannot send speak event."].
Proof.
  intros w.
  pose proof (cached_token_mount_is_inert Fixtures.studio
                {[TOKEN_KEY := "tok-0"]} "tok-0" ["Q1"; "Q2"] eq_refl)
    as (_ & H1 & _ & H2 & _ & _ & H3 & _).
  split; [exact H1|]. split; [exact H2 | exact H3].
Defined.

End AvatarVideoFacts.

(** ** More on the session protocol client *)

Module ApiMore.
Import Js Api Vocabulary.

Ltac on_response Hok :=
  cbv [createInterviewSession submitAnswer createAvatarSession
       stopAvatarSession getQuestion speakTTS completeSession
       getSessionResults getSessionLogs avatarSpeak awaitFetch always offline];
  cbn; rewrite ?Hok; cbn.

Lemma throwAvatarError_rejects (m : json) :
  rejects (throwAvatarError (A := json) m).
Proof.
  unfold throwAvatarError, rejects.
  destruct (mentionsConcurrencyLimit m) as [[|]|e]; cbn; eauto.
Qed.

(** X1.  A response whose status is not a success never comes back as a
    result: each of the eight operations that test [res.ok] rejects,
    whatever the body holds; and when the network is down all ten
    operations reject with the network error. *)
Theorem failure_status_never_resolves
    (res : Response) request sessionId audioBlob options stop questionIndex text :
  ok res = false ->
  rejects (createInterviewSession (always res) request)
  /\ rejects (submitAnswer (always res) sessionId audioBlob)
  /\ rejects (createAvatarSession (always res) options)
  /\ rejects (stopAvatarSession (always res) stop)
  /\ rejects (getQuestion (always res) sessionId questionIndex)
  /\ rejects (speakTTS (always res) text)
  /\ rejects (completeSession (always res) sessionId)
  /\ rejects (getSessionResults (always res) sessionId)
  /\ createInterviewSession offline request = Reject NetworkError
  /\ submitAnswer offline sessionId audioBlob = Reject NetworkError
  /\ getSessionLogs offline sessionId = Reject NetworkError
  /\ createAvatarSession offline options = Reject NetworkError
  /\ avatarSpeak offline sessionId text = Reject NetworkError
  /\ stopAvatarSession offline stop = Reject NetworkError
  /\ getQuestion offline sessionId questionIndex = Reject NetworkError
  /\ speakTTS offline text = Reject NetworkError
  /\ completeSession offline sessionId = Reject NetworkError
  /\ getSessionResults offline sessionId = Reject NetworkError.
Proof.
  intros Hok.
  assert (Hmsg : forall prefix,
             rejects (m ← failureMessage prefix res; Reject (A := json) (Error m false))).
  { intros prefix. unfold rejects.
    destruct (failureMessage prefix res) as [m|e]; cbn; eauto. }
  repeat split; try reflexivity; on_response Hok;
    try apply Hmsg; try (unfold rejects; eauto; fail).
  destruct (failureMessage _ res) as [m|e]; cbn;
    [apply throwAvatarError_rejects | unfold rejects; eauto].
Qed.

Lemma failure_status_never_resolves_witness :
  rejects (submitAnswer
             (always {| ok := false; statusText := "Bad Gateway"; parsed := None |})
             "s1" [])
  /\ getQuestion offline "s1" 0 = Reject NetworkError.
Proof.
  pose proof (failure_status_never_resolves
                {| ok := false; statusText := "Bad Gateway"; parsed := None |}
                {| week_number := 4 |} "s1" [] None
                {| stop_session_token := None; stop_session_id := None |}
                0%Z "Q" eq_refl)
    as (_ & H1 & _ & _ & _ & _ & _ & _ & _ & _ & _ & _ & _ & _ & H2 & _).
  split; [exact H1 | exact H2].
Defined.

(** X2.  [getSessionLogs] and [avatarSpeak] do not look at the status: they
    resolve with the parsed body of any response, a failure included.
    [stopAvatarSession] does test the status, but its error names the
    status text only, never the detail the server sent. *)
Theorem status_blind_operations (res : Response) (data : json)
    sessionId text stop :
  parsed res = Some data ->
  getSessionLogs (always res) sessionId = Resolve data
  /\ avatarSpeak (always res) sessionId text = Resolve data
  /\ (ok res = false ->
      stopAvatarSession (always res) stop
      = Reject (Error (JStr ("Failed to stop avatar session: " +:+ statusText res))
                      false)).
Proof.
  intros Hp. repeat split.
  - on_response Hp. unfold json_of. now rewrite Hp.
  - on_response Hp. unfold json_of. now rewrite Hp.
  - intros Hok. now on_response Hok.
Qed.

Lemma status_blind_operations_witness :
  getSessionLogs Fixtures.throttled "s1"
  = Resolve (JObj [("detail", JStr "Concurrency limit reached")])
  /\ stopAvatarSession Fixtures.throttled
       {| stop_session_token := Some "tok-1"; stop_session_id := None |}
     = Reject (Error (JStr "Failed to stop avatar session: Too Many Requests") false).
Proof.
  pose proof (status_blind_operations
                {| ok := false; statusText := "Too Many Requests";
                   parsed := Some (JObj [("detail", JStr "Concurrency limit reached")]) |}
                (JObj [("detail", JStr "Concurrency limit reached")])
                "s1" "hi"
                {| stop_session_token := Some "tok-1"; stop_session_id := None |}
                eq_refl) as (H1 & _ & H2).
  split; [exact H1 | exact (H2 eq_refl)].
Defined.

(** X3.  [createInterviewSession] resolves exactly when the response is a
    success whose body is an object with no truthy [detail] and a truthy
    [session_id]; it then resolves with that body.  A success is never
    missing its session identifier. *)
Theorem createInterviewSession_resolves_iff
    (fetch : Request -> FetchOutcome) (request : CreateInterviewSessionRequest)
    (data : json) :
  createInterviewSession fetch request = Resolve data <->
  exists res props,
    fetch {| url := BASE_URL +:+ "/interview/session/create/"; method := POST;
             payload := JsonBody (JObj [("week_number", JNum (week_number request))]) |}
    = Responded res
    /\ ok res = true
    /\ parsed res = Some data
    /\ data = JObj props
    /\ whenTruthy (assoc "detail" props) = None
    /\ truthy_opt (assoc "session_id" props) = true.
Proof.
  unfold createInterviewSession, awaitFetch.
  set (req := {| url := _; method := _; payload := _ |}).
  split.
  - destruct (fetch req) as [|res]; cbn; [discriminate|].
    destruct (ok res) eqn:Hok; cbn.
    2:{ destruct (failureMessage _ res); cbn; discriminate. }
    unfold json_of. destruct (parsed res) as [body|] eqn:Hp; cbn; [|discriminate].
    destruct body as [| | | | |props]; cbn; try discriminate.
    destruct (whenTruthy (assoc "detail" props)) eqn:Hd; [discriminate|].
    destruct (truthy_opt (assoc "session_id" props)) eqn:Hs; cbn;
      [|discriminate].
    intros [= <-]. exists res, props. auto 10.
  - intros (res & props & Hf & Hok & Hp & -> & Hd & Hs).
    rewrite Hf. cbn. rewrite Hok. cbn. unfold json_of. rewrite Hp. cbn.
    rewrite Hd, Hs. reflexivity.
Qed.

(** X4.  [createAvatarSession] resolves exactly when the response is a
    success whose body is an object with no truthy [detail] and with both
    [livekit_url] and [livekit_token] truthy; it then resolves with that
    body. *)
Theorem createAvatarSession_resolves_iff
    (fetch : Request -> FetchOutcome)
    (options : option CreateAvatarSessionRequest) (data : json) :
  createAvatarSession fetch options = Resolve data <->
  exists res props,
    fetch {| url := BASE_URL +:+ "/interview/avatar/session/create/";
             method := POST;
             payload := JsonBody (match options with
                                  | Some o => encodeAvatarRequest o
                                  | None => JObj []
                                  end) |}
    = Responded res
    /\ ok res = true
    /\ parsed res = Some data
    /\ data = JObj props
    /\ whenTruthy (assoc "detail" props) = None
    /\ truthy_opt (assoc "livekit_url" props) = true
    /\ truthy_opt (assoc "livekit_token" props) = true.
Proof.
  unfold createAvatarSession, awaitFetch.
  set (req := {| url := _; method := _; payload := _ |}).
  split.
  - destruct (fetch req) as [|res]; cbn; [discriminate|].
    destruct (ok res) eqn:Hok; cbn.
    2:{ destruct (failureMessage _ res) as [m|e]; cbn; [|discriminate].
        intros H. destruct (throwAvatarError_rejects m) as [e He].
        rewrite He in H. discriminate. }
    unfold json_of. destruct (parsed res) as [body|] eqn:Hp; cbn; [|discriminate].
    destruct body as [| | | | |props]; cbn; try discriminate.
    + destruct (whenTruthy (assoc "detail" props)) as [m|] eqn:Hd.
      * intros H. destruct (throwAvatarError_rejects m) as [e He].
        rewrite He in H. discriminate.
      * destruct (truthy_opt (assoc "livekit_url" props)) eqn:Hu;
          destruct (truthy_opt (assoc "livekit_token" props)) eqn:Ht;
          cbn; try discriminate.
        intros [= <-]. exists res, props. auto 10.
  - intros (res & props & Hf & Hok & Hp & -> & Hd & Hu & Ht).
    rewrite Hf. cbn. rewrite Hok. cbn. unfold json_of. rewrite Hp. cbn.
    rewrite Hd, Hu, Ht. reflexivity.
Qed.

(** X5.  What the error of a failure status says, for the six operations
    that throw [error.detail || "Failed to ...: " + statusText] untagged.
    When the body cannot be parsed and the status text is not empty, each
    throws the bare status text, its own "Failed to ..." prefix lost; when
    the body is
    an object without a truthy [detail], the message is the operation's
    prefix followed by the status text. *)
Theorem failure_message_selection (res : Response) sessionId audioBlob
    questionIndex text request :
  ok res = false ->
  (parsed res = None -> nonEmpty (statusText res) = true ->
   let e := Reject (Error (JStr (statusText res)) false) in
   createInterviewSession (always res) request = e
   /\ submitAnswer (always res) sessionId audioBlob = e
   /\ getQuestion (always res) sessionId questionIndex = e
   /\ speakTTS (always res) text = e
   /\ completeSession (always res) sessionId = e
   /\ getSessionResults (always res) sessionId = e)
  /\ (forall props,
      parsed res = Some (JObj props) ->
      whenTruthy (assoc "detail" props) = None ->
      let e := fun prefix =>
        Reject (A := json) (Error (JStr (prefix +:+ statusText res)) false) in
      createInterviewSession (always res) request
      = e "Failed to create interview session: "
      /\ submitAnswer (always res) sessionId audioBlob
         = e "Failed to submit answer: "
      /\ getQuestion (always res) sessionId questionIndex
         = e "Failed to get question: "
      /\ speakTTS (always res) text = e "Failed to generate TTS: "
      /\ completeSession (always res) sessionId
         = e "Failed to complete session: "
      /\ getSessionResults (always res) sessionId
         = e "Failed to get session results: ").
Proof.
  intros Hok. split.
  - intros Hp Hs e. subst e. unfold nonEmpty in Hs.
    repeat split; on_response Hok;
      unfold failureMessage, errorBody; rewrite Hp; cbn;
      unfold or_else, whenTruthy; cbn; now rewrite Hs.
  - intros props Hp Hd e. subst e.
    repeat split; on_response Hok;
      unfold failureMessage, errorBody; rewrite Hp; cbn;
      unfold or_else; now rewrite Hd.
Qed.

Lemma failure_message_selection_witness :
  submitAnswer
    (always {| ok := false; statusText := "Bad Gateway"; parsed := None |})
    "s1" []
  = Reject (Error (JStr "Bad Gateway") false)
  /\ getQuestion
       (always {| ok := false; statusText := "Not Found";
                  parsed := Some (JObj [("code", JNum 404)]) |})
       "s1" 7
     = Reject (Error (JStr "Failed to get question: Not Found") false).
Proof.
  split.
  - exact (proj1 (proj2 (proj1 (failure_message_selection
             {| ok := false; statusText := "Bad Gateway"; parsed := None |}
             "s1" [] 0%Z "Q" {| week_number := 4 |} eq_refl)
             eq_refl eq_refl))).
  - pose proof (proj2 (failure_message_selection
             {| ok := false; statusText := "Not Found";
                parsed := Some (JObj [("code", JNum 404)]) |}
             "s1" [] 7%Z "Q" {| week_number := 4 |} eq_refl)
             [("code", JNum 404)] eq_refl eq_refl) as (_ & _ & H & _).
    exact H.
Defined.

End ApiMore.

(** ** More on the interview state machine *)

Module InterviewRoomMore.
Import Js Eff InterviewRoom Vocabulary.

Ltac exec :=
  cbv [handleUserResponse playTTSAudio play initializeSession runTask fire
       toggleMic stopRecorder onstop ondataavailable startInterview
       retryConnection tapMic tick resetInterview
       mbind mret M_bind M_ret bind ret gets modify await throw tryCatch
       tryFinally call emit onState onRefs setTimeout
       setHasStarted setHasFinished setIsListening setCurrentQuestionIndex
       setTimer setInterviewState setSessionId setWeekData setCurrentQuestion
       setSessionResults setApiConnectionError setIsInitializing
       setAudioRef setMediaRecorderRef setAudioChunksRef];
  cbn.

(** *** Speech *)

(** X6.  What [playTTSAudio] plays.  A synthesis that fails is logged and
    nothing is played.  A response with a non-empty [audio_url] is played
    from that URL, an inline [audio_base64] beside it being ignored; with
    an empty URL the inline audio is played as a [data:] URI; with neither,
    nothing is played and nothing is logged as an error.  A rejected
    [play()] is logged, and the element keeps the new source. *)
Theorem playback_source env text w :
  (forall e,
      onSpeakTTS env text = Reject e ->
      playTTSAudio env text w
      = (Resolve tt,
         spoken w (audioRef (refs w))
           [SpeakTTS text; ConsoleError "Failed to play TTS audio:" e]))
  /\ (forall tts,
      onSpeakTTS env text = Resolve tts ->
      nonEmpty (audio_url tts) = true ->
      playTTSAudio env text w
      = (Resolve tt,
         spoken w (Some {| src := audio_url tts |})
           (SpeakTTS text :: Play (audio_url tts)
            :: playFailure (onPlay env (audio_url tts)))))
  /\ (forall tts b64,
      onSpeakTTS env text = Resolve tts ->
      nonEmpty (audio_url tts) = false ->
      present (audio_base64 tts) = Some b64 ->
      playTTSAudio env text w
      = (Resolve tt,
         spoken w (Some {| src := "data:audio/mpeg;base64," +:+ b64 |})
           (SpeakTTS text :: Play ("data:audio/mpeg;base64," +:+ b64)
            :: playFailure (onPlay env ("data:audio/mpeg;base64," +:+ b64)))))
  /\ (forall tts,
      onSpeakTTS env text = Resolve tts ->
      nonEmpty (audio_url tts) = false ->
      present (audio_base64 tts) = None ->
      playTTSAudio env text w
      = (Resolve tt, spoken w (audioRef (refs w)) [SpeakTTS text])).
Proof.
  unfold spoken, playFailure. repeat split.
  - intros e He. exec. rewrite He. cbn. rewrite <- app_assoc.
    now destruct w as [? [? ? ?] ? ?].
  - intros tts Ht Hu. exec. rewrite Ht. cbn. rewrite Hu. cbn.
    destruct (audioRef (refs w)); cbn;
      destruct (onPlay env (audio_url tts)) as [[]|e]; cbn;
      now rewrite <- ?app_assoc.
  - intros tts b64 Ht Hu Hb. exec. rewrite Ht. cbn. rewrite Hu, Hb. cbn.
    destruct (onPlay env _) as [[]|e]; cbn; now rewrite <- ?app_assoc.
  - intros tts Ht Hu Hb. exec. rewrite Ht. cbn. rewrite Hu, Hb. cbn.
    now destruct w as [? [? ? ?] ? ?].
Qed.

Lemma playback_source_witness :
  let env := Vocabulary.withPlayback (Fixtures.interview (Reject NetworkError))
               (fun _ => Resolve {| audio_url := ""; audio_base64 := Some "QUJD" |})
               (fun _ => Reject (DOMException "NotAllowedError")) in
  playTTSAudio env "Q1" initialWorld
  = (Resolve tt,
     spoken initialWorld (Some {| src := "data:audio/mpeg;base64,QUJD" |})
       [SpeakTTS "Q1"; Play "data:audio/mpeg;base64,QUJD";
        ConsoleError "Failed to play TTS audio:" (DOMException "NotAllowedError")]).
Proof.
  intros env.
  exact (proj1 (proj2 (proj2 (playback_source env "Q1" initialWorld)))
           {| audio_url := ""; audio_base64 := Some "QUJD" |} "QUJD"
           eq_refl eq_refl eq_refl).
Defined.

(** What [playTTSAudio] logs is speech only. *)
Lemma playTTSAudio_footprint env text w :
  exists a events,
    playTTSAudio env text w = (Resolve tt, spoken w a events)
    /\ submissions events = []
    /\ forallb (fun e => negb (isSessionCall e)) events = true.
Proof.
  destruct w as [st [recorder chunks current] lg tm].
  unfold spoken. exec.
  destruct (onSpeakTTS env text) as [tts|e]; cbn.
  2:{ rewrite <- app_assoc. do 2 eexists. split; [reflexivity|]. now split. }
  destruct (nonEmpty (audio_url tts)); cbn.
  - destruct current; cbn;
      destruct (onPlay env (audio_url tts)) as [[]|e]; cbn;
      rewrite <- ?app_assoc; do 2 eexists;
      (split; [reflexivity | now split]).
  - destruct (present (audio_base64 tts)) as [b64|]; cbn.
    + destruct (onPlay env _) as [[]|e]; cbn;
        rewrite <- ?app_assoc; do 2 eexists;
        (split; [reflexivity | now split]).
    + do 2 eexists. split; [reflexivity | now split].
Qed.

(** *** The calls of a submission *)

(** X7.  Settling an answer talks to the backend through [submitAnswer]
    alone: [handleUserResponse] ends normally, submits the recording once
    under the current session identifier, or not at all when there is
    none, and never creates a session, fetches a question, completes the
    session or fetches results itself. *)
Theorem handleUserResponse_footprint env audioBlob w :
  exists events,
    fst (handleUserResponse env audioBlob w) = Resolve tt
    /\ log (snd (handleUserResponse env audioBlob w)) = log w ++ events
    /\ submissions events
       = match present (sessionId (state w)) with
         | Some sid => [(sid, audioBlob)]
         | None => []
         end
    /\ forallb (fun e => negb (isSessionCall e)) events = true.
Proof.
  destruct (present (sessionId (state w))) as [sid|] eqn:Hs.
  2:{ exists []. exec. rewrite Hs. cbn. now rewrite app_nil_r. }
  cbv [handleUserResponse mbind mret M_bind M_ret bind ret gets tryCatch call
       await emit modify].
  rewrite Hs. cbn.
  destruct (onSubmitAnswer env sid audioBlob) as [data|e]; cbn.
  - destruct (is_complete data); cbn.
    + exists [SubmitAnswer sid audioBlob]. now repeat split.
    + destruct (present (next_question data)) as [next|]; cbn.
      * cbv [setCurrentQuestion setCurrentQuestionIndex setInterviewState
             onState modify setTimeout]. cbn.
        match goal with
        | |- context [playTTSAudio env next ?w0] =>
            destruct (playTTSAudio_footprint env next w0)
              as (a & events & -> & Hsub & Hcalls)
        end.
        exists (SubmitAnswer sid audioBlob :: events).
        split; [reflexivity|]. split; [cbn; now rewrite <- app_assoc|].
        split; [|exact Hcalls].
        change (submissions (SubmitAnswer sid audioBlob :: events))
          with ((sid, audioBlob) :: submissions events).
        now rewrite Hsub.
      * exists [SubmitAnswer sid audioBlob]. now repeat split.
  - exists [SubmitAnswer sid audioBlob; ConsoleError "Failed to submit answer:" e].
    rewrite <- app_assoc. now repeat split.
Qed.

(** *** Bringing the session up *)

(** X8.  [initializeSession] never throws and always lowers
    [isInitializing]; it leaves [hasStarted] and the timers alone.  It
    returns [true] exactly when both the creation of the session and the
    fetch of the first question resolve: the question text is stored, the
    index is 0, the phase is [idle] and the error flag is down.  When the
    creation fails nothing but the error flag changes and no question is
    asked for.  When only the fetch of the question fails, the error flag
    is up although the session identifier and the week are already
    stored. *)
Theorem initializeSession_outcomes env w :
  let out := initializeSession env w in
  let s' := state (snd out) in
  isInitializing s' = false
  /\ hasStarted s' = hasStarted (state w)
  /\ timers (snd out) = timers w
  /\ match onCreateInterviewSession env WEEK_NUMBER with
     | Reject e =>
         fst out = Resolve false
         /\ apiConnectionError s' = true
         /\ sessionId s' = sessionId (state w)
         /\ weekData s' = weekData (state w)
         /\ currentQuestion s' = currentQuestion (state w)
         /\ currentQuestionIndex s' = currentQuestionIndex (state w)
         /\ interviewState s' = interviewState (state w)
         /\ log (snd out)
            = log w ++ [CreateInterviewSession WEEK_NUMBER;
                        ConsoleError "Failed to initialize session:" e]
     | Resolve response =>
         sessionId s' = Some (session_id response)
         /\ weekData s' = Some (session_week response)
         /\ match onGetQuestion env (session_id response) 0 with
            | Reject e =>
                fst out = Resolve false
                /\ apiConnectionError s' = true
                /\ currentQuestion s' = currentQuestion (state w)
                /\ currentQuestionIndex s' = currentQuestionIndex (state w)
                /\ interviewState s' = interviewState (state w)
                /\ log (snd out)
                   = log w ++ [CreateInterviewSession WEEK_NUMBER;
                               GetQuestion (session_id response) 0;
                               ConsoleError "Failed to initialize session:" e]
            | Resolve q =>
                fst out = Resolve true
                /\ apiConnectionError s' = false
                /\ currentQuestion s' = Question.question_text q
                /\ currentQuestionIndex s' = 0%Z
                /\ interviewState s' = idle
            end
     end.
Proof.
  cbv [initializeSession mbind mret M_bind M_ret bind ret gets modify await
       tryCatch tryFinally call emit onState
       setIsInitializing setApiConnectionError setSessionId setWeekData
       setCurrentQuestion setCurrentQuestionIndex setInterviewState].
  cbn [state refs log timers].
  destruct (onCreateInterviewSession env WEEK_NUMBER) as [response|e]; cbn.
  2:{ rewrite <- app_assoc. now repeat split. }
  destruct (onGetQuestion env (session_id response) 0) as [q|e]; cbn.
  2:{ rewrite <- !app_assoc. now repeat split. }
  match goal with
  | |- context [playTTSAudio env ?t ?w0] =>
      destruct (playTTSAudio_footprint env t w0) as (a & events & -> & _ & _)
  end.
  cbn. now repeat split.
Qed.

Lemma initializeSession_keeps_hasStarted env w :
  hasStarted (state (snd (initializeSession env w))) = hasStarted (state w).
Proof.
  cbv [initializeSession mbind mret M_bind M_ret bind ret gets modify await
       tryCatch tryFinally call emit onState
       setIsInitializing setApiConnectionError setSessionId setWeekData
       setCurrentQuestion setCurrentQuestionIndex setInterviewState].
  cbn [state refs log timers].
  destruct (onCreateInterviewSession env WEEK_NUMBER) as [response|e]; cbn;
    [|reflexivity].
  destruct (onGetQuestion env (session_id response) 0) as [q|e]; cbn;
    [|reflexivity].
  match goal with
  | |- context [playTTSAudio env ?t ?w0] =>
      destruct (playTTSAudio_footprint env t w0) as (a & events & -> & _ & _)
  end.
  reflexivity.
Qed.

(** X9.  The [Retry] button does what [initializeSession] does and no
    more: it never raises [hasStarted], so from the start screen it leaves
    the start screen up even when the session came up.  The [Start] button
    raises [hasStarted] exactly when [initializeSession] returned [true],
    and otherwise adds nothing to it. *)
Theorem start_and_retry env w :
  snd (retryConnection env w) = snd (initializeSession env w)
  /\ (hasStarted (state w) = false ->
      screen (state (snd (retryConnection env w))) = StartScreen)
  /\ (fst (initializeSession env w) = Resolve true ->
      hasStarted (state (snd (startInterview env w))) = true)
  /\ (fst (initializeSession env w) = Resolve false ->
      snd (startInterview env w) = snd (initializeSession env w)).
Proof.
  assert (Hretry : snd (retryConnection env w) = snd (initializeSession env w)).
  { cbv [retryConnection mbind mret M_bind M_ret bind ret
         setApiConnectionError onState modify].
    assert (Hsame : initializeSession env
                      {| state := with_apiConnectionError false (state w);
                         refs := refs w; log := log w; timers := timers w |}
                    = initializeSession env w) by reflexivity.
    rewrite Hsame. now destruct (initializeSession env w) as [[[]|e] w']. }
  split; [exact Hretry|]. split; [|split].
  - intros Hs. rewrite Hretry. unfold screen.
    now rewrite initializeSession_keeps_hasStarted, Hs.
  - intros Hr. cbv [startInterview mbind mret M_bind M_ret bind ret].
    destruct (initializeSession env w) as [[[|]|e] w']; cbn in *;
      try discriminate. reflexivity.
  - intros Hr. cbv [startInterview mbind mret M_bind M_ret bind ret].
    destruct (initializeSession env w) as [[[|]|e] w']; cbn in *;
      try discriminate. reflexivity.
Qed.

Lemma start_and_retry_witness :
  let env := Fixtures.interview (Reject NetworkError) in
  screen (state (snd (retryConnection env initialWorld))) = StartScreen
  /\ sessionId (state (snd (retryConnection env initialWorld))) = Some "s1"
  /\ hasStarted (state (snd (startInterview env initialWorld))) = true.
Proof.
  intros env.
  destruct (start_and_retry env initialWorld) as (_ & H1 & H2 & _).
  split; [exact (H1 eq_refl)|]. split; [reflexivity | exact (H2 eq_refl)].
Defined.

(** *** The microphone *)

Lemma concat_withData (chunks : list Blob) : concat (withData chunks) = concat chunks.
Proof.
  induction chunks as [|data rest IH]; [reflexivity|].
  destruct data as [|b data].
  - exact IH.
  - change (concat ((b :: data) :: withData rest)
            = concat ((b :: data) :: rest)).
    cbn [concat]. now rewrite IH.
Qed.

Lemma dataavailable_collects (delivered : list Blob) :
  forall w,
    forEach ondataavailable delivered w
    = (Resolve tt,
       {| state := state w;
          refs := {| mediaRecorderRef := mediaRecorderRef (refs w);
                     audioChunksRef := audioChunksRef (refs w) ++ withData delivered;
                     audioRef := audioRef (refs w) |};
          log := log w; timers := timers w |}).
Proof.
  induction delivered as [|data rest IH]; intros [st [recorder chunks current] lg tm].
  - cbn. now rewrite app_nil_r.
  - cbn [forEach]. unfold Eff.bind at 1.
    unfold withData. cbn [List.filter]. fold (withData rest).
    destruct (0 <? length data)%nat eqn:Hsize.
    + cbv [ondataavailable mbind mret M_bind M_ret bind ret gets modify
           setAudioChunksRef onRefs]. rewrite Hsize. cbn.
      rewrite IH. cbn. now rewrite <- app_assoc.
    + cbv [ondataavailable mret M_ret ret]. rewrite Hsize. cbn.
      now rewrite IH.
Qed.

Lemma toggleMic_start env w u :
  interviewState (state w) <> asking ->
  interviewState (state w) <> completing ->
  isListening (state w) = false ->
  onGetUserMedia env = Resolve u ->
  toggleMic env w
  = (Resolve tt,
     {| state := with_interviewState listening (with_isListening true (state w));
        refs := {| mediaRecorderRef := Some recording; audioChunksRef := [];
                   audioRef := audioRef (refs w) |};
        log := log w ++ [GetUserMedia; RecorderStart];
        timers := timers w |}).
Proof.
  intros Ha Hc Hl Hm. exec.
  destruct (interviewState (state w)); try congruence;
    cbn; rewrite Hl; cbn; rewrite Hm; cbn; now rewrite <- app_assoc.
Qed.

Lemma toggleMic_stop env w :
  interviewState (state w) <> asking ->
  interviewState (state w) <> completing ->
  isListening (state w) = true ->
  mediaRecorderRef (refs w) = Some recording ->
  toggleMic env w
  = let chunks := audioChunksRef (refs w) ++ withData (onDataAvailable env) in
    let w1 :=
      {| state := with_interviewState processing (with_isListening false (state w));
         refs := {| mediaRecorderRef := Some inactive; audioChunksRef := chunks;
                    audioRef := audioRef (refs w) |};
         log := log w ++ [RecorderStop; StopTracks];
         timers := timers w |} in
    match chunks with
    | [] => (Resolve tt, w1)
    | _ => handleUserResponse env (concat chunks) w1
    end.
Proof.
  intros Ha Hc Hl Hr.
  cbv [toggleMic stopRecorder onstop mbind mret M_bind M_ret bind ret gets
       modify emit onState onRefs setIsListening setInterviewState
       setMediaRecorderRef].
  destruct (interviewState (state w)); try congruence;
    rewrite Hl; cbn [negb state refs log timers mediaRecorderRef];
    rewrite Hr;
    cbn [state refs log timers mediaRecorderRef audioChunksRef audioRef];
    rewrite dataavailable_collects;
    cbn [state refs log timers mediaRecorderRef audioChunksRef audioRef];
    rewrite <- app_assoc; cbn [app];
    destruct (audioChunksRef (refs w) ++ withData (onDataAvailable env));
    reflexivity.
Qed.

(** X10.  When the microphone is refused, the tap that would have started
    a recording ends in phase [idle] with [isListening] down; the recorder,
    the chunks and the timers are untouched, the question is as before,
    and nothing is submitted. *)
Theorem microphone_refused env w e :
  interviewState (state w) <> asking ->
  interviewState (state w) <> completing ->
  isListening (state w) = false ->
  onGetUserMedia env = Reject e ->
  let out := toggleMic env w in
  fst out = Resolve tt
  /\ interviewState (state (snd out)) = idle
  /\ isListening (state (snd out)) = false
  /\ currentQuestion (state (snd out)) = currentQuestion (state w)
  /\ currentQuestionIndex (state (snd out)) = currentQuestionIndex (state w)
  /\ refs (snd out) = refs w
  /\ timers (snd out) = timers w
  /\ log (snd out)
     = log w ++ [GetUserMedia; ConsoleError "Failed to start recording:" e].
Proof.
  intros Ha Hc Hl Hm. exec.
  destruct (interviewState (state w)); try congruence;
    cbn; rewrite Hl; cbn; rewrite Hm; cbn; rewrite <- app_assoc;
    now repeat split.
Qed.

Lemma microphone_refused_witness :
  let w := snd (startInterview Fixtures.micDenied initialWorld) in
  let out := toggleMic Fixtures.micDenied w in
  interviewState (state (snd out)) = idle
  /\ submissions (log (snd out)) = [].
Proof.
  intros w out.
  pose proof (microphone_refused Fixtures.micDenied w
                (DOMException "NotAllowedError")
                ltac:(discriminate) ltac:(discriminate) eq_refl eq_refl)
    as (_ & H & _).
  split; [exact H | reflexivity].
Defined.

(** X11.  A recording is submitted whole and alone.  After a tap that
    starts a recording and a tap that stops it, what reaches
    [handleUserResponse] is the concatenation of the data the recorder
    handed over at the stop, whatever chunks an earlier recording had left
    behind; by then the phase is [processing], [isListening] is down, the
    recorder is inactive and its tracks are stopped. *)
Theorem recording_submitted_whole env1 env2 w u :
  interviewState (state w) <> asking ->
  interviewState (state w) <> completing ->
  isListening (state w) = false ->
  onGetUserMedia env1 = Resolve u ->
  withData (onDataAvailable env2) <> [] ->
  toggleMic env2 (snd (toggleMic env1 w))
  = handleUserResponse env2 (concat (onDataAvailable env2))
      {| state := with_interviewState processing
                    (with_isListening false
                       (with_interviewState listening
                          (with_isListening true (state w))));
         refs := {| mediaRecorderRef := Some inactive;
                    audioChunksRef := withData (onDataAvailable env2);
                    audioRef := audioRef (refs w) |};
         log := log w ++ [GetUserMedia; RecorderStart; RecorderStop; StopTracks];
         timers := timers w |}.
Proof.
  intros Ha Hc Hl Hm Hdata.
  rewrite (toggleMic_start env1 w u Ha Hc Hl Hm). cbn [snd].
  rewrite toggleMic_stop by (cbn; congruence).
  cbn [state refs log timers mediaRecorderRef audioChunksRef audioRef app].
  rewrite <- app_assoc. cbn [app].
  destruct (withData (onDataAvailable env2)) as [|c cs] eqn:Hw; [congruence|].
  rewrite <- Hw, concat_withData. reflexivity.
Qed.

Lemma recording_submitted_whole_witness :
  let env := Fixtures.interview (Reject NetworkError) in
  let w := snd (startInterview env initialWorld) in
  submissions (log (snd (toggleMic env (snd (toggleMic env w)))))
  = [("s1", [Byte.x01; Byte.x02])].
Proof.
  intros env w.
  rewrite (recording_submitted_whole env env w tt
             ltac:(discriminate) ltac:(discriminate) eq_refl eq_refl
             ltac:(discriminate)).
  reflexivity.
Defined.

(** X12.  An empty recording is dropped.  When the recorder hands over no
    data, or only chunks of size 0, the tap that stops the recording
    submits nothing: it ends with the phase [processing], [isListening]
    down and no timer added, so nothing is left to move the phase on. *)
Theorem empty_recording_dropped env1 env2 w u :
  interviewState (state w) <> asking ->
  interviewState (state w) <> completing ->
  isListening (state w) = false ->
  onGetUserMedia env1 = Resolve u ->
  withData (onDataAvailable env2) = [] ->
  let out := toggleMic env2 (snd (toggleMic env1 w)) in
  fst out = Resolve tt
  /\ interviewState (state (snd out)) = processing
  /\ isListening (state (snd out)) = false
  /\ timers (snd out) = timers w
  /\ log (snd out)
     = log w ++ [GetUserMedia; RecorderStart; RecorderStop; StopTracks].
Proof.
  intros Ha Hc Hl Hm Hdata.
  rewrite (toggleMic_start env1 w u Ha Hc Hl Hm). cbn [snd].
  rewrite toggleMic_stop by (cbn; congruence).
  cbn [state refs log timers mediaRecorderRef audioChunksRef audioRef app].
  rewrite Hdata. cbn. rewrite <- app_assoc. now repeat split.
Qed.

Lemma empty_recording_dropped_witness :
  let env := Fixtures.interview (Reject NetworkError) in
  let w := snd (startInterview env initialWorld) in
  let out := toggleMic Fixtures.micDenied (snd (toggleMic env w)) in
  interviewState (state (snd out)) = processing
  /\ timers (snd out) = [].
Proof.
  intros env w out.
  pose proof (empty_recording_dropped env Fixtures.micDenied w tt
                ltac:(discriminate) ltac:(discriminate) eq_refl eq_refl eq_refl)
    as (_ & H1 & _ & H2 & _).
  split; [exact H1 | exact H2].
Defined.

(** *** Timers, the clock and the screens *)

Lemma fire_task env n w delay task :
  timers w !! n = Some (delay, task) ->
  fire env n w = runTask env task (withoutTimer n w).
Proof.
  intros H. cbv [fire mbind mret M_bind M_ret bind ret gets modify].
  now rewrite H.
Qed.

Lemma tapMic_completing env w :
  interviewState (state w) = completing -> tapMic env w = (Resolve tt, w).
Proof.
  intros H. cbv [tapMic micDisabled mbind mret M_bind M_ret bind ret gets].
  now rewrite H.
Qed.

Lemma toggleMic_guarded env w :
  interviewState (state w) = asking \/ interviewState (state w) = completing ->
  toggleMic env w = (Resolve tt, w).
Proof.
  intros H. cbv [toggleMic mbind mret M_bind M_ret bind ret gets].
  now destruct H as [-> | ->].
Qed.

Lemma taps_completing envs :
  forall w, interviewState (state w) = completing -> taps envs w = w.
Proof.
  induction envs as [|env rest IH]; intros w H; [reflexivity|].
  cbn [taps]. rewrite (tapMic_completing env w H). cbn [snd]. now apply IH.
Qed.

(** X13.  A failure after completion is final.  When the timer of the
    completing phase fires and [completeSession] or [getSessionResults]
    rejects, the callback throws with the state exactly as it was, so the
    phase stays [completing] and the session is not marked finished; the
    timer has left the queue and is not set again; results are not even
    asked for when the completion itself failed; and from then on no tap on
    the microphone, through the button or not, does anything. *)
Theorem completion_failure_is_final env w n delay sid :
  timers w !! n = Some (delay, FinishSession sid) ->
  interviewState (state w) = completing ->
  rejects (onCompleteSession env sid) \/ rejects (onGetSessionResults env sid) ->
  let out := fire env n w in
  rejects (fst out)
  /\ state (snd out) = state w
  /\ refs (snd out) = refs w
  /\ timers (snd out) = take n (timers w) ++ drop (S n) (timers w)
  /\ (rejects (onCompleteSession env sid) ->
      log (snd out) = log w ++ [CompleteSession sid])
  /\ (forall env', toggleMic env' (snd out) = (Resolve tt, snd out))
  /\ (forall envs, taps envs (snd out) = snd out).
Proof.
  intros Ht Hp Hfail out. subst out.
  rewrite (fire_task env n w delay _ Ht).
  assert (Hrun : rejects (fst (runTask env (FinishSession sid) (withoutTimer n w)))
                 /\ state (snd (runTask env (FinishSession sid) (withoutTimer n w)))
                    = state w
                 /\ refs (snd (runTask env (FinishSession sid) (withoutTimer n w)))
                    = refs w
                 /\ timers (snd (runTask env (FinishSession sid) (withoutTimer n w)))
                    = take n (timers w) ++ drop (S n) (timers w)
                 /\ (rejects (onCompleteSession env sid) ->
                     log (snd (runTask env (FinishSession sid) (withoutTimer n w)))
                     = log w ++ [CompleteSession sid])).
  { unfold withoutTimer, rejects in *. exec.
    destruct (onCompleteSession env sid) as [ack|e]; cbn.
    - destruct (onGetSessionResults env sid) as [results|e]; cbn.
      + destruct Hfail as [[e He]|[e He]]; discriminate.
      + repeat split; eauto. intros [e' He']. discriminate.
    - repeat split; eauto. }
  destruct Hrun as (H1 & H2 & H3 & H4 & H5).
  repeat split; try assumption.
  - intros env'. apply toggleMic_guarded. right. now rewrite H2.
  - intros envs. apply taps_completing. now rewrite H2.
Qed.

Lemma completion_failure_is_final_witness :
  let w := snd (Fixtures.answeredOnce (Resolve (Fixtures.verdict None 2 true))
                  initialWorld) in
  let out := fire Fixtures.cannotComplete 0 w in
  fst out = Reject NetworkError
  /\ interviewState (state (snd out)) = completing
  /\ timers (snd out) = []
  /\ toggleMic Fixtures.cannotComplete (snd out) = (Resolve tt, snd out).
Proof.
  intros w out.
  pose proof (completion_failure_is_final Fixtures.cannotComplete w 0 2500%Z
                "s1" eq_refl eq_refl
                (or_introl (ex_intro _ NetworkError eq_refl)))
    as (_ & H1 & _ & H2 & _ & H3 & _).
  subst out. split; [reflexivity|]. split; [now rewrite H1|].
  split; [exact H2 | apply H3].
Defined.

(** X14.  The way to the next question.  When the submission resolves with
    a next question and [is_complete] false, the question text and the
    index are replaced by the ones received and the phase is [asking], in
    which taps on the microphone do nothing; one timer of 1000 ms is added,
    and when it fires the phase is [idle], the question and index stay, and
    nothing is called. *)
Theorem next_question_flow env env' w audioBlob sid data next :
  present (sessionId (state w)) = Some sid ->
  onSubmitAnswer env sid audioBlob = Resolve data ->
  is_complete data = false ->
  present (next_question data) = Some next ->
  let w1 := snd (handleUserResponse env audioBlob w) in
  let w2 := snd (fire env' (length (timers w)) w1) in
  state w1 = with_interviewState asking
               (with_currentQuestionIndex (question_index data)
                  (with_currentQuestion next (state w)))
  /\ timers w1 = timers w ++ [(1000%Z, ReturnToIdle)]
  /\ (forall env'', toggleMic env'' w1 = (Resolve tt, w1))
  /\ state w2 = with_interviewState idle (state w1)
  /\ currentQuestion (state w2) = next
  /\ currentQuestionIndex (state w2) = question_index data
  /\ timers w2 = timers w
  /\ log w2 = log w1.
Proof.
  intros Hs Hd Hc Hn w1 w2. subst w2 w1.
  destruct (InterviewRoomFacts.handleUserResponse_next
              env audioBlob w sid data next Hs Hd Hc Hn)
    as (refs' & events & ->).
  cbn [snd].
  rewrite (fire_task env' (length (timers w)) _ 1000%Z ReturnToIdle)
    by (cbn; apply InterviewRoomFacts.lookup_last_added).
  unfold withoutTimer. exec.
  rewrite InterviewRoomFacts.take_drop_last_added.
  repeat split.
Qed.

Lemma next_question_flow_witness :
  let env := Fixtures.interview (Resolve (Fixtures.verdict (Some "Q2") 1 false)) in
  let w := snd (startInterview env initialWorld) in
  let w1 := snd (handleUserResponse env [Byte.x01] w) in
  let w2 := snd (fire env 0 w1) in
  interviewState (state w1) = asking
  /\ interviewState (state w2) = idle
  /\ currentQuestion (state w2) = "Q2"
  /\ currentQuestionIndex (state w2) = 1%Z.
Proof.
  intros env w w1 w2.
  pose proof (next_question_flow env env w [Byte.x01] "s1"
                (Fixtures.verdict (Some "Q2") 1 false) "Q2"
                eq_refl eq_refl eq_refl eq_refl)
    as (H1 & _ & _ & H2 & H3 & H4 & _).
  split; [exact (f_equal interviewState H1)|].
  split; [exact (f_equal interviewState H2)|].
  split; [exact H3 | exact H4].
Defined.

(** X15.  [resetInterview] brings every cell of the state back to its
    initial value, whatever it held, except [isListening], which it does
    not touch; it so brings up the start screen.  It pauses and forgets the
    audio element if there is one.  It cancels no pending timer and leaves
    the recorder and its chunks as they are.  A second reset changes
    nothing. *)
Theorem resetInterview_restores w :
  let w' := snd (resetInterview w) in
  fst (resetInterview w) = Resolve tt
  /\ state w' = with_isListening (isListening (state w)) initialState
  /\ screen (state w') = StartScreen
  /\ audioRef (refs w') = None
  /\ mediaRecorderRef (refs w') = mediaRecorderRef (refs w)
  /\ audioChunksRef (refs w') = audioChunksRef (refs w)
  /\ timers w' = timers w
  /\ log w' = log w ++ match audioRef (refs w) with
                       | Some _ => [Pause]
                       | None => []
                       end
  /\ resetInterview w' = (Resolve tt, w').
Proof.
  assert (Hrun : forall v,
             resetInterview v
             = (Resolve tt,
                {| state := with_isListening (isListening (state v)) initialState;
                   refs := {| mediaRecorderRef := mediaRecorderRef (refs v);
                              audioChunksRef := audioChunksRef (refs v);
                              audioRef := None |};
                   log := log v ++ match audioRef (refs v) with
                                   | Some _ => [Pause]
                                   | None => []
                                   end;
                   timers := timers v |})).
  { intros [[hs hf il ci ti ph sid wd cq sr ae ii] [recorder chunks current] lg tm].
    destruct current; cbn [log refs audioRef]; rewrite ?app_nil_r;
      vm_compute; reflexivity. }
  rewrite Hrun. cbn [fst snd state refs log timers mediaRecorderRef
                     audioChunksRef audioRef].
  split; [reflexivity|]. split; [reflexivity|]. split; [reflexivity|].
  split; [reflexivity|]. split; [reflexivity|]. split; [reflexivity|].
  split; [reflexivity|]. split; [reflexivity|].
  rewrite Hrun. cbn [state refs log timers mediaRecorderRef audioChunksRef
                     audioRef].
  now rewrite app_nil_r.
Qed.

Lemma ticks_idle n :
  forall w,
    hasStarted (state w) = false \/ hasFinished (state w) = true ->
    ticks n w = w.
Proof.
  induction n as [|n IH]; intros w Hoff; [reflexivity|].
  cbn [ticks].
  assert (Htick : snd (tick w) = w).
  { exec. destruct Hoff as [-> | ->]; cbn; [reflexivity|].
    now destruct (hasStarted (state w)). }
  rewrite Htick. now apply IH.
Qed.

(** X16.  The seconds counter counts while the interview has started and
    has not finished, one second a tick, and changes nothing else; before
    the start and after the finish a tick changes nothing at all. *)
Theorem seconds_counter n :
  forall w,
    (hasStarted (state w) = true -> hasFinished (state w) = false ->
     timer (state (ticks n w)) = (timer (state w) + Z.of_nat n)%Z
     /\ with_timer 0 (state (ticks n w)) = with_timer 0 (state w)
     /\ refs (ticks n w) = refs w
     /\ log (ticks n w) = log w
     /\ timers (ticks n w) = timers w)
    /\ (hasStarted (state w) = false \/ hasFinished (state w) = true ->
        ticks n w = w).
Proof.
  induction n as [|n IH]; intros w.
  - split; [intros _ _; cbn; rewrite Z.add_0_r; now repeat split | reflexivity].
  - cbn [ticks]. split.
    + intros Hs Hf.
      assert (Htick : snd (tick w)
                      = {| state := with_timer (timer (state w) + 1) (state w);
                           refs := refs w; log := log w; timers := timers w |}).
      { exec. now rewrite Hs, Hf. }
      rewrite Htick.
      destruct (proj1 (IH {| state := with_timer (timer (state w) + 1) (state w);
                             refs := refs w; log := log w; timers := timers w |})
                  Hs Hf) as (H1 & H2 & H3 & H4 & H5).
      rewrite H1, H2, H3, H4, H5. cbn. repeat split. lia.
    + intros Hoff. now apply (ticks_idle (S n)).
Qed.

Lemma seconds_counter_witness :
  let w := snd (startInterview (Fixtures.interview (Reject NetworkError))
                  initialWorld) in
  timer (state (ticks 65 w)) = 65%Z
  /\ ticks 65 initialWorld = initialWorld.
Proof.
  intros w. split.
  - exact (proj1 (proj1 (seconds_counter 65 w) eq_refl eq_refl)).
  - exact (proj2 (seconds_counter 65 initialWorld) (or_introl eq_refl)).
Defined.

(** X17.  A session that finishes shows its results and stops its clock.
    When the timer of the completing phase fires in a started interview and
    both calls succeed, the screen is the results screen with the results
    fetched; afterwards no tick advances the counter and no tap on the
    microphone button does anything. *)
Theorem finished_session_shows_results env w n delay sid ack results :
  timers w !! n = Some (delay, FinishSession sid) ->
  hasStarted (state w) = true ->
  interviewState (state w) = completing ->
  onCompleteSession env sid = Resolve ack ->
  onGetSessionResults env sid = Resolve results ->
  let w' := snd (fire env n w) in
  fst (fire env n w) = Resolve tt
  /\ screen (state w') = ResultsScreen results
  /\ (forall k, ticks k w' = w')
  /\ (forall envs, taps envs w' = w').
Proof.
  intros Ht Hs Hp Hc Hr w'. subst w'.
  rewrite (fire_task env n w delay _ Ht).
  unfold withoutTimer. exec. rewrite Hc. cbn. rewrite Hr. cbn.
  split; [reflexivity|]. split; [|split].
  - unfold screen. cbn. now rewrite Hs.
  - intros k. apply ticks_idle. now right.
  - intros envs. apply taps_completing. exact Hp.
Qed.

Lemma finished_session_shows_results_witness :
  let env := Fixtures.interview (Resolve (Fixtures.verdict None 2 true)) in
  let w := snd (Fixtures.answeredOnce (Resolve (Fixtures.verdict None 2 true))
                  initialWorld) in
  screen (state w) = RoomScreen
  /\ screen (state (snd (fire env 0 w))) = ResultsScreen Fixtures.finalResults
  /\ ticks 10 (snd (fire env 0 w)) = snd (fire env 0 w).
Proof.
  intros env w.
  pose proof (finished_session_shows_results env w 0 2500%Z "s1" true
                Fixtures.finalResults eq_refl eq_refl eq_refl eq_refl eq_refl)
    as (_ & H1 & H2 & _).
  split; [reflexivity|]. split; [exact H1 | apply H2].
Defined.

(** X18.  The label of the clock reads back.  For every count of seconds
    below 100 minutes [formatTime] gives five characters, two digits of
    minutes, a colon and two digits of seconds, from which the count is
    recovered.  (The bound is tight: the example that follows shows the
    six characters of the label of 100 minutes.) *)
Theorem formatTime_reads_back (seconds : Z) :
  (0 <= seconds < 6000)%Z ->
  readClock (formatTime seconds) = Some seconds
  /\ String.length (formatTime seconds) = 5%nat.
Proof.
  intros Hrange.
  pose (good := fun m t : nat =>
          let s := (60 * Z.of_nat m + Z.of_nat t)%Z in
          match readClock (formatTime s) with
          | Some v => (v =? s)%Z
          | None => false
          end && (String.length (formatTime s) =? 5)%nat).
  assert (Hall : forallb (fun m => forallb (good m) (seq 0 60)) (seq 0 100)
                 = true) by (vm_compute; reflexivity).
  rewrite forallb_forall in Hall.
  specialize (Hall (Z.to_nat (seconds / 60))).
  assert (Hm : In (Z.to_nat (seconds / 60)) (seq 0 100)).
  { apply in_seq. split; [lia|].
    assert (seconds / 60 < 100)%Z by (apply Z.div_lt_upper_bound; lia). lia. }
  apply Hall in Hm. rewrite forallb_forall in Hm.
  specialize (Hm (Z.to_nat (seconds mod 60))).
  assert (Ht : In (Z.to_nat (seconds mod 60)) (seq 0 60)).
  { apply in_seq. pose proof (Z.mod_pos_bound seconds 60). lia. }
  apply Hm in Ht. unfold good in Ht.
  assert (Hs : (60 * Z.of_nat (Z.to_nat (seconds / 60))
                + Z.of_nat (Z.to_nat (seconds mod 60)))%Z = seconds).
  { pose proof (Z.mod_pos_bound seconds 60).
    assert (0 <= seconds / 60)%Z by (apply Z.div_pos; lia).
    rewrite !Z2Nat.id by lia. symmetry. apply Z.div_mod. lia. }
  cbv zeta in Ht. rewrite Hs in Ht.
  apply andb_true_iff in Ht as [Hread Hlen].
  split.
  - destruct (readClock (formatTime seconds)) as [v|]; [|discriminate].
    apply Z.eqb_eq in Hread. now subst.
  - now apply Nat.eqb_eq.
Qed.

Lemma formatTime_reads_back_witness :
  formatTime 65 = "01:05"
  /\ readClock (formatTime 5999) = Some 5999%Z
  /\ formatTime 6000 = "100:00".
Proof.
  split; [reflexivity|]. split; [|reflexivity].
  exact (proj1 (formatTime_reads_back 5999 ltac:(lia))).
Defined.

End InterviewRoomMore.

(** ** The stand-alone record button *)

Module MicControlFacts.
Import Js Eff MicControl Vocabulary.

Ltac exec :=
  cbv [click startRecording stopRecording onstop ondataavailable
       mbind mret M_bind M_ret bind ret gets modify await
       emit setRecording setMediaRecorderRef setChunksRef];
  cbn.

Lemma chunks_collected (delivered : list Blob) :
  forall w,
    forEach ondataavailable delivered w
    = (Resolve tt,
       {| recording := recording w; mediaRecorderRef := mediaRecorderRef w;
          chunksRef := chunksRef w ++ delivered; log := log w |}).
Proof.
  induction delivered as [|data rest IH]; intros [rec recorder chunks lg].
  - cbn. now rewrite app_nil_r.
  - cbn [forEach]. unfold Eff.bind at 1. exec. rewrite IH. cbn.
    now rewrite <- app_assoc.
Qed.

Lemma click_stop env w :
  settled w ->
  disabled env = false ->
  recording w = true ->
  click env w
  = (Resolve tt,
     {| recording := false;
        mediaRecorderRef := Some InterviewRoom.inactive;
        chunksRef := [];
        log := log w ++ [RecorderStop; OnSubmit (concat (onDataAvailable env))] |}).
Proof.
  intros [Hchunks Hrec] Hd Hr. specialize (Hrec Hr).
  cbv [click stopRecording onstop mbind mret M_bind M_ret bind ret gets modify
       emit setRecording setMediaRecorderRef setChunksRef].
  rewrite Hd, Hr, Hrec. cbn.
  rewrite chunks_collected. cbn. rewrite Hchunks. cbn.
  now rewrite <- app_assoc.
Qed.

Lemma click_settled env w : settled w -> settled (snd (click env w)).
Proof.
  intros Hs. destruct (disabled env) eqn:Hd.
  { unfold click. rewrite Hd. exact Hs. }
  destruct (recording w) eqn:Hr.
  - rewrite (click_stop env w Hs Hd Hr). split; [reflexivity | discriminate].
  - destruct Hs as [Hchunks _]. exec. rewrite Hd, Hr. cbn.
    destruct (onGetUserMedia env) as [[]|e]; cbn.
    + now split.
    + split; [exact Hchunks | cbn; intros H; rewrite Hr in H; discriminate].
Qed.

Lemma clicks_settled envs : forall w, settled w -> settled (clicks envs w).
Proof.
  induction envs as [|env rest IH]; intros w Hs; [exact Hs|].
  cbn [clicks]. apply IH, click_settled, Hs.
Qed.

(** X19.  Every stop submits once, and submits everything.  After any
    series of clicks, a click on the enabled button while it shows
    "recording" stops the recorder and calls [onSubmit] exactly once, with
    the concatenation of all the data the recorder hands over, chunks of
    size 0 included, and with an empty blob when it hands over none; the
    chunks are then cleared and the button shows "answer" again. *)
Theorem stop_click_submits_once envs env :
  let w := clicks envs initialWorld in
  disabled env = false ->
  recording w = true ->
  click env w
  = (Resolve tt,
     {| recording := false;
        mediaRecorderRef := Some InterviewRoom.inactive;
        chunksRef := [];
        log := log w ++ [RecorderStop; OnSubmit (concat (onDataAvailable env))] |}).
Proof.
  intros w Hd Hr. apply click_stop; [|exact Hd | exact Hr].
  apply clicks_settled. split; [reflexivity | discriminate].
Qed.

(** X20.  A click that cannot start.  On a disabled button a click does
    nothing.  On the enabled button showing "answer", a refused microphone
    makes the click throw, for [startRecording] catches nothing; the
    button still shows "answer", no recorder has been made or started, and
    nothing is submitted.  When the microphone is granted the recorder
    records and the button shows "recording". *)
Theorem start_click_outcomes envs env :
  let w := clicks envs initialWorld in
  (disabled env = true -> click env w = (Resolve tt, w))
  /\ (disabled env = false -> recording w = false ->
      forall e, onGetUserMedia env = Reject e ->
      click env w
      = (Reject e,
         {| recording := false; mediaRecorderRef := mediaRecorderRef w;
            chunksRef := []; log := log w ++ [GetUserMedia] |}))
  /\ (disabled env = false -> recording w = false ->
      forall u, onGetUserMedia env = Resolve u ->
      click env w
      = (Resolve tt,
         {| recording := true;
            mediaRecorderRef := Some InterviewRoom.recording;
            chunksRef := []; log := log w ++ [GetUserMedia; RecorderStart] |})).
Proof.
  intros w.
  assert (Hs : settled w)
    by (apply clicks_settled; split; [reflexivity | discriminate]).
  destruct Hs as [Hchunks _].
  split; [|split].
  - intros Hd. unfold click. now rewrite Hd.
  - intros Hd Hr e He. exec. rewrite Hd, Hr. cbn. rewrite He. cbn.
    now rewrite ?Hr, ?Hchunks.
  - intros Hd Hr u Hu. exec. rewrite Hd, Hr. cbn. rewrite Hu. cbn.
    now rewrite ?Hr, ?Hchunks, <- app_assoc.
Qed.

Lemma stop_click_submits_once_witness :
  let w := clicks [Fixtures.recorderWith [];
                   Fixtures.recorderWith [[Byte.x01]; []; [Byte.x02]];
                   Fixtures.recorderWith []] initialWorld in
  click (Fixtures.recorderWith [[Byte.x03]; []]) w
  = (Resolve tt,
     {| recording := false;
        mediaRecorderRef := Some InterviewRoom.inactive;
        chunksRef := [];
        log := log w ++ [RecorderStop; OnSubmit [Byte.x03]] |}).
Proof.
  exact (stop_click_submits_once
           [Fixtures.recorderWith [];
            Fixtures.recorderWith [[Byte.x01]; []; [Byte.x02]];
            Fixtures.recorderWith []]
           (Fixtures.recorderWith [[Byte.x03]; []]) eq_refl eq_refl).
Defined.

Lemma start_click_outcomes_witness :
  let w := clicks [Fixtures.recorderRefused] initialWorld in
  recording w = false
  /\ fst (click Fixtures.recorderRefused w)
     = Reject (DOMException "NotAllowedError")
  /\ recording (snd (click (Fixtures.recorderWith []) w)) = true.
Proof.
  intros w.
  destruct (start_click_outcomes [Fixtures.recorderRefused]
              Fixtures.recorderRefused) as (_ & H1 & _).
  destruct (start_click_outcomes [Fixtures.recorderRefused]
              (Fixtures.recorderWith [])) as (_ & _ & H2).
  cbv zeta in H1, H2. fold w in H1, H2.
  split; [reflexivity|]. split.
  - now rewrite (H1 eq_refl eq_refl _ eq_refl).
  - now rewrite (H2 eq_refl eq_refl tt eq_refl).
Defined.
End MicControlFacts.

(** ** More on the real-time media session controller *)

Module AvatarVideoMore.
Import Js Eff AvatarVideo Vocabulary.

Ltac exec :=
  cbv [speak disconnect roomDisconnect mount mount_request connectAvatar
       connectAvatar_request connectAvatar_created connectAvatar_connected
       connectFailed instanceofError onRoomConnected onRoomDisconnected
       unmount enableAudio audioPlayed onTrackSubscribed
       mbind mret M_bind M_ret bind ret gets modify await throw tryCatch
       call emit onCtl setTimeout setRoomState setClosure
       setRoomRef setIsCreatingRef setHasSessionRef setAudioElementsRef
       setIsConnected setShowAudioEnableButton];
  cbn.

(** A session that [createAvatarSession] resolved with carries both
    connection fields. *)
Lemma created_session_fields fetch options data :
  Api.createAvatarSession fetch options = Resolve data ->
  exists url token,
    prop data "livekit_url" = Resolve (Some url)
    /\ prop data "livekit_token" = Resolve (Some token)
    /\ truthy url = true /\ truthy token = true.
Proof.
  unfold Api.createAvatarSession.
  destruct (Api.awaitFetch fetch _) as [res|e]; cbn; [|discriminate].
  destruct (Api.ok res); cbn.
  2:{ destruct (Api.failureMessage _ res) as [m|e]; cbn; [|discriminate].
      unfold Api.throwAvatarError.
      destruct (Api.mentionsConcurrencyLimit m) as [[|]|e]; discriminate. }
  destruct (Api.json_of res) as [body|e]; cbn; [|discriminate].
  destruct (prop body "detail") as [d|e]; cbn; [|discriminate].
  destruct (whenTruthy d) as [m|].
  { unfold Api.throwAvatarError.
    destruct (Api.mentionsConcurrencyLimit m) as [[|]|e]; discriminate. }
  destruct (prop body "livekit_url") as [[url|]|e] eqn:Hu; cbn;
    try discriminate;
    destruct (prop body "livekit_token") as [[token|]|e'] eqn:Ht; cbn;
    try discriminate.
  - destruct (truthy url) eqn:Htu; destruct (truthy token) eqn:Htt; cbn;
      try discriminate.
    intros [= <-]. exists url, token. now rewrite Hu, Ht.
  - destruct (truthy url); discriminate.
Qed.

(** The effect as run to completion is the effect as staged. *)
Lemma mount_staged env w :
  mount env w
  = (requested ← mount_request;
     if requested : bool then
       pending ← connectAvatar_created
                   (Api.createAvatarSession (fetch env) None);
       match pending with
       | Some r => connectAvatar_connected r (onConnect env)
       | None => mret tt
       end
     else mret tt) w.
Proof.
  cbv [mount mount_request connectAvatar mbind mret M_bind M_ret bind ret gets
       setHasSessionRef onCtl modify setClosure].
  destruct (isCreatingRef (ctl w) || hasSessionRef (ctl w)); [reflexivity|].
  destruct (present (sessionStorage w !! TOKEN_KEY)); [reflexivity|].
  cbv [connectAvatar_request mbind mret M_bind M_ret bind ret gets].
  cbn [ctl isMounted].
  destruct (isCreatingRef (ctl w) || negb true); reflexivity.
Qed.

(** X21.  [speak] on a connected room publishes once, on the topic
    "agent-control", the speak event that carries the text, and settles as
    the publication does, a rejection being logged and thrown again.  On a
    room that is there but not connected it publishes nothing and warns,
    naming the state of the room.  Either way the controller, the rooms,
    the storage and the timers are as before. *)
Theorem speak_publishes_once env text w r :
  roomRef (ctl w) = Some r ->
  (isRoomConnected w r = true ->
   speak env text w
   = (onPublishData env,
      staged w (ctl w) (rooms w)
        (PublishData r (speakEvent text) "agent-control"
         :: match onPublishData env with
            | Resolve _ => []
            | Reject e => [ConsoleError "Failed to send speak event:" (Some e)]
            end)))
  /\ (isRoomConnected w r = false ->
      speak env text w
      = (Resolve tt,
         staged w (ctl w) (rooms w)
           [ConsoleWarn ("Room not connected. Current state: "
                         +:+ showState (roomState w r)
                         +:+ ". Cannot send speak event.")])).
Proof.
  intros Hr. unfold staged. split; intros Hlive; exec; rewrite Hr; cbn;
    rewrite Hlive; cbn.
  - destruct (onPublishData env) as [[]|e]; cbn; now rewrite <- ?app_assoc.
  - reflexivity.
Qed.

Lemma speak_publishes_once_witness :
  let w := snd (mount Fixtures.studio Fixtures.freshTab) in
  log (snd (speak Fixtures.studio "Tell me about closures" w))
  = log w ++ [PublishData 0 (speakEvent "Tell me about closures") "agent-control"].
Proof.
  intros w.
  rewrite (proj1 (speak_publishes_once Fixtures.studio
                    "Tell me about closures" w 0 eq_refl) eq_refl).
  reflexivity.
Defined.

(** X22.  A mount that goes through.  On an instance with no session, no
    request pending and no token cached, when the backend grants a session
    and the room connects, the effect asks for one session, hands it to
    [onSessionCreated], connects a new room with the URL and token of that
    session, and ends connected: the handle names the room, the flags say
    connected and in session, [isCreatingRef] is down and [onConnected] is
    due in 500 ms.  The controller's own test for missing connection
    fields never fires on a session the client resolved with. *)
Theorem mount_connects env w data :
  isCreatingRef (ctl w) = false ->
  hasSessionRef (ctl w) = false ->
  present (sessionStorage w !! TOKEN_KEY) = None ->
  Api.createAvatarSession (fetch env) None = Resolve data ->
  onConnect env = Resolve tt ->
  let r := fresh (dom (rooms w)) in
  exists url token,
    prop data "livekit_url" = Resolve (Some url)
    /\ prop data "livekit_token" = Resolve (Some token)
    /\ mount env w
       = (Resolve tt,
          {| ctl := {| roomRef := Some r; isCreatingRef := false;
                       hasSessionRef := true;
                       audioElementsRef := audioElementsRef (ctl w);
                       isConnected := true;
                       showAudioEnableButton := showAudioEnableButton (ctl w) |};
             rooms := <[r := connected]> (rooms w);
             sessionStorage := sessionStorage w;
             isMounted := true;
             room := Some r;
             log := log w ++ [CreateAvatarSession; SessionCreated data;
                              RoomConnect r (Some url) (Some token)];
             timers := timers w ++ [(500%Z, CallOnConnected)] |}).
Proof.
  intros Hc Hs Ht Hd Hconn r.
  destruct (created_session_fields _ _ _ Hd) as (url & token & Hu & Htok & Htu & Htt).
  exists url, token. split; [exact Hu|]. split; [exact Htok|].
  exec. rewrite Hc, Hs. cbn. rewrite Ht. cbn. rewrite Hc. cbn.
  rewrite Hd. cbn. rewrite Hu. cbn. rewrite Htok. cbn. rewrite Htu, Htt. cbn.
  rewrite Hconn. cbn. subst r.
  rewrite !insert_insert_eq, <- !app_assoc. reflexivity.
Qed.

Lemma mount_connects_witness :
  let w := snd (mount Fixtures.studio Fixtures.freshTab) in
  roomRef (ctl w) = Some 0
  /\ isConnected (ctl w) = true
  /\ timers w = [(500%Z, CallOnConnected)].
Proof.
  intros w.
  destruct (mount_connects Fixtures.studio Fixtures.freshTab
              (JObj [("session_token", JStr "tok-1");
                     ("session_id", JStr "av-1");
                     ("livekit_url", JStr "wss://rooms");
                     ("livekit_token", JStr "jwt");
                     ("room_name", JStr "room-1")])
              eq_refl eq_refl eq_refl eq_refl eq_refl)
    as (url & token & _ & _ & H).
  subst w. rewrite H. cbn. now repeat split.
Defined.

(** X23.  A session that is refused.  When [createAvatarSession] rejects,
    the effect has asked once and asks no more: no room is made, the
    controller is as it was with [isCreatingRef] down again, and no timer
    is set.  The user is alerted exactly when the error carries the
    concurrency-limit tag; any other error is only logged, once as it is
    and once for its message. *)
Theorem session_refused env w e :
  isCreatingRef (ctl w) = false ->
  hasSessionRef (ctl w) = false ->
  present (sessionStorage w !! TOKEN_KEY) = None ->
  Api.createAvatarSession (fetch env) None = Reject e ->
  let out := mount env w in
  fst out = Resolve tt
  /\ ctl (snd out) = ctl w
  /\ rooms (snd out) = rooms w
  /\ timers (snd out) = timers w
  /\ log (snd out)
     = log w ++ CreateAvatarSession
          :: (if tagged e
              then [ConsoleError "Concurrency limit reached:" (Some e);
                    Alert "Too many active sessions. Please wait a moment and try again."]
              else [ConsoleError "Failed to connect avatar:" (Some e);
                    ConsoleError "Error details:" (Some e)]).
Proof.
  intros Hc Hs Ht Hd out.
  assert (Hrun : mount env w
                 = (Resolve tt,
                    {| ctl := ctl w; rooms := rooms w;
                       sessionStorage := sessionStorage w;
                       isMounted := true; room := None;
                       log := log w ++ CreateAvatarSession
                         :: (if tagged e
                             then [ConsoleError "Concurrency limit reached:" (Some e);
                                   Alert "Too many active sessions. Please wait a moment and try again."]
                             else [ConsoleError "Failed to connect avatar:" (Some e);
                                   ConsoleError "Error details:" (Some e)]);
                       timers := timers w |})).
  { destruct w as [[rr cr hs ae ic sb] rs st im rm lg tm].
    cbn in Hc, Hs, Ht. subst cr hs.
    exec. rewrite Ht. cbn. rewrite Hd. cbn.
    destruct e as [m [|]| | | |]; cbn; now rewrite <- ?app_assoc. }
  subst out. rewrite Hrun. cbn [fst snd ctl rooms timers log].
  split; [reflexivity|]. split; [reflexivity|]. split; [reflexivity|].
  split; reflexivity.
Qed.

Lemma session_refused_witness :
  let out := mount Fixtures.crowded Fixtures.freshTab in
  let out' := mount Fixtures.unreachable Fixtures.freshTab in
  (existsb isAlert (log (snd out)) = true
   /\ rooms (snd out) = ∅
   /\ timers (snd out) = [])
  /\ log (snd out')
     = [CreateAvatarSession;
        ConsoleError "Failed to connect avatar:" (Some NetworkError);
        ConsoleError "Error details:" (Some NetworkError)].
Proof.
  intros out out'.
  pose proof (session_refused Fixtures.crowded Fixtures.freshTab
                (Error (JStr "Concurrency limit reached") true)
                eq_refl eq_refl eq_refl eq_refl)
    as (_ & _ & H1 & H2 & H3).
  pose proof (session_refused Fixtures.unreachable Fixtures.freshTab
                NetworkError eq_refl eq_refl eq_refl eq_refl)
    as (_ & _ & _ & _ & H4).
  split.
  - subst out. rewrite H3. split; [reflexivity|]. split; [exact H1 | exact H2].
  - exact H4.
Defined.

(** X24.  An unmount while the session request is pending.  The cleanup
    only lowers [isMounted], for no room exists yet, and a second run of
    the effect on the same instance sends nothing, [isCreatingRef] being
    up.  A session that then arrives is dropped: no callback, no room, no
    log, and [isCreatingRef] stays up, so that every later mount of this
    instance does nothing.  An error that then arrives lowers
    [isCreatingRef] and is neither logged nor shown, tagged or not. *)
Theorem unmount_while_pending env w :
  isCreatingRef (ctl w) = false ->
  hasSessionRef (ctl w) = false ->
  present (sessionStorage w !! TOKEN_KEY) = None ->
  let w1 := snd (mount_request w) in
  let w2 := snd (unmount env w1) in
  fst (mount_request w) = Resolve true
  /\ log w2 = log w ++ [CreateAvatarSession]
  /\ isCreatingRef (ctl w2) = true
  /\ mount_request w2 = (Resolve false, w2)
  /\ (forall data, connectAvatar_created (Resolve data) w2 = (Resolve None, w2))
  /\ (forall env', mount env' w2 = (Resolve tt, w2))
  /\ (forall e,
      fst (connectAvatar_created (Reject e) w2) = Resolve None
      /\ isCreatingRef (ctl (snd (connectAvatar_created (Reject e) w2))) = false
      /\ hasSessionRef (ctl (snd (connectAvatar_created (Reject e) w2))) = false
      /\ rooms (snd (connectAvatar_created (Reject e) w2)) = rooms w
      /\ log (snd (connectAvatar_created (Reject e) w2)) = log w2).
Proof.
  intros Hc Hs Ht w1 w2.
  pose (pending :=
          {| ctl := {| roomRef := roomRef (ctl w); isCreatingRef := true;
                       hasSessionRef := false;
                       audioElementsRef := audioElementsRef (ctl w);
                       isConnected := isConnected (ctl w);
                       showAudioEnableButton := showAudioEnableButton (ctl w) |};
             rooms := rooms w; sessionStorage := sessionStorage w;
             isMounted := false; room := None;
             log := log w ++ [CreateAvatarSession]; timers := timers w |}).
  assert (H1 : mount_request w
               = (Resolve true,
                  {| ctl := ctl pending; rooms := rooms w;
                     sessionStorage := sessionStorage w;
                     isMounted := true; room := None;
                     log := log w ++ [CreateAvatarSession];
                     timers := timers w |})).
  { cbv [mount_request connectAvatar_request mbind mret M_bind M_ret bind ret
         gets modify emit setClosure setIsCreatingRef onCtl].
    rewrite Hc, Hs. cbn [orb]. rewrite Ht.
    cbn [ctl rooms sessionStorage isMounted room log timers isCreatingRef].
    rewrite Hc. cbn [orb negb]. subst pending. cbn [ctl].
    now rewrite Hs. }
  assert (H2 : w2 = pending).
  { subst w2 w1. rewrite H1. reflexivity. }
  rewrite H1, H2. clear w1 w2 H1 H2.
  split; [reflexivity|]. split; [reflexivity|]. split; [reflexivity|].
  split; [reflexivity|]. split; [reflexivity|].
  split; [intros env'; reflexivity|].
  intros e. split; [reflexivity|]. split; [reflexivity|].
  split; [reflexivity|]. split; reflexivity.
Qed.

Lemma unmount_while_pending_witness :
  let w2 := snd (unmount Fixtures.studio
                   (snd (mount_request Fixtures.freshTab))) in
  connectAvatar_created
    (Api.createAvatarSession Fixtures.avatarBackend None) w2
  = (Resolve None, w2)
  /\ mount Fixtures.studio w2 = (Resolve tt, w2).
Proof.
  intros w2.
  pose proof (unmount_while_pending Fixtures.studio Fixtures.freshTab
                eq_refl eq_refl eq_refl)
    as (_ & _ & _ & _ & H1 & H2 & _).
  split; [apply H1 | apply H2].
Defined.

(** *** Audio that waits for the user *)

Lemma track_subscribed env kind w :
  exists button events,
    onTrackSubscribed env kind w
    = (Resolve tt,
       staged w
         {| roomRef := roomRef (ctl w); isCreatingRef := isCreatingRef (ctl w);
            hasSessionRef := hasSessionRef (ctl w);
            audioElementsRef :=
              audioElementsRef (ctl w)
              ++ match kind, audioRefCurrent env with
                 | audio, Some _ => [AudioTag]
                 | _, _ => []
                 end;
            isConnected := isConnected (ctl w);
            showAudioEnableButton := button |}
         (rooms w) events).
Proof.
  destruct w as [[rr cr hs ae ic sb] rs st im rm lg tm]. unfold staged.
  destruct kind.
  - exists sb, []. cbn. now rewrite !app_nil_r.
  - cbv [onTrackSubscribed mbind mret M_bind M_ret bind ret gets modify emit
         onCtl setAudioElementsRef setShowAudioEnableButton].
    destruct (audioRefCurrent env) as [[]|].
    2:{ exists sb, []. cbn. now rewrite !app_nil_r. }
    cbn [ctl rooms sessionStorage isMounted room log timers roomRef
         isCreatingRef hasSessionRef audioElementsRef isConnected
         showAudioEnableButton].
    destruct (onPlay env) as [[]|e].
    + do 2 eexists. reflexivity.
    + destruct e as [m t| | | |name]; try (do 2 eexists; cbn;
        rewrite <- app_assoc; reflexivity).
      destruct (String.eqb name "NotAllowedError") eqn:Hname.
      * apply String.eqb_eq in Hname. subst name. do 2 eexists. cbn.
        rewrite <- app_assoc. reflexivity.
      * assert (Hother :
          forall (A : Type) (a b : A),
            match name with
            | "NotAllowedError" => a
            | _ => b
            end = b).
        { intros A a b. apply String.eqb_neq in Hname.
          repeat (let c := fresh "c" in
                  destruct name as [|c name]; [reflexivity|];
                  destruct c as [[|] [|] [|] [|] [|] [|] [|] [|]];
                  try reflexivity).
          destruct name; [congruence | reflexivity]. }
        do 2 eexists. cbn. rewrite Hother. cbn. rewrite <- app_assoc.
        reflexivity.
Qed.

Lemma subscribed_elements tracks :
  forall w,
    let w' := subscribed tracks w in
    audioElementsRef (ctl w')
    = audioElementsRef (ctl w) ++ repeat AudioTag (audioTracks tracks)
    /\ roomRef (ctl w') = roomRef (ctl w)
    /\ isConnected (ctl w') = isConnected (ctl w)
    /\ hasSessionRef (ctl w') = hasSessionRef (ctl w)
    /\ isCreatingRef (ctl w') = isCreatingRef (ctl w)
    /\ rooms w' = rooms w
    /\ timers w' = timers w.
Proof.
  induction tracks as [|[env kind] rest IH]; intros w.
  - cbn. rewrite app_nil_r. now repeat split.
  - cbn [subscribed].
    destruct (track_subscribed env kind w) as (button & events & ->).
    cbn [snd].
    destruct (IH (staged w
                    {| roomRef := roomRef (ctl w);
                       isCreatingRef := isCreatingRef (ctl w);
                       hasSessionRef := hasSessionRef (ctl w);
                       audioElementsRef :=
                         audioElementsRef (ctl w)
                         ++ match kind, audioRefCurrent env with
                            | audio, Some _ => [AudioTag]
                            | _, _ => []
                            end;
                       isConnected := isConnected (ctl w);
                       showAudioEnableButton := button |}
                    (rooms w) events))
      as (H1 & H2 & H3 & H4 & H5 & H6 & H7).
    cbv zeta in *. rewrite H1, H2, H3, H4, H5, H6, H7. cbn.
    repeat split. unfold audioTracks. cbn.
    destruct kind; [now rewrite app_nil_r|].
    destruct (audioRefCurrent env); cbn; now rewrite <- ?app_assoc, ?app_nil_r.
Qed.

(** An audio track that finds no [<audio>] element in the page is let go. *)
Lemma track_without_element env w :
  audioRefCurrent env = None ->
  onTrackSubscribed env audio w = (Resolve tt, w).
Proof. intros H. unfold onTrackSubscribed. now rewrite H. Qed.

Lemma enableAudio_plays env w :
  enableAudio env w
  = (Resolve tt,
     staged w
       {| roomRef := roomRef (ctl w); isCreatingRef := isCreatingRef (ctl w);
          hasSessionRef := hasSessionRef (ctl w);
          audioElementsRef := audioElementsRef (ctl w);
          isConnected := isConnected (ctl w);
          showAudioEnableButton := false |}
       (rooms w)
       ((if audioContextSuspended env
         then ResumeAudioContext
              :: complaint "Failed to resume AudioContext:" (onResume env)
         else [])
        ++ map (fun _ => PlayAudio) (audioElementsRef (ctl w))
        ++ flat_map (fun _ => complaint "Failed to play audio element:"
                                (onPlay env))
             (audioElementsRef (ctl w)))).
Proof.
  assert (Hplay : forall elements w0,
             forEach (fun _ : AudioElement => emit PlayAudio) elements w0
             = (Resolve tt,
                staged w0 (ctl w0) (rooms w0) (map (fun _ => PlayAudio) elements))).
  { induction elements as [|x rest IH]; intros [c rs st im rm lg tm].
    - unfold staged. cbn. now rewrite app_nil_r.
    - cbn [forEach]. unfold Eff.bind at 1. unfold emit at 1, modify. cbn.
      rewrite IH. unfold staged. cbn. now rewrite <- app_assoc. }
  assert (Hplayed : forall elements w0,
             forEach (fun _ : AudioElement => audioPlayed env) elements w0
             = (Resolve tt,
                staged w0 (ctl w0) (rooms w0)
                  (flat_map (fun _ => complaint "Failed to play audio element:"
                                        (onPlay env)) elements))).
  { induction elements as [|x rest IH]; intros [c rs st im rm lg tm].
    - unfold staged. cbn. now rewrite app_nil_r.
    - cbn [forEach flat_map]. unfold Eff.bind at 1.
      unfold audioPlayed at 1, tryCatch, await, emit, modify.
      destruct (onPlay env) as [[]|e]; cbn [complaint app];
        rewrite IH; unfold staged; cbn; now rewrite <- ?app_assoc. }
  destruct w as [[rr cr hs ae ic sb] rs st im rm lg tm].
  cbv [enableAudio mbind mret M_bind M_ret bind ret gets modify emit onCtl
       setShowAudioEnableButton tryCatch call await].
  destruct (audioContextSuspended env); [destruct (onResume env) as [[]|e]|];
    cbn [ctl audioElementsRef]; rewrite Hplay; unfold staged;
    cbn [ctl rooms sessionStorage isMounted room log timers roomRef
         isCreatingRef hasSessionRef audioElementsRef isConnected
         showAudioEnableButton];
    rewrite Hplayed; unfold staged; cbn; now rewrite <- ?app_assoc.
Qed.

(** X25.  Audio that waits for the user.  Every audio track subscribed
    while the [<audio>] element is in the page adds that element to the
    list the controller keeps, however its [play()] settles; a video track
    adds nothing, nor does an audio track that finds no element, which is
    let go without a trace.  The handle, the rooms and the timers are not
    touched.  A [play()] rejected with [NotAllowedError] brings up the
    button, one that resolves takes it down.  [enableAudio] never throws:
    it resumes a suspended audio context, calls [play()] on every element
    of the list once, takes the button down, and logs each rejection, of
    the resumption or of a [play()], without passing it on. *)
Theorem audio_waits_for_user tracks env w :
  let w' := subscribed tracks w in
  audioElementsRef (ctl w')
  = audioElementsRef (ctl w) ++ repeat AudioTag (audioTracks tracks)
  /\ roomRef (ctl w') = roomRef (ctl w)
  /\ rooms w' = rooms w
  /\ timers w' = timers w
  /\ (audioRefCurrent env = None ->
      onTrackSubscribed env audio w' = (Resolve tt, w'))
  /\ (audioRefCurrent env <> None ->
      onPlay env = Reject (DOMException "NotAllowedError") ->
      showAudioEnableButton (ctl (snd (onTrackSubscribed env audio w'))) = true)
  /\ (audioRefCurrent env <> None ->
      onPlay env = Resolve tt ->
      showAudioEnableButton (ctl (snd (onTrackSubscribed env audio w'))) = false)
  /\ fst (enableAudio env w') = Resolve tt
  /\ showAudioEnableButton (ctl (snd (enableAudio env w'))) = false
  /\ log (snd (enableAudio env w'))
     = log w'
       ++ (if audioContextSuspended env
           then ResumeAudioContext
                :: complaint "Failed to resume AudioContext:" (onResume env)
           else [])
       ++ map (fun _ => PlayAudio) (audioElementsRef (ctl w'))
       ++ flat_map (fun _ => complaint "Failed to play audio element:"
                               (onPlay env))
            (audioElementsRef (ctl w')).
Proof.
  intros w'.
  destruct (subscribed_elements tracks w) as (H1 & H2 & _ & _ & _ & H3 & H4).
  fold w' in H1, H2, H3, H4.
  split; [exact H1|]. split; [exact H2|]. split; [exact H3|].
  split; [exact H4|].
  split; [exact (track_without_element env w')|].
  split; [|split; [|split; [|split]]].
  - intros He Hp. exec. destruct (audioRefCurrent env); [|congruence].
    cbn. now rewrite Hp.
  - intros He Hp. exec. destruct (audioRefCurrent env); [|congruence].
    cbn. now rewrite Hp.
  - now rewrite enableAudio_plays.
  - now rewrite enableAudio_plays.
  - now rewrite enableAudio_plays.
Qed.

Lemma audio_waits_for_user_witness :
  let w := snd (mount Fixtures.muted Fixtures.freshTab) in
  let w1 := snd (onTrackSubscribed Fixtures.muted audio
                   (subscribed [(Fixtures.muted, video)] w)) in
  showAudioEnableButton (ctl w1) = true
  /\ audioElementsRef (ctl w1) = [AudioTag]
  /\ log (snd (enableAudio Fixtures.muted w1))
     = log w1
       ++ [ResumeAudioContext; PlayAudio;
           ConsoleError "Failed to play audio element:"
             (Some (DOMException "NotAllowedError"))].
Proof.
  intros w w1.
  destruct (audio_waits_for_user [(Fixtures.muted, video)] Fixtures.muted w)
    as (_ & _ & _ & _ & _ & H & _).
  assert (He : audioRefCurrent Fixtures.muted <> None) by discriminate.
  split; [exact (H He eq_refl)|].
  split; [reflexivity|].
  destruct (audio_waits_for_user
              [(Fixtures.muted, video); (Fixtures.muted, audio)]
              Fixtures.muted w)
    as (_ & _ & _ & _ & _ & _ & _ & _ & _ & Hlog).
  exact Hlog.
Defined.

(** *** Leaving *)

(** What the cleanup leaves of an instance whose effect made a room. *)
Lemma unmount_run env w h :
  room w = Some h ->
  unmount env w
  = (Resolve tt,
     {| ctl := {| roomRef := None; isCreatingRef := isCreatingRef (ctl w);
                  hasSessionRef := hasSessionRef (ctl w);
                  audioElementsRef := audioElementsRef (ctl w);
                  isConnected := match onRoomDisconnect env with
                                 | Resolve _ => false
                                 | Reject _ => isConnected (ctl w)
                                 end;
                  showAudioEnableButton := showAudioEnableButton (ctl w) |};
        rooms := match onRoomDisconnect env with
                 | Resolve _ => <[h := disconnected]> (rooms w)
                 | Reject _ => rooms w
                 end;
        sessionStorage := sessionStorage w;
        isMounted := false;
        room := Some h;
        log := log w ++ [RoomDisconnect h];
        timers := timers w |}).
Proof.
  intros Hr. destruct w as [[rr cr hs ae ic sb] rs st im rm lg tm].
  cbn in Hr. subst rm.
  cbv [unmount mbind mret M_bind M_ret bind ret gets modify emit onCtl
       setClosure setRoomRef setRoomState onRoomDisconnected setIsConnected].
  cbn [ctl rooms sessionStorage isMounted room log timers roomRef
       isCreatingRef hasSessionRef audioElementsRef isConnected
       showAudioEnableButton].
  now destruct (onRoomDisconnect env).
Qed.

(** The effect does nothing on an instance that holds a session. *)
Lemma mount_in_session env w :
  hasSessionRef (ctl w) = true ->
  mount env w = (Resolve tt, w).
Proof.
  intros Hs. cbv [mount mbind mret M_bind M_ret bind ret gets].
  now rewrite Hs, orb_true_r.
Qed.

(** X26.  The cleanup lets go of the room for good.  Run on an instance
    whose effect made a room, it lowers [isMounted], calls the room's
    [disconnect] once and clears the handle without waiting for it,
    leaving [hasSessionRef] as it was.  If the room's [disconnect] goes
    through, the room is disconnected and the connected flag is down; if
    it is refused, the room and the flag stay as they were, and nothing is
    logged.  Either way the room is then out of reach: [speak] only warns,
    [disconnect] calls nothing, and if the instance was in session,
    running its effect again does nothing, so the instance does not
    reconnect. *)
Theorem unmount_tears_down env w h :
  room w = Some h ->
  let w' := snd (unmount env w) in
  fst (unmount env w) = Resolve tt
  /\ isMounted w' = false
  /\ roomRef (ctl w') = None
  /\ hasSessionRef (ctl w') = hasSessionRef (ctl w)
  /\ log w' = log w ++ [RoomDisconnect h]
  /\ match onRoomDisconnect env with
     | Resolve _ =>
         rooms w' = <[h := disconnected]> (rooms w)
         /\ isConnected (ctl w') = false
     | Reject _ =>
         rooms w' = rooms w
         /\ isConnected (ctl w') = isConnected (ctl w)
     end
  /\ (forall env' text,
      speak env' text w'
      = (Resolve tt,
         staged w' (ctl w') (rooms w')
           [ConsoleWarn "Room not initialized. Cannot send speak event."]))
  /\ (forall env',
      fst (disconnect env' w') = Resolve tt
      /\ log (snd (disconnect env' w')) = log w'
      /\ rooms (snd (disconnect env' w')) = rooms w')
  /\ (hasSessionRef (ctl w) = true ->
      forall env', mount env' w' = (Resolve tt, w')).
Proof.
  intros Hr w'.
  pose proof (unmount_run env w h Hr) as Hrun.
  assert (Hnone : roomRef (ctl w') = None).
  { subst w'. rewrite Hrun. now destruct (onRoomDisconnect env). }
  assert (Hsess : hasSessionRef (ctl w') = hasSessionRef (ctl w)).
  { subst w'. rewrite Hrun. now destruct (onRoomDisconnect env). }
  split; [now rewrite Hrun|].
  split; [subst w'; rewrite Hrun; reflexivity|].
  split; [exact Hnone|]. split; [exact Hsess|].
  split; [subst w'; rewrite Hrun; reflexivity|].
  split.
  { subst w'. rewrite Hrun. destruct (onRoomDisconnect env); now split. }
  split.
  { intros env' text. unfold staged.
    apply AvatarVideoFacts.speak_without_room. exact Hnone. }
  split.
  { intros env'.
    rewrite AvatarVideoFacts.disconnect_idle
      by (unfold notConnected; now rewrite Hnone).
    now repeat split. }
  intros Hs env'. apply mount_in_session. now rewrite Hsess.
Qed.

Lemma unmount_tears_down_witness :
  let w := snd (mount Fixtures.studio Fixtures.freshTab) in
  let w' := snd (unmount Fixtures.studio w) in
  let v' := snd (unmount Fixtures.stubborn w) in
  (isConnected (ctl w) = true
   /\ roomRef (ctl w') = None
   /\ rooms w' !! 0 = Some disconnected
   /\ mount Fixtures.studio w' = (Resolve tt, w'))
  /\ (roomRef (ctl v') = None
      /\ rooms v' !! 0 = Some connected
      /\ isConnected (ctl v') = true
      /\ log (snd (disconnect Fixtures.studio v')) = log v').
Proof.
  intros w w' v'.
  assert (Hroom : room w = Some 0) by (vm_compute; reflexivity).
  assert (Hs : hasSessionRef (ctl w) = true) by (vm_compute; reflexivity).
  pose proof (unmount_tears_down Fixtures.studio w 0 Hroom)
    as (_ & _ & H1 & _ & _ & H2 & _ & _ & H3).
  pose proof (unmount_tears_down Fixtures.stubborn w 0 Hroom)
    as (_ & _ & G1 & _ & _ & G2 & _ & G3 & _).
  destruct (H2 : rooms w' = <[0 := disconnected]> (rooms w)
                 /\ isConnected (ctl w') = false) as [E _].
  destruct (G2 : rooms v' = rooms w
                 /\ isConnected (ctl v') = isConnected (ctl w)) as [F1 F2].
  split.
  - split; [vm_compute; reflexivity|]. split; [exact H1|].
    split; [|exact (H3 Hs Fixtures.studio)].
    rewrite E. apply lookup_insert_eq.
  - split; [exact G1|].
    split; [rewrite F1; vm_compute; reflexivity|].
    split; [rewrite F2; vm_compute; reflexivity|].
    exact (proj1 (proj2 (G3 Fixtures.studio))).
Defined.

(** X27.  A teardown that fails can be tried again.  When the room is
    connected and its [disconnect] rejects, [disconnect] throws the same
    error and resets nothing: the handle, the flags and the rooms are as
    before.  A second call, the room now willing, ends without error with
    the controller reset and the room disconnected. *)
Theorem failed_disconnect_can_be_retried env env' w r e :
  roomRef (ctl w) = Some r ->
  isRoomConnected w r = true ->
  onRoomDisconnect env = Reject e ->
  onRoomDisconnect env' = Resolve tt ->
  let out := disconnect env w in
  let again := disconnect env' (snd out) in
  fst out = Reject e
  /\ ctl (snd out) = ctl w
  /\ rooms (snd out) = rooms w
  /\ fst again = Resolve tt
  /\ ctl (snd again) = afterReset (ctl w)
  /\ rooms (snd again) = <[r := disconnected]> (rooms w)
  /\ isRoomConnected (snd again) r = false.
Proof.
  intros Hr Hlive Hko Hok out again. subst again out.
  rewrite (AvatarVideoFacts.disconnect_failed env w r e Hr Hlive Hko).
  cbn [fst snd ctl rooms].
  rewrite (AvatarVideoFacts.disconnect_live env' _ r) by assumption.
  cbn. repeat split.
  unfold isRoomConnected, roomState. cbn. now rewrite lookup_insert_eq.
Qed.

Lemma failed_disconnect_can_be_retried_witness :
  let w := snd (mount Fixtures.stubborn Fixtures.freshTab) in
  let out := disconnect Fixtures.stubborn w in
  fst out = Reject NetworkError
  /\ roomRef (ctl (snd out)) = Some 0
  /\ fst (disconnect Fixtures.studio (snd out)) = Resolve tt.
Proof.
  intros w out.
  pose proof (failed_disconnect_can_be_retried Fixtures.stubborn Fixtures.studio
                w 0 NetworkError eq_refl eq_refl eq_refl eq_refl)
    as (H1 & H2 & _ & H3 & _).
  split; [exact H1|]. split; [|exact H3].
  subst out. now rewrite H2.
Defined.

End AvatarVideoMore.
